(* ===== verification/_CoqProject ===== *)
-Q . S2P
Prelude.v
Python.v
World.v
Budget.v
Image.v
Doubles.v
ImageAnalyzer.v
Service.v
Upscale.v
Generator.v
Poller.v
Bounds.v
Batch.v
