(* ===== verification/Prelude.v ===== *)
(** * InstaNexus: a verification library for the image-generation pipeline

    The repository automates Instagram content production.  Its engineering
    core, and the subject of this development, is the pipeline of
    [src/src/content_generation]:

    - [image_analyzer.py], class [ImageAnalyzer]: the quality scorer
      ([calculate_sharpness], [calculate_contrast], [calculate_detail],
      [calculate_noise], [analyze_image]), the grid splitter
      ([split_grid_image]) and the selectors ([analyze_grid_image],
      [select_best_image], with [download_image]).
    - [ai_content_generator.py], class [AIContentGenerator]: construction and
      the API-key probe ([__init__], [_test_api_keys]), the orchestrator
      [generate_image] (submission, the polling loop of at most 30 attempts,
      grid download, selection, the upscale request and its own polling loop,
      the final download) and the batch drivers
      ([generate_historical_content], [generate_batch_content]).

    ** Files, in dependency order

    - [Prelude] (this file): the result type [outcome] (a returned value or a
      raised exception, carrying [str(e)]), the state-and-exception monad
      [M W] in which every effectful method is written, [try_catch] for
      [try/except Exception], [for_range] for [for i in range(n)] with
      [return]/[break]/[continue], pointwise equivalence of programs with its
      [Proper] instances, the monad laws, and the hint database [nexus].
    - [Python]: the Python values that [response.json()] yields ([pyval]) and
      the builtins the sources apply to them: [dict.get], truthiness,
      [str.lower], [in], [str()], [max], [list.index], with the exception each
      raises on a value of the wrong type.
    - [World]: what the program can observe and change: the remote HTTP
      service (an interface, [Remote]), the clock, the environment, the file
      system (files, directories, and the paths where the operating system
      refuses a directory), and the trace of requests, sleeps, writes and
      created directories; the primitive effects [requests_get],
      [requests_post], [time_sleep], [int_time], [os_getenv], [os_makedirs],
      [write_file].
    - [Budget]: budgets of requests, seconds of sleep and writes, the
      judgement [spends m b] (every run of [m] adds to the trace a piece
      within [b]) with its rules for sequences, handlers, conditionals and
      loops, and the tactic [spend] that applies them.
    - [Image]: PIL images (size, lazily loaded pixels, [crop]), the numpy
      array of an image with its [mean] and [var], unsigned 8-bit arithmetic
      with wrap-around, and the interfaces [Vision] (the OpenCV calls of the
      scorer) and [ImageCodec] ([Image.open]).
    - [Doubles]: executable instances of the interfaces, on which the
      theorems are run at concrete inputs: a remote that answers from a
      script, a toy image format, a toy computer-vision library.
    - [ImageAnalyzer]: [image_analyzer.py], method by method, and its
      theorems: the score lies in [0,1] and is the weighted sum of the four
      clamped measurements, an image that does not load scores 0, the
      splitter yields the four quadrants in row-major order, the selectors
      answer the first maximum and never raise, the noise measure wraps
      around.
    - [Service]: the parts of [ai_content_generator.py] that its methods
      share: the object [AIContentGenerator] as a record, headers, payloads
      and URLs, the loop bounds [max_polls] and [poll_interval], the chained
      [.get] on JSON ([get_in]), and the polls that wait ([after_polls]).
    - [Upscale]: the grid branch of [generate_image] ([upscale_best],
      [request_upscale], [upscale_poll_once]) and its theorems: the 1-based
      index on the wire, the upscaled URL on success, the URL of the grid on
      each fallback, the exceptions that escape the branch.
    - [Generator]: [generate_image] ([submit_imagine], [poll_once],
      [poll_completed], [download_final]) and its theorems: time-out after
      exactly 30 polls and 300 seconds, each failure with its message, the
      stored file on success, with and without grid.
    - [Poller]: the task poller of the design as a state machine (a step
      relation on [Waiting], [Finished], [Failed], [Exhausted], labelled by
      what a reply decides), its runs against a remote (deterministic, at
      most [max_polls] polls, computed by [poll_until_terminal]), and the
      refinement theorem: the loop of [generate_image] is that machine,
      followed by the grid branch and the final download on completion.
    - [Bounds]: the budget of [generate_image] for every remote (62 GET,
      2 POST, 590 seconds, 2 files), and the runs that attain it, for every
      generator and world.
    - [Batch]: [__init__], [_test_api_keys], [generate_historical_content]
      and [generate_batch_content], and their theorems: what the constructor
      builds and when it raises, the flags that the probes set, packages and
      batches never raise, one record for each item, the pauses of a batch,
      and what the class does as it stands, without the two methods it calls
      and does not define.

    ** How the model corresponds to the code

    - A method is a definition of the same name; a method with effects is a
      program of the monad [M (World R)], where [R] is the state of the
      remote service.  A method that assigns to [self] answers the updated
      record.  A long method is cut along its blocks, each block a definition
      that the method composes as the source does (the map of the manifest
      names the lines of each).
    - An exception is modelled by its message; the sources only ever catch
      [Exception] and only ever use [str(e)].
    - Floats are modelled as rationals [Q]; theorems about scores are stated
      up to [Qeq].  Rounding and NaN are not modelled.  [int(time.time())] is
      the truncation of the clock toward zero ([py_int]).
    - A [uint8] is an integer with its wrap-around modulo 256 written out.
    - [os.makedirs] raises when a regular file is at the path, and otherwise
      when the world says so ([refused], which stands for every other cause
      of an [OSError]: a file at an ancestor, a missing permission).
      Writing a file is assumed to succeed: the sources write only into the
      directory that the constructor has created, and the theorems about
      stored files are theorems about runs in which the volume accepts the
      write.
    - [str.lower] folds the letters A to Z only: the statuses of the service
      are ASCII.
    - OpenCV, PIL's decoder, the HTTP service, the random source and the
      formatting of compound Python values are interfaces (type classes)
      with the laws the proofs need; theorems hold for every instance.
    - The effectful blocks are proved against pure readings of a reply
      ([submitted], [poll_decide], [upscale_submitted], [upscale_decide],
      [openai_probe], [midjourney_probe]): a block run on a world is what the
      reading says, for every reply.

    ** Bounds and fuel

    Both loops of the sources are [for i in range(max_polls)] with
    [max_polls = 30], and the batch loop is [for i in range(count)]: they
    are structural recursions on the number of iterations left
    ([for_range], [for_each]), so no fuel is needed and every program of the
    development terminates by construction.  The budgets of [Bounds] make
    the cost of that termination explicit, and the machine of [Poller]
    needs no fuel either: [poller_exec] recurses on the attempts left, and
    thirty are enough because the step relation allows no more.

    ** Findings

    The theorems record where the code departs from its design: the noise
    measure wraps around (C8); an exception of the transport during a poll
    and a task in progress whose [output] is null end the generation (C2);
    an exception inside the grid branch is not turned into the fallback
    (C23, C24, C26); a generation may sleep 590 seconds, not 300 (C27, C29);
    the class calls two methods that it does not define (C34); the
    constructor submits a real task to probe the key (C36), also when it
    then fails to create its directories (C39).

    ** Not modelled

    Logging (no control flow depends on it), the command-line entry of
    [ai_content_generator.py], and the packages [instagram_bot],
    [scheduler], [web_interface], [utils] and [analytics], each an
    [__init__.py] that re-exports modules absent from the repository;
    [run_web_interface.py] only starts the web server.  The wall-clock time
    that a request itself takes is an unconstrained part of a reply: the
    theorems bound sleeping time, not elapsed time. *)

From stdpp Require Import base option list strings.
From Stdlib Require Import QArith Qminmax Lqa.

Declare Scope prog_scope.
Delimit Scope prog_scope with prog.

Create HintDb nexus discriminated.
Create Rewrite HintDb nexus_rw.

(** ** Outcomes: a value, or a raised exception with its message *)

Inductive outcome (A : Type) : Type :=
| Ok (a : A)
| Raise (msg : string).
Arguments Ok {A} a.
Arguments Raise {A} msg.

Definition is_ok {A} (o : outcome A) : bool :=
  match o with Ok _ => true | Raise _ => false end.

Definition outcome_bind {A B} (o : outcome A) (f : A → outcome B) : outcome B :=
  match o with Ok a => f a | Raise e => Raise e end.

Definition outcome_value {A} (o : outcome A) : option A :=
  match o with Ok a => Some a | Raise _ => None end.

#[export] Instance outcome_ret : MRet outcome := λ A, @Ok A.
#[export] Instance outcome_mbind : MBind outcome := λ A B f o, outcome_bind o f.
#[export] Instance outcome_throw : MThrow string outcome := λ A, @Raise A.

(** ** The state-and-exception monad *)

Definition M (W A : Type) : Type := W → outcome A * W.

Definition ret {W A} (a : A) : M W A := λ w, (Ok a, w).

Definition raise {W A} (msg : string) : M W A := λ w, (Raise msg, w).

Definition bind {W A B} (m : M W A) (f : A → M W B) : M W B :=
  λ w, match m w with
       | (Ok a, w') => f a w'
       | (Raise e, w') => (Raise e, w')
       end.

Definition try_catch {W A} (m : M W A) (handler : string → M W A) : M W A :=
  λ w, match m w with
       | (Ok a, w') => (Ok a, w')
       | (Raise e, w') => handler e w'
       end.

Definition get_world {W} : M W W := λ w, (Ok w, w).

Definition modify_world {W} (f : W → W) : M W unit := λ w, (Ok tt, f w).

Definition lift_outcome {W A} (o : outcome A) : M W A := λ w, (o, w).

Definition run {W A} (m : M W A) (w : W) : outcome A := fst (m w).

Definition exec {W A} (m : M W A) (w : W) : W := snd (m w).

#[export] Instance M_ret {W} : MRet (M W) := λ A, @ret W A.
#[export] Instance M_bind {W} : MBind (M W) := λ A B f m, bind m f.
#[export] Instance M_fmap {W} : FMap (M W) := λ A B f m, bind m (λ a, ret (f a)).
#[export] Instance M_throw {W} : MThrow string (M W) := λ A, @raise W A.

Notation "'try:' m 'except:' h" := (try_catch m h)
  (at level 10, m at level 200, h at level 200) : prog_scope.

(** [for i in range(n): body].  The body answers [Some r] to leave the loop
    with [r] (a [return] or a [break]) and [None] to go on ([continue], or
    falling off the end of the body).  The loop answers [None] when all [n]
    iterations went on. *)

Fixpoint for_range_from {W A} (i n : nat) (body : nat → M W (option A))
  : M W (option A) :=
  match n with
  | O => ret None
  | S k => bind (body i) (λ r,
             match r with
             | Some a => ret (Some a)
             | None => for_range_from (S i) k body
             end)
  end.

Definition for_range {W A} (n : nat) (body : nat → M W (option A))
  : M W (option A) := for_range_from 0 n body.

(** [for x in l: body], collecting what each iteration appends. *)

Fixpoint for_each {W A B} (l : list A) (body : A → M W B) : M W (list B) :=
  match l with
  | [] => ret []
  | x :: l' => bind (body x) (λ b, bind (for_each l' body) (λ bs, ret (b :: bs)))
  end.

(** The same for a body without effects. *)

Fixpoint outcome_map {A B} (f : A → outcome B) (l : list A) : outcome (list B) :=
  match l with
  | [] => Ok []
  | x :: l' =>
      outcome_bind (f x) (λ b, outcome_bind (outcome_map f l') (λ bs, Ok (b :: bs)))
  end.

(** [try: return e  except Exception: return d] for an [e] without effects. *)

Definition or_else {A} (o : outcome A) (d : A) : A :=
  match o with Ok a => a | Raise _ => d end.

(** Pointwise equality of programs. *)

Definition meq {W A} (m1 m2 : M W A) : Prop := ∀ w, m1 w = m2 w.
Infix "≃" := meq (at level 70) : prog_scope.

(** Clamping a raw measurement: [min(x / d, 1.0)]. *)

Definition clamp01 (x d : Q) : Q := Qmin (x / d) 1.

Open Scope prog_scope.

(** ** Tactics *)

Ltac munfold :=
  unfold run, exec, mbind, mret, mthrow, fmap, M_bind, M_ret, M_throw, M_fmap,
    bind, ret, raise, try_catch, get_world, modify_world, lift_outcome in *.

(** A closed goal, a conjunction of equations, that holds by evaluation. *)

Ltac by_computation :=
  vm_compute; repeat match goal with |- _ ∧ _ => split end; reflexivity.

Ltac case_run m w :=
  let o := fresh "o" in let w' := fresh "w" in let E := fresh "E" in
  destruct (m w) as [o w'] eqn:E; destruct o.

(** ** Laws *)

Section Laws.
Context {W : Type}.

#[export] Instance meq_equiv {A} : Equivalence (@meq W A).
Proof.
  split.
  - by intros m w.
  - by intros m1 m2 H w.
  - intros m1 m2 m3 H1 H2 w. by rewrite H1.
Qed.

#[export] Instance bind_proper {A B} :
  Proper (meq ==> pointwise_relation A meq ==> meq) (@bind W A B).
Proof.
  intros m1 m2 Hm f1 f2 Hf w. unfold bind. rewrite Hm.
  destruct (m2 w) as [[a|e] w']; [apply Hf | done].
Qed.

#[export] Instance try_catch_proper {A} :
  Proper (meq ==> pointwise_relation string meq ==> meq) (@try_catch W A).
Proof.
  intros m1 m2 Hm h1 h2 Hh w. unfold try_catch. rewrite Hm.
  destruct (m2 w) as [[a|e] w']; [done | apply Hh].
Qed.

#[export] Instance run_proper {A} :
  Proper (meq ==> eq ==> eq) (@run W A).
Proof. intros m1 m2 Hm w ? <-. unfold run. by rewrite Hm. Qed.

#[export] Instance exec_proper {A} :
  Proper (meq ==> eq ==> eq) (@exec W A).
Proof. intros m1 m2 Hm w ? <-. unfold exec. by rewrite Hm. Qed.

Lemma bind_ret_l {A B} (a : A) (f : A → M W B) : bind (ret a) f ≃ f a.
Proof. by intros w. Qed.

Lemma bind_ret_r {A} (m : M W A) : bind m ret ≃ m.
Proof. intros w. unfold bind, ret. by destruct (m w) as [[a|e] w']. Qed.

Lemma bind_assoc {A B C} (m : M W A) (f : A → M W B) (g : B → M W C) :
  bind (bind m f) g ≃ bind m (λ a, bind (f a) g).
Proof. intros w. unfold bind. by destruct (m w) as [[a|e] w']. Qed.

Lemma bind_raise {A B} (e : string) (f : A → M W B) : bind (raise e) f ≃ raise e.
Proof. by intros w. Qed.

Lemma try_catch_ret {A} (a : A) (h : string → M W A) : try_catch (ret a) h ≃ ret a.
Proof. by intros w. Qed.

Lemma try_catch_raise {A} (e : string) (h : string → M W A) :
  try_catch (raise e) h ≃ h e.
Proof. by intros w. Qed.

(** Running a bind: the two cases of the first program. *)

Lemma bind_ok {A B} (m : M W A) (f : A → M W B) w a w' :
  m w = (Ok a, w') → bind m f w = f a w'.
Proof. intros H. unfold bind. by rewrite H. Qed.

Lemma bind_err {A B} (m : M W A) (f : A → M W B) w e w' :
  m w = (Raise e, w') → bind m f w = (Raise e, w').
Proof. intros H. unfold bind. by rewrite H. Qed.

Lemma try_catch_ok {A} (m : M W A) h w a w' :
  m w = (Ok a, w') → try_catch m h w = (Ok a, w').
Proof. intros H. unfold try_catch. by rewrite H. Qed.

Lemma try_catch_err {A} (m : M W A) h w e w' :
  m w = (Raise e, w') → try_catch m h w = h e w'.
Proof. intros H. unfold try_catch. by rewrite H. Qed.

(** A handler that never raises makes the whole [try] total. *)

Lemma try_catch_total {A} (m : M W A) (h : string → M W A) w :
  (∀ e w', is_ok (run (h e) w') = true) → is_ok (run (try_catch m h) w) = true.
Proof.
  intros Hh. unfold run, try_catch. destruct (m w) as [[a|e] w']; [done|].
  apply Hh.
Qed.

(** The loop, one iteration at a time. *)

Lemma for_range_from_S {A} i n (body : nat → M W (option A)) :
  for_range_from i (S n) body
  = bind (body i) (λ r, match r with
                        | Some a => ret (Some a)
                        | None => for_range_from (S i) n body
                        end).
Proof. done. Qed.

Lemma for_range_from_continue {A} i n (body : nat → M W (option A)) w w' :
  body i w = (Ok None, w') →
  for_range_from i (S n) body w = for_range_from (S i) n body w'.
Proof. intros H. rewrite for_range_from_S. by rewrite (bind_ok _ _ _ _ _ H). Qed.

Lemma for_range_from_leave {A} i n (body : nat → M W (option A)) w w' a :
  body i w = (Ok (Some a), w') →
  for_range_from i (S n) body w = (Ok (Some a), w').
Proof. intros H. rewrite for_range_from_S. by rewrite (bind_ok _ _ _ _ _ H). Qed.

Lemma for_range_from_raise {A} i n (body : nat → M W (option A)) w w' e :
  body i w = (Raise e, w') →
  for_range_from i (S n) body w = (Raise e, w').
Proof. intros H. rewrite for_range_from_S. by rewrite (bind_err _ _ _ _ _ H). Qed.

(** An invariant of the world that every iteration preserves holds when the
    loop ends, however it ends. *)

Lemma for_range_from_invariant {A} (I : W → Prop) (body : nat → M W (option A)) :
  (∀ i w, I w → I (exec (body i) w)) →
  ∀ n i w, I w → I (exec (for_range_from i n body) w).
Proof.
  intros Hbody. induction n as [|n IH]; intros i w Hw; [done|].
  unfold exec. rewrite for_range_from_S. unfold bind.
  specialize (Hbody i w Hw). unfold exec in Hbody.
  destruct (body i w) as [[[a|]|e] w']; simpl in *; try done.
  by apply IH.
Qed.

Lemma for_each_cons {A B} (x : A) l (body : A → M W B) :
  for_each (x :: l) body
  = bind (body x) (λ b, bind (for_each l body) (λ bs, ret (b :: bs))).
Proof. done. Qed.

(** A loop whose body never raises never raises, and appends one item per
    element. *)

Lemma for_each_total {A B} (l : list A) (body : A → M W B) w :
  (∀ x w', is_ok (run (body x) w') = true) →
  ∃ bs, run (for_each l body) w = Ok bs ∧ length bs = length l.
Proof.
  intros Hbody. revert w. induction l as [|x l IH]; intros w; [by exists []|].
  unfold run. rewrite for_each_cons. unfold bind.
  specialize (Hbody x w). unfold run in Hbody.
  destruct (body x w) as [[b|e] w1]; [|done].
  destruct (IH w1) as (bs & Hbs & Hlen). unfold run in Hbs.
  destruct (for_each l body w1) as [[bs'|e] w2]; [|done].
  simpl in *. injection Hbs as ->. exists (b :: bs). simpl. by rewrite Hlen.
Qed.

End Laws.

Section OutcomeFacts.
Context {A B : Type}.

Lemma outcome_map_ok (f : A → outcome B) l :
  (∀ x, x ∈ l → is_ok (f x) = true) →
  ∃ bs, outcome_map f l = Ok bs ∧ Forall2 (λ x b, f x = Ok b) l bs.
Proof.
  induction l as [|x l IH]; intros Hl; [by exists []|].
  destruct (f x) as [b|e] eqn:Ex.
  - destruct IH as (bs & Hbs & HF).
    { intros y Hy. apply Hl. by apply list_elem_of_further. }
    exists (b :: bs). simpl. rewrite Ex. simpl. rewrite Hbs. simpl.
    split; [done|]. by constructor.
  - specialize (Hl x (list_elem_of_here _ _)). by rewrite Ex in Hl.
Qed.

Lemma outcome_map_raise (f : A → outcome B) l x e :
  l !! 0%nat = Some x → f x = Raise e → outcome_map f l = Raise e.
Proof. destruct l as [|y l]; [done|]. intros [= ->] E. simpl. by rewrite E. Qed.

Lemma outcome_map_total (f : A → B) l :
  outcome_map (λ x, Ok (f x)) l = Ok (map f l).
Proof. induction l as [|x l IH]; simpl; [done|]. by rewrite IH. Qed.

Lemma or_else_ok (a d : A) : or_else (Ok a) d = a.
Proof. done. Qed.

Lemma or_else_raise e (d : A) : or_else (Raise e) d = d.
Proof. done. Qed.

End OutcomeFacts.

(** ** Rationals *)

Section Rationals.
Open Scope Q_scope.

Lemma clamp01_le_1 x d : clamp01 x d <= 1.
Proof. apply Q.le_min_r. Qed.

Lemma clamp01_ge_0 x d : 0 <= x → 0 < d → 0 <= clamp01 x d.
Proof.
  intros Hx Hd. apply Q.min_glb; [|lra].
  apply Qle_shift_div_l; [done | lra].
Qed.

Lemma clamp01_saturates x d : 0 < d → d <= x → clamp01 x d == 1.
Proof.
  intros Hd Hx. apply Q.min_r. apply Qle_shift_div_l; [done | lra].
Qed.

Lemma clamp01_linear x d : 0 < d → x <= d → clamp01 x d == x / d.
Proof.
  intros Hd Hx. apply Q.min_l. apply Qle_shift_div_r; [done | lra].
Qed.

#[export] Instance clamp01_proper : Proper (Qeq ==> Qeq ==> Qeq) clamp01.
Proof. intros x1 x2 Hx d1 d2 Hd. unfold clamp01. by rewrite Hx, Hd. Qed.

End Rationals.

#[export] Hint Resolve clamp01_le_1 clamp01_ge_0 : nexus.
#[export] Hint Rewrite @bind_ret_l @bind_raise @try_catch_ret @try_catch_raise : nexus_rw.
