(* ===== verification/Python.v ===== *)
(** * Python values and builtins

    The values that [response.json()] yields and the builtin operations that
    [ai_content_generator.py] and [image_analyzer.py] apply to them.  Each
    operation is total here: where Python raises ([AttributeError],
    [TypeError], [ValueError]) the model answers [Raise] with the message of
    the exception, which is all the sources ever observe of it. *)

From stdpp Require Import base option list strings pretty.
From Stdlib Require Import Ascii QArith Qminmax Lqa.
From S2P Require Import Prelude.

Open Scope string_scope.

(** ** Values *)

#[local] Unset Elimination Schemes.

Inductive pyval : Type :=
| PyNone
| PyBool (b : bool)
| PyInt (z : Z)
| PyFloat (q : Q)
| PyStr (s : string)
| PyList (l : list pyval)
| PyDict (d : list (string * pyval)).

#[local] Set Elimination Schemes.

Definition py_type_name (v : pyval) : string :=
  match v with
  | PyNone => "NoneType"
  | PyBool _ => "bool"
  | PyInt _ => "int"
  | PyFloat _ => "float"
  | PyStr _ => "str"
  | PyList _ => "list"
  | PyDict _ => "dict"
  end.

(** [str(v)] and the interpolation [f"{v}"].  The representation of floats and
    of compound values is left to an interface. *)

Class PyRepr := {
  repr_float : Q → string;
  repr_list : list pyval → string;
  repr_dict : list (string * pyval) → string
}.

Definition py_str `{PyRepr} (v : pyval) : string :=
  match v with
  | PyNone => "None"
  | PyBool true => "True"
  | PyBool false => "False"
  | PyInt z => pretty z
  | PyFloat q => repr_float q
  | PyStr s => s
  | PyList l => repr_list l
  | PyDict d => repr_dict d
  end.

(** Truthiness: [if v], [if not v]. *)

Definition truthy (v : pyval) : bool :=
  match v with
  | PyNone => false
  | PyBool b => b
  | PyInt z => negb (z =? 0)%Z
  | PyFloat q => negb (Qeq_bool q 0)
  | PyStr s => negb (String.eqb s EmptyString)
  | PyList l => negb (bool_decide (l = []))
  | PyDict d => negb (bool_decide (d = []))
  end.

(** [d[k]] for the first binding of [k], as a dictionary built by the JSON
    decoder has one binding per key. *)

Fixpoint dict_lookup (d : list (string * pyval)) (k : string) : option pyval :=
  match d with
  | [] => None
  | (k', v) :: d' => if String.eqb k' k then Some v else dict_lookup d' k
  end.

Definition attribute_error (v : pyval) (attr : string) : string :=
  "'" ++ py_type_name v ++ "' object has no attribute '" ++ attr ++ "'".

(** [v.get(k, default)]. *)

Definition py_get (v : pyval) (k : string) (default : pyval) : outcome pyval :=
  match v with
  | PyDict d => Ok (from_option id default (dict_lookup d k))
  | _ => Raise (attribute_error v "get")
  end.

(** [v.get(k)], whose default is [None]. *)

Definition py_get_none (v : pyval) (k : string) : outcome pyval :=
  py_get v k PyNone.

(** [s.lower()] on the ASCII letters. *)

Definition ascii_lower (c : ascii) : ascii :=
  let n := N_of_ascii c in
  if ((65 <=? n) && (n <=? 90))%N then ascii_of_N (n + 32) else c.

Fixpoint string_lower (s : string) : string :=
  match s with
  | EmptyString => EmptyString
  | String c s' => String (ascii_lower c) (string_lower s')
  end.

Definition py_lower (v : pyval) : outcome string :=
  match v with
  | PyStr s => Ok (string_lower s)
  | _ => Raise (attribute_error v "lower")
  end.

(** [needle in hay] for a string [needle]: membership in a list, substring of
    a string, key of a dictionary; a [TypeError] otherwise. *)

Definition is_str (s : string) (v : pyval) : bool :=
  match v with PyStr s' => String.eqb s' s | _ => false end.

Fixpoint is_substring (needle hay : string) : bool :=
  String.prefix needle hay ||
  match hay with
  | EmptyString => false
  | String _ hay' => is_substring needle hay'
  end.

Definition py_contains (needle : string) (hay : pyval) : outcome bool :=
  match hay with
  | PyList l => Ok (existsb (is_str needle) l)
  | PyStr s => Ok (is_substring needle s)
  | PyDict d => Ok (bool_decide (is_Some (dict_lookup d needle)))
  | _ => Raise ("argument of type '" ++ py_type_name hay ++ "' is not iterable")
  end.

(** [s in [a, b, c]] for a string [s] and string literals. *)

Definition str_in (s : string) (l : list string) : bool :=
  existsb (String.eqb s) l.
Arguments str_in : simpl never.

(** [int(x)] of a float: the integer part, rounded toward zero. *)

Definition py_int (x : Q) : Z := (Qnum x ÷ Z.pos (Qden x))%Z.

(** ** [max] and [list.index] on lists of floats *)

(** [max(l)] keeps the first of the largest items: the running maximum is
    replaced only by an item that is strictly greater. *)

Definition max_step (m x : Q) : Q := if Qlt_le_dec m x then x else m.

Definition py_max (l : list Q) : outcome Q :=
  match l with
  | [] => Raise "max() arg is an empty sequence"
  | x :: l' => Ok (fold_left max_step l' x)
  end.

(** [l.index(x)]: the position of the first item equal to [x]. *)

Fixpoint index_from (x : Q) (l : list Q) (i : nat) : option nat :=
  match l with
  | [] => None
  | y :: l' => if Qeq_bool y x then Some i else index_from x l' (S i)
  end.

Definition py_index `{PyRepr} (l : list Q) (x : Q) : outcome nat :=
  match index_from x l 0 with
  | Some i => Ok i
  | None => Raise (repr_float x ++ " is not in list")
  end.

(** [l.index(max(l))]. *)

Definition index_of_max `{PyRepr} (l : list Q) : outcome nat :=
  outcome_bind (py_max l) (py_index l).

(** ** Lemmas *)

Section Dict.

Lemma py_get_dict d k default v :
  dict_lookup d k = Some v → py_get (PyDict d) k default = Ok v.
Proof. intros H. simpl. by rewrite H. Qed.

Lemma py_get_missing d k default :
  dict_lookup d k = None → py_get (PyDict d) k default = Ok default.
Proof. intros H. simpl. by rewrite H. Qed.

Lemma py_get_ok_inv v k default r :
  py_get v k default = Ok r → ∃ d, v = PyDict d.
Proof. destruct v; try done. eauto. Qed.

Lemma py_get_not_dict v k default :
  (∀ d, v ≠ PyDict d) → py_get v k default = Raise (attribute_error v "get").
Proof. intros H. destruct v; try done. by destruct (H d). Qed.

Lemma truthy_str s : truthy (PyStr s) = true ↔ s ≠ EmptyString.
Proof.
  simpl. by destruct (String.eqb_spec s EmptyString).
Qed.

Lemma truthy_none : truthy PyNone = false.
Proof. done. Qed.

End Dict.

Section Lower.

Lemma ascii_lower_idemp c : ascii_lower (ascii_lower c) = ascii_lower c.
Proof.
  destruct c as [[] [] [] [] [] [] [] []]; vm_compute; reflexivity.
Qed.

Lemma string_lower_idemp s : string_lower (string_lower s) = string_lower s.
Proof. induction s as [|c s IH]; simpl; [done|]. by rewrite ascii_lower_idemp, IH. Qed.

Lemma string_lower_length s : String.length (string_lower s) = String.length s.
Proof. induction s as [|c s IH]; simpl; [done|]. by rewrite IH. Qed.

End Lower.

Section Contains.

Lemma is_str_spec s v : is_str s v = true ↔ v = PyStr s.
Proof.
  destruct v; simpl; try (split; [done | intros; discriminate]).
  rewrite String.eqb_eq. split; intros; congruence.
Qed.

Lemma py_contains_list needle l :
  py_contains needle (PyList l) = Ok true ↔ PyStr needle ∈ l.
Proof.
  simpl. split.
  - intros [= H]. apply existsb_exists in H as (v & Hin & Hv).
    apply is_str_spec in Hv as ->. by apply list_elem_of_In.
  - intros Hin. f_equal. apply existsb_exists. exists (PyStr needle).
    split; [by apply list_elem_of_In | by apply is_str_spec].
Qed.

Lemma str_in_spec s l : str_in s l = true ↔ s ∈ l.
Proof.
  unfold str_in. rewrite existsb_exists. split.
  - intros (x & Hin & Hx). apply String.eqb_eq in Hx as ->. by apply list_elem_of_In.
  - intros Hin. exists s. split; [by apply list_elem_of_In | apply String.eqb_refl].
Qed.

End Contains.

(** The running maximum: an upper bound, attained, and attained first. *)

Section Max.
Open Scope Q_scope.

Lemma max_step_ge_l m x : m <= max_step m x.
Proof. unfold max_step. destruct (Qlt_le_dec m x); lra. Qed.

Lemma max_step_ge_r m x : x <= max_step m x.
Proof. unfold max_step. destruct (Qlt_le_dec m x); lra. Qed.

Lemma max_step_cases m x : max_step m x = m ∨ max_step m x = x.
Proof. unfold max_step. destruct (Qlt_le_dec m x); auto. Qed.

Lemma fold_max_ge_init l m : m <= fold_left max_step l m.
Proof.
  revert m. induction l as [|x l IH]; intros m; simpl; [lra|].
  pose proof (IH (max_step m x)). pose proof (max_step_ge_l m x). lra.
Qed.

Lemma fold_max_ge_elem l m x : x ∈ l → x <= fold_left max_step l m.
Proof.
  revert m. induction l as [|y l IH]; intros m Hin; [by apply elem_of_nil in Hin|].
  apply elem_of_cons in Hin as [->|Hin]; simpl; [|by apply IH].
  pose proof (fold_max_ge_init l (max_step m y)).
  pose proof (max_step_ge_r m y). lra.
Qed.

Lemma fold_max_in l m : fold_left max_step l m = m ∨ fold_left max_step l m ∈ l.
Proof.
  revert m. induction l as [|y l IH]; intros m; simpl; [by left|].
  destruct (IH (max_step m y)) as [E|Hin]; [|right; by apply list_elem_of_further].
  rewrite E. destruct (max_step_cases m y) as [->| ->]; [by left|].
  right. apply list_elem_of_here.
Qed.

Lemma py_max_upper l m x : py_max l = Ok m → x ∈ l → x <= m.
Proof.
  destruct l as [|y l]; [done|]. intros [= <-] Hin.
  apply elem_of_cons in Hin as [->|Hin];
    [apply fold_max_ge_init | by apply fold_max_ge_elem].
Qed.

Lemma py_max_in l m : py_max l = Ok m → m ∈ l.
Proof.
  destruct l as [|y l]; [done|]. intros [= <-].
  destruct (fold_max_in l y) as [->|Hin];
    [apply list_elem_of_here | by apply list_elem_of_further].
Qed.

Lemma py_max_nonempty l : l ≠ [] → ∃ m, py_max l = Ok m.
Proof. destruct l; [done|]. eauto. Qed.

Lemma index_from_Some x l i j :
  index_from x l i = Some j →
  (i ≤ j)%nat ∧ (∃ y, l !! (j - i)%nat = Some y ∧ y == x) ∧
  ∀ k y, (k < j - i)%nat → l !! k = Some y → ¬ y == x.
Proof.
  revert i. induction l as [|z l IH]; intros i; simpl; [done|].
  destruct (Qeq_bool z x) eqn:E.
  - intros [= <-]. rewrite Nat.sub_diag. split; [lia|]. split.
    + exists z. split; [done|]. by apply Qeq_bool_iff.
    + intros k y Hk. lia.
  - intros H. apply IH in H as (Hle & (y & Hy & Hyx) & Hfirst).
    split; [lia|]. split.
    + exists y. split; [|done].
      replace (j - i)%nat with (S (j - S i)) by lia. done.
    + intros k y' Hk Hl. destruct k as [|k].
      * simpl in Hl. injection Hl as <-. intros Hz.
        apply Qeq_bool_iff in Hz. congruence.
      * simpl in Hl. apply (Hfirst k); [lia | done].
Qed.

Lemma index_from_None x l i :
  index_from x l i = None → ∀ y, y ∈ l → ¬ y == x.
Proof.
  revert i. induction l as [|z l IH]; intros i; simpl.
  - intros _ y Hin. by apply elem_of_nil in Hin.
  - destruct (Qeq_bool z x) eqn:E; [done|]. intros H y Hin.
    apply elem_of_cons in Hin as [->|Hin]; [|by eapply IH].
    intros Hz. apply Qeq_bool_iff in Hz. congruence.
Qed.

Lemma index_from_shift x l i :
  index_from x l (S i) = S <$> index_from x l i.
Proof.
  revert i. induction l as [|z l IH]; intros i; simpl; [done|].
  destruct (Qeq_bool z x); [done | apply IH].
Qed.

End Max.

(** [l.index(max(l))] is the first position that holds the largest score. *)

Section IndexOfMax.
Context `{PyRepr}.
Open Scope Q_scope.

Lemma index_of_max_total l : l ≠ [] → ∃ i, index_of_max l = Ok i.
Proof.
  intros Hne. destruct (py_max_nonempty l Hne) as [m Hm].
  unfold index_of_max. rewrite Hm. simpl. unfold py_index.
  destruct (index_from m l 0) as [i|] eqn:E; [eauto|].
  exfalso. eapply index_from_None; [done | by apply py_max_in | reflexivity].
Qed.

Lemma index_of_max_spec l i :
  index_of_max l = Ok i →
  ∃ m, l !! i = Some m ∧ (∀ x, x ∈ l → x <= m) ∧
       (∀ k y, (k < i)%nat → l !! k = Some y → y < m).
Proof.
  unfold index_of_max. destruct (py_max l) as [m|] eqn:Hm; [|done]. simpl.
  unfold py_index. destruct (index_from m l 0) as [j|] eqn:E; [|done].
  intros [= <-]. apply index_from_Some in E as (_ & (y & Hy & Hym) & Hfirst).
  rewrite Nat.sub_0_r in *. exists y. split; [done|]. split.
  - intros x Hin. rewrite Hym. by eapply py_max_upper.
  - intros k z Hk Hz. rewrite Hym.
    assert (z <= m) by (eapply py_max_upper; [done | by eapply list_elem_of_lookup_2]).
    assert (¬ z == m) by by eapply Hfirst.
    apply Qle_lt_or_eq in H0 as [?|?]; done.
Qed.

Lemma index_of_max_empty : index_of_max [] = Raise "max() arg is an empty sequence".
Proof. done. Qed.

End IndexOfMax.

#[export] Hint Resolve max_step_ge_l max_step_ge_r fold_max_ge_init : nexus.
