(* ===== verification/World.v ===== *)
(** * The world the generator runs in

    What [ai_content_generator.py] and [image_analyzer.py] observe and change
    through [requests], [time], [random], [os] and [open]: a remote HTTP
    service, a clock, a source of random delays, the process environment and
    a file system.  The remote service is an interface; everything else is
    explicit state.  Every effect is recorded in a trace, so that theorems
    can count requests and add up sleeping time. *)

From stdpp Require Import base option list strings gmap.
From Stdlib Require Import Ascii QArith Qminmax Qround Lqa.
From S2P Require Import Prelude Python.

Open Scope string_scope.
Open Scope list_scope.

(** ** Requests and responses *)

Inductive method : Type := GET | POST.

(** A call [requests.get(url, headers=..., timeout=...)] or
    [requests.post(url, headers=..., json=..., timeout=...)].  An argument
    that is not passed is [PyNone], the default of [requests]. *)

Record Request : Type := {
  req_method : method;
  req_url : pyval;
  req_headers : pyval;
  req_json : pyval;
  req_timeout : Z
}.

(** The attributes of a [requests.Response] that the sources read.
    [resp_json] is the result of [response.json()], which raises on a body
    that is not JSON. *)

Record Response : Type := {
  status_code : Z;
  text : string;
  content : string;
  resp_json : outcome pyval
}.

(** The answer to a request: a response, or an exception raised by
    [requests] (timeout, connection error, invalid URL), and the time the
    call took. *)

Record Reply : Type := {
  reply_result : outcome Response;
  reply_elapsed : Q
}.

(** The remote service and the network, as a state machine. *)

Class Remote (R : Type) := serve : Request → R → Reply * R.

(** [random.uniform(a, b)] from a seed. *)

Class Random := {
  uniform : Q → Q → nat → Q;
  uniform_range a b seed : (a <= b → a <= uniform a b seed <= b)%Q
}.

(** ** Effects and state *)

Inductive Event : Type :=
| EvRequest (req : Request)
| EvSleep (seconds : Q)
| EvWrite (path : string)
| EvMakedirs (path : string).

Record World (R : Type) : Type := {
  remote : R;
  clock : Q;
  seed : nat;
  environ : gmap string string;
  files : gmap string string;
  dirs : gset string;
  refused : gmap string string;
  trace : list Event
}.
Arguments remote {R} _.
Arguments clock {R} _.
Arguments seed {R} _.
Arguments environ {R} _.
Arguments files {R} _.
Arguments dirs {R} _.
Arguments refused {R} _.
Arguments trace {R} _.

Definition is_request (m : method) (e : Event) : bool :=
  match e with
  | EvRequest req =>
      match req_method req, m with
      | GET, GET | POST, POST => true
      | _, _ => false
      end
  | _ => false
  end.

Definition sleep_of (e : Event) : Q :=
  match e with EvSleep d => d | _ => 0%Q end.

(** The number of requests of a method, the seconds slept and the requests
    made, along a trace. *)

Definition count_requests (m : method) (t : list Event) : nat :=
  length (filter (λ e, is_request m e = true) t).

Definition total_sleep (t : list Event) : Q :=
  foldr (λ e acc, (sleep_of e + acc)%Q) 0%Q t.

Definition requests_of (t : list Event) : list Request :=
  omap (λ e, match e with EvRequest req => Some req | _ => None end) t.

Definition writes_of (t : list Event) : list string :=
  omap (λ e, match e with EvWrite p => Some p | _ => None end) t.

Section Effects.
Context {R : Type} `{Remote R}.

Definition record_event (e : Event) (w : World R) : World R :=
  {| remote := remote w; clock := clock w; seed := seed w;
     environ := environ w; files := files w; dirs := dirs w;
     refused := refused w; trace := trace w ++ [e] |}.

Definition advance_clock (d : Q) (w : World R) : World R :=
  {| remote := remote w; clock := (clock w + d)%Q; seed := seed w;
     environ := environ w; files := files w; dirs := dirs w;
     refused := refused w; trace := trace w |}.

Definition set_remote (r : R) (w : World R) : World R :=
  {| remote := r; clock := clock w; seed := seed w;
     environ := environ w; files := files w; dirs := dirs w;
     refused := refused w; trace := trace w |}.

Definition set_file (path data : string) (w : World R) : World R :=
  {| remote := remote w; clock := clock w; seed := seed w;
     environ := environ w; files := <[path := data]> (files w); dirs := dirs w;
     refused := refused w; trace := trace w |}.

Definition add_dir (path : string) (w : World R) : World R :=
  {| remote := remote w; clock := clock w; seed := seed w;
     environ := environ w; files := files w; dirs := {[path]} ∪ dirs w;
     refused := refused w; trace := trace w |}.

Definition next_seed (w : World R) : World R :=
  {| remote := remote w; clock := clock w; seed := S (seed w);
     environ := environ w; files := files w; dirs := dirs w;
     refused := refused w; trace := trace w |}.

(** One HTTP exchange: the remote answers, time passes, the request is
    recorded. *)

Definition after_request (req : Request) (reply : Reply) (r' : R) (w : World R)
  : World R :=
  record_event (EvRequest req)
    (advance_clock (Qmax 0 (reply_elapsed reply)) (set_remote r' w)).

Definition http (req : Request) : M (World R) Response :=
  λ w, let '(reply, r') := serve req (remote w) in
       (reply_result reply, after_request req reply r' w).

(** The world after a sleep of [d] seconds. *)

Definition after_sleep (d : Q) (w : World R) : World R :=
  record_event (EvSleep d) (advance_clock d w).

(** The world after a write. *)

Definition after_write (path data : string) (w : World R) : World R :=
  record_event (EvWrite path) (set_file path data w).

Definition requests_get (url headers : pyval) (timeout : Z) : M (World R) Response :=
  http {| req_method := GET; req_url := url; req_headers := headers;
          req_json := PyNone; req_timeout := timeout |}.

Definition requests_post (url headers json : pyval) (timeout : Z)
  : M (World R) Response :=
  http {| req_method := POST; req_url := url; req_headers := headers;
          req_json := json; req_timeout := timeout |}.

(** [time.sleep(d)]. *)

Definition time_sleep (d : Q) : M (World R) unit :=
  modify_world (after_sleep d).

(** [int(time.time())]. *)

Definition int_time : M (World R) Z :=
  λ w, (Ok (py_int (clock w)), w).

(** [random.uniform(a, b)]. *)

Definition random_uniform `{Random} (a b : Q) : M (World R) Q :=
  λ w, (Ok (uniform a b (seed w)), next_seed w).

(** [os.getenv(name)] and [os.getenv(name, default)]. *)

Definition os_getenv (name : string) : M (World R) (option string) :=
  λ w, (Ok (environ w !! name), w).

Definition os_getenv_default (name fallback : string) : M (World R) string :=
  λ w, (Ok (default fallback (environ w !! name)), w).

(** [os.makedirs(path, exist_ok=True)] raises an [OSError]: a
    [FileExistsError] when a regular file is at [path], and for every other
    cause (an ancestor that is a file, a missing permission, a read-only
    volume) the message that the world holds for [path] in [refused]. *)

Definition makedirs_error (w : World R) (path : string) : option string :=
  match files w !! path with
  | Some _ => Some ("[Errno 17] File exists: '" +:+ path +:+ "'")
  | None => refused w !! path
  end.

Definition after_makedirs (path : string) (w : World R) : World R :=
  record_event (EvMakedirs path) (add_dir path w).

Definition os_makedirs (path : string) : M (World R) unit :=
  λ w, match makedirs_error w path with
       | Some e => (Raise e, w)
       | None => (Ok tt, after_makedirs path w)
       end.

(** [with open(path, 'wb') as f: f.write(data)].  The write is assumed to
    succeed: the sources write only into the directory that the constructor
    has created. *)

Definition write_file (path data : string) : M (World R) unit :=
  modify_world (after_write path data).

(** Reading a file back, as [Image.open(path)] does. *)

Definition read_file (path : string) : M (World R) string :=
  λ w, match files w !! path with
       | Some data => (Ok data, w)
       | None => (Raise ("[Errno 2] No such file or directory: '" +:+ path +:+ "'"), w)
       end.

End Effects.

(** [os.path.join(a, b)] on POSIX. *)

Definition ends_with_slash (s : string) : bool :=
  match String.rev s with
  | String c _ => Ascii.eqb c "/"%char
  | EmptyString => false
  end.

Definition path_join (a b : string) : string :=
  if String.prefix "/" b then b
  else if String.eqb a EmptyString || ends_with_slash a then a +:+ b
  else a +:+ "/" +:+ b.

(** ** Lemmas *)

Section TraceFacts.

Lemma count_requests_app m t1 t2 :
  count_requests m (t1 ++ t2) = (count_requests m t1 + count_requests m t2)%nat.
Proof. unfold count_requests. by rewrite filter_app, length_app. Qed.

Lemma total_sleep_app t1 t2 :
  (total_sleep (t1 ++ t2) == total_sleep t1 + total_sleep t2)%Q.
Proof.
  induction t1 as [|e t1 IH]; simpl; [lra|]. rewrite IH. lra.
Qed.

Lemma requests_of_app t1 t2 : requests_of (t1 ++ t2) = requests_of t1 ++ requests_of t2.
Proof. apply omap_app. Qed.

Lemma writes_of_app t1 t2 : writes_of (t1 ++ t2) = writes_of t1 ++ writes_of t2.
Proof. apply omap_app. Qed.

Lemma count_requests_cons m e t :
  count_requests m (e :: t)
  = ((if is_request m e then 1 else 0) + count_requests m t)%nat.
Proof.
  unfold count_requests. rewrite filter_cons. by destruct (is_request m e).
Qed.

Lemma count_requests_snoc m t e :
  count_requests m (t ++ [e])
  = (count_requests m t + if is_request m e then 1 else 0)%nat.
Proof.
  rewrite count_requests_app. f_equal. unfold count_requests.
  rewrite filter_cons, filter_nil. by destruct (is_request m e).
Qed.

Lemma total_sleep_snoc t e :
  (total_sleep (t ++ [e]) == total_sleep t + sleep_of e)%Q.
Proof. rewrite total_sleep_app. simpl. lra. Qed.

End TraceFacts.

Section EffectFacts.
Context {R : Type} `{Remote R}.
Implicit Types w : World R.

Lemma http_trace req w :
  trace (exec (http req) w) = trace w ++ [EvRequest req].
Proof. unfold exec, http. by destruct (serve req (remote w)). Qed.

Lemma http_files req w : files (exec (http req) w) = files w.
Proof. unfold exec, http. by destruct (serve req (remote w)). Qed.

Lemma http_result req w :
  run (http req) w = reply_result (serve req (remote w)).1.
Proof. unfold run, http. by destruct (serve req (remote w)). Qed.

Lemma http_remote req w :
  remote (exec (http req) w) = (serve req (remote w)).2.
Proof. unfold exec, http. by destruct (serve req (remote w)). Qed.

Lemma http_clock req w : (clock w <= clock (exec (http req) w))%Q.
Proof.
  unfold exec, http. destruct (serve req (remote w)) as [reply r']. simpl.
  pose proof (Q.le_max_l 0 (reply_elapsed reply)). lra.
Qed.

Lemma time_sleep_run d w : time_sleep d w = (Ok tt, after_sleep d w).
Proof. done. Qed.

Lemma write_file_run path data w :
  write_file path data w = (Ok tt, after_write path data w).
Proof. done. Qed.

Lemma http_serve req w reply r' :
  serve req (remote w) = (reply, r') →
  http req w = (reply_result reply, after_request req reply r' w).
Proof. intros E. unfold http. by rewrite E. Qed.

Lemma http_exec req w reply r' :
  serve req (remote w) = (reply, r') →
  exec (http req) w = after_request req reply r' w.
Proof. intros E. unfold exec. by rewrite (http_serve _ _ _ _ E). Qed.

Lemma requests_get_serve url headers timeout w reply r' :
  let req := {| req_method := GET; req_url := url; req_headers := headers;
                req_json := PyNone; req_timeout := timeout |} in
  serve req (remote w) = (reply, r') →
  requests_get url headers timeout w
  = (reply_result reply, after_request req reply r' w).
Proof. intros req E. by apply http_serve. Qed.

Lemma requests_post_serve url headers json timeout w reply r' :
  let req := {| req_method := POST; req_url := url; req_headers := headers;
                req_json := json; req_timeout := timeout |} in
  serve req (remote w) = (reply, r') →
  requests_post url headers json timeout w
  = (reply_result reply, after_request req reply r' w).
Proof. intros req E. by apply http_serve. Qed.

Lemma after_request_trace req reply r' w :
  trace (after_request req reply r' w) = trace w ++ [EvRequest req].
Proof. done. Qed.

Lemma after_request_remote req reply r' w :
  remote (after_request req reply r' w) = r'.
Proof. done. Qed.

Lemma after_request_files req reply r' w :
  files (after_request req reply r' w) = files w.
Proof. done. Qed.

Lemma after_request_clock req reply r' w :
  (clock w <= clock (after_request req reply r' w))%Q.
Proof. simpl. pose proof (Q.le_max_l 0 (reply_elapsed reply)). lra. Qed.

Lemma after_sleep_trace d w : trace (after_sleep d w) = trace w ++ [EvSleep d].
Proof. done. Qed.

Lemma after_sleep_remote d w : remote (after_sleep d w) = remote w.
Proof. done. Qed.

Lemma after_sleep_files d w : files (after_sleep d w) = files w.
Proof. done. Qed.

Lemma after_sleep_clock d w : (clock (after_sleep d w) == clock w + d)%Q.
Proof. simpl. lra. Qed.

Lemma after_write_trace path data w :
  trace (after_write path data w) = trace w ++ [EvWrite path].
Proof. done. Qed.

Lemma after_write_remote path data w : remote (after_write path data w) = remote w.
Proof. done. Qed.

Lemma after_write_files path data w :
  files (after_write path data w) = <[path := data]> (files w).
Proof. done. Qed.

Lemma write_file_lookup path data w :
  files (exec (write_file path data) w) !! path = Some data.
Proof. simpl. apply lookup_insert_eq. Qed.

Lemma write_file_other path path' data w :
  path ≠ path' → files (exec (write_file path data) w) !! path' = files w !! path'.
Proof. intros Hne. simpl. by apply lookup_insert_ne. Qed.

Lemma read_after_write path data w :
  run (bind (write_file path data) (λ _, read_file path)) w = Ok data.
Proof.
  unfold run, bind, write_file, modify_world, read_file. simpl.
  by rewrite lookup_insert_eq.
Qed.

End EffectFacts.

Section Paths.

Lemma path_join_relative a b :
  String.prefix "/" b = false → a ≠ EmptyString → ends_with_slash a = false →
  path_join a b = a +:+ "/" +:+ b.
Proof.
  intros Hb Ha Hs. unfold path_join. rewrite Hb, Hs.
  by destruct (String.eqb_spec a EmptyString).
Qed.

Lemma path_join_absolute a b : String.prefix "/" b = true → path_join a b = b.
Proof. intros Hb. unfold path_join. by rewrite Hb. Qed.

End Paths.

#[export] Hint Rewrite @count_requests_app @requests_of_app @writes_of_app : nexus_rw.

(** The projections of a world after an effect. *)

Create Rewrite HintDb world_rw.
#[export] Hint Rewrite @after_request_trace @after_request_remote @after_request_files
  @after_sleep_trace @after_sleep_remote @after_sleep_files
  @after_write_trace @after_write_remote @after_write_files : world_rw.

Ltac world_simpl :=
  unfold ret; cbn [fst snd]; autorewrite with world_rw; rewrite <- ?app_assoc.
