(* ===== verification/Budget.v ===== *)
(** * Budgets: what a program may add to the trace

    A budget bounds the requests, the seconds of sleep and the writes that a
    run of a program adds to the trace of the world, whatever the remote
    answers and however the run ends.  [spends m b] is proved along the
    structure of [m]: the budget of a sequence is the sum of the budgets, the
    budget of a loop of [n] iterations is [n] times the budget of its body,
    the budget of a conditional is the larger of the two.  Budgets are
    ordered componentwise; [spends m] is monotone in that order. *)

From stdpp Require Import base option list strings gmap.
From Stdlib Require Import QArith Qminmax Lqa.
From S2P Require Import Prelude Python World.

Open Scope list_scope.

Declare Scope budget_scope.
Delimit Scope budget_scope with budget.

Record Budget : Type := {
  gets : nat;      (* GET requests *)
  posts : nat;     (* POST requests *)
  sleeps : nat;    (* seconds of sleep *)
  writes : nat     (* files written *)
}.

Definition no_budget : Budget :=
  {| gets := 0; posts := 0; sleeps := 0; writes := 0 |}.

Definition one_get : Budget := {| gets := 1; posts := 0; sleeps := 0; writes := 0 |}.
Definition one_post : Budget := {| gets := 0; posts := 1; sleeps := 0; writes := 0 |}.
Definition one_write : Budget := {| gets := 0; posts := 0; sleeps := 0; writes := 1 |}.
Definition sleep_for (n : nat) : Budget :=
  {| gets := 0; posts := 0; sleeps := n; writes := 0 |}.

Definition budget_add (a b : Budget) : Budget :=
  {| gets := (gets a + gets b)%nat; posts := (posts a + posts b)%nat;
     sleeps := (sleeps a + sleeps b)%nat; writes := (writes a + writes b)%nat |}.

Definition budget_max (a b : Budget) : Budget :=
  {| gets := (gets a `max` gets b)%nat; posts := (posts a `max` posts b)%nat;
     sleeps := (sleeps a `max` sleeps b)%nat; writes := (writes a `max` writes b)%nat |}.

Definition budget_scale (n : nat) (b : Budget) : Budget :=
  {| gets := (n * gets b)%nat; posts := (n * posts b)%nat;
     sleeps := (n * sleeps b)%nat; writes := (n * writes b)%nat |}.

Definition budget_le (a b : Budget) : Prop :=
  (gets a ≤ gets b ∧ posts a ≤ posts b ∧ sleeps a ≤ sleeps b ∧ writes a ≤ writes b)%nat.

#[export] Instance budget_join : Join Budget := budget_max.
#[export] Instance budget_sqsubseteq : SqSubsetEq Budget := budget_le.

Infix "⊕" := budget_add (at level 50, left associativity) : budget_scope.
Infix "⊗" := budget_scale (at level 40, left associativity) : budget_scope.
Open Scope budget_scope.

#[export] Instance budget_le_dec (a b : Budget) : Decision (a ⊑ b).
Proof. unfold sqsubseteq, budget_sqsubseteq, budget_le. apply _. Defined.

Ltac budget_le :=
  unfold sqsubseteq, budget_sqsubseteq, join, budget_join, budget_le in *;
  simpl in *; first [lia | nia].

Definition request_budget (req : Request) : Budget :=
  match req_method req with GET => one_get | POST => one_post end.

(** A piece of trace is within a budget. *)

Definition within (b : Budget) (t : list Event) : Prop :=
  (count_requests GET t ≤ gets b)%nat ∧
  (count_requests POST t ≤ posts b)%nat ∧
  (total_sleep t <= inject_Z (Z.of_nat (sleeps b)))%Q ∧
  (length (writes_of t) ≤ writes b)%nat.

Ltac split_within := unfold within; split; [|split; [|split]].

(** The world [w'] is [w] with a piece within [b] added to the trace. *)

Definition extends_by {R} (b : Budget) (w w' : World R) : Prop :=
  ∃ t, trace w' = trace w ++ t ∧ within b t.

(** Every run of [m] extends the trace by a piece within [b]. *)

Definition spends {R A} (m : M (World R) A) (b : Budget) : Prop :=
  ∀ w, extends_by b w (exec m w).

(** A loop body: the iterations that go on extend the trace by a piece
    within [b], the one that leaves the loop or raises by a piece within [c]. *)

Definition spends_split {R A} (body : M (World R) (option A)) (b c : Budget) : Prop :=
  ∀ w, match run body w with
       | Ok None => extends_by b w (exec body w)
       | _ => extends_by c w (exec body w)
       end.

(** ** The order on budgets *)

Section Order.
Implicit Types a b c : Budget.

#[export] Instance budget_le_preorder : PreOrder (⊑@{Budget}).
Proof. split; [intros a | intros a b c]; budget_le. Qed.

Lemma budget_add_le_l a b : a ⊑ a ⊕ b.
Proof. budget_le. Qed.

Lemma budget_add_le_r a b : b ⊑ a ⊕ b.
Proof. budget_le. Qed.

Lemma budget_max_le_l a b : a ⊑ a ⊔ b.
Proof. budget_le. Qed.

Lemma budget_max_le_r a b : b ⊑ a ⊔ b.
Proof. budget_le. Qed.

Lemma budget_scale_S n b : S n ⊗ b = b ⊕ n ⊗ b.
Proof. done. Qed.

Lemma budget_scale_le n m b : (n ≤ m)%nat → n ⊗ b ⊑ m ⊗ b.
Proof. intros Hnm. budget_le. Qed.

Lemma no_budget_le b : no_budget ⊑ b.
Proof. budget_le. Qed.

#[export] Instance budget_add_proper : Proper ((⊑) ==> (⊑) ==> (⊑)) budget_add.
Proof. intros a a' Ha b b' Hb. budget_le. Qed.

#[export] Instance budget_join_proper : Proper ((⊑) ==> (⊑) ==> (⊑)) (join (A:=Budget)).
Proof. intros a a' Ha b b' Hb. budget_le. Qed.

Lemma within_weaken a b t : a ⊑ b → within a t → within b t.
Proof.
  intros (Hg & Hp & Hs & Hw) (Tg & Tp & Ts & Tw).
  split_within; [lia | lia | | lia].
  eapply Qle_trans; [apply Ts|]. rewrite <- Zle_Qle. lia.
Qed.

#[export] Instance within_proper : Proper ((⊑) ==> eq ==> impl) within.
Proof. intros a b Hab t ? <- Hw. by apply (within_weaken a). Qed.

Lemma within_nil : within no_budget [].
Proof. split_within; first [by compute | compute; lia]. Qed.

Lemma within_app a b t1 t2 : within a t1 → within b t2 → within (a ⊕ b) (t1 ++ t2).
Proof.
  intros (Hg & Hp & Hs & Hw) (Tg & Tp & Ts & Tw). unfold within.
  rewrite !count_requests_app, total_sleep_app, writes_of_app, length_app. simpl.
  split_within; [lia | lia | | lia].
  rewrite Nat2Z.inj_add, inject_Z_plus. by apply Qplus_le_compat.
Qed.

Lemma within_request req : within (request_budget req) [EvRequest req].
Proof.
  unfold request_budget, within. rewrite !(count_requests_cons _ _ []).
  unfold is_request.
  destruct (req_method req); split_within; first [by compute | compute; lia].
Qed.

Lemma within_sleep d n : (d <= inject_Z (Z.of_nat n))%Q → within (sleep_for n) [EvSleep d].
Proof.
  intros Hd. split_within; [compute; lia | compute; lia | | compute; lia].
  simpl. by rewrite Qplus_0_r.
Qed.

Lemma within_write path : within one_write [EvWrite path].
Proof. split_within; first [by compute | compute; lia]. Qed.

Lemma within_makedirs path : within no_budget [EvMakedirs path].
Proof. split_within; first [by compute | compute; lia]. Qed.

End Order.

(** ** The rules *)

Section Rules.
Context {R : Type} `{Remote R}.
Implicit Types a b c : Budget.

Lemma spends_weaken {A} (m : M (World R) A) a b : spends m a → a ⊑ b → spends m b.
Proof.
  intros Hm Hab w. destruct (Hm w) as (t & Ht & Hw).
  exists t. split; [done|]. by apply (within_weaken a).
Qed.

#[export] Instance spends_proper {A} (m : M (World R) A) :
  Proper ((⊑) ==> impl) (spends m).
Proof. intros a b Hab Hm. by apply (spends_weaken m a). Qed.

(** A program that leaves the trace as it is spends nothing. *)

Lemma spends_nothing {A} (m : M (World R) A) :
  (∀ w, trace (exec m w) = trace w) → spends m no_budget.
Proof.
  intros Hm w. exists []. rewrite app_nil_r. split; [apply Hm | apply within_nil].
Qed.

Lemma spends_ret {A} (a : A) : spends (ret a : M (World R) A) no_budget.
Proof. by apply spends_nothing. Qed.

Lemma spends_raise {A} e : spends (raise e : M (World R) A) no_budget.
Proof. by apply spends_nothing. Qed.

Lemma spends_lift_outcome {A} (o : outcome A) :
  spends (lift_outcome o : M (World R) A) no_budget.
Proof. by apply spends_nothing. Qed.

Lemma spends_bind {A B} (m : M (World R) A) (f : A → M (World R) B) a b :
  spends m a → (∀ x, spends (f x) b) → spends (bind m f) (a ⊕ b).
Proof.
  intros Hm Hf w. destruct (Hm w) as (t1 & Ht1 & Hw1).
  unfold exec, bind in *. destruct (m w) as [[x|e] w1]; simpl in *.
  - destruct (Hf x w1) as (t2 & Ht2 & Hw2). exists (t1 ++ t2).
    unfold exec in Ht2. rewrite Ht2, Ht1, app_assoc. split; [done|].
    by apply within_app.
  - exists t1. split; [done|]. apply (within_weaken a); [apply budget_add_le_l | done].
Qed.

Lemma spends_try_catch {A} (m : M (World R) A) (h : string → M (World R) A) a b :
  spends m a → (∀ e, spends (h e) b) → spends (try_catch m h) (a ⊕ b).
Proof.
  intros Hm Hh w. destruct (Hm w) as (t1 & Ht1 & Hw1).
  unfold exec, try_catch in *. destruct (m w) as [[x|e] w1]; simpl in *.
  - exists t1. split; [done|]. apply (within_weaken a); [apply budget_add_le_l | done].
  - destruct (Hh e w1) as (t2 & Ht2 & Hw2). exists (t1 ++ t2).
    unfold exec in Ht2. rewrite Ht2, Ht1, app_assoc. split; [done|].
    by apply within_app.
Qed.

Lemma spends_if {A} (c : bool) (m1 m2 : M (World R) A) a b :
  spends m1 a → spends m2 b → spends (if c then m1 else m2) (a ⊔ b).
Proof.
  intros H1 H2. destruct c.
  - apply (spends_weaken _ a); [done | apply budget_max_le_l].
  - apply (spends_weaken _ b); [done | apply budget_max_le_r].
Qed.

Lemma spends_option {A B} (o : option A) (f : A → M (World R) B) d a b :
  (∀ x, spends (f x) a) → spends d b →
  spends (match o with Some x => f x | None => d end) (a ⊔ b).
Proof.
  intros H1 H2. destruct o.
  - apply (spends_weaken _ a); [done | apply budget_max_le_l].
  - apply (spends_weaken _ b); [done | apply budget_max_le_r].
Qed.

Lemma spends_for_range_from {A} (body : nat → M (World R) (option A)) b n i :
  (∀ i, spends (body i) b) → spends (for_range_from i n body) (n ⊗ b).
Proof.
  intros Hbody. revert i. induction n as [|n IH]; intros i.
  - apply spends_ret.
  - rewrite for_range_from_S, budget_scale_S. apply spends_bind; [done|].
    intros [x|]; [|apply IH].
    eapply spends_weaken; [apply spends_ret | apply no_budget_le].
Qed.

Lemma spends_for_range {A} (body : nat → M (World R) (option A)) b n :
  (∀ i, spends (body i) b) → spends (for_range n body) (n ⊗ b).
Proof. apply spends_for_range_from. Qed.

Lemma spends_for_each {A B} (l : list A) (body : A → M (World R) B) b :
  (∀ x, spends (body x) b) → spends (for_each l body) (length l ⊗ b).
Proof.
  intros Hbody. induction l as [|x l IH]; [apply spends_ret|].
  rewrite for_each_cons. cbn [length]. rewrite budget_scale_S.
  apply spends_bind; [done|]. intros y.
  eapply spends_weaken.
  - apply spends_bind; [apply IH|]. intros ys. apply spends_ret.
  - budget_le.
Qed.

(** Extensions compose. *)

Lemma extends_by_weaken a b (w w' : World R) :
  a ⊑ b → extends_by a w w' → extends_by b w w'.
Proof.
  intros Hab (t & Ht & Hw). exists t. split; [done|]. by apply (within_weaken a).
Qed.

Lemma extends_by_trans a b (w1 w2 w3 : World R) :
  extends_by a w1 w2 → extends_by b w2 w3 → extends_by (a ⊕ b) w1 w3.
Proof.
  intros (t1 & Ht1 & Hw1) (t2 & Ht2 & Hw2). exists (t1 ++ t2).
  rewrite Ht2, Ht1, app_assoc. split; [done|]. by apply within_app.
Qed.

Lemma extends_by_request req reply r' (w : World R) :
  extends_by (request_budget req) w (after_request req reply r' w).
Proof. exists [EvRequest req]. split; [done | apply within_request]. Qed.

Lemma extends_by_sleep d n (w : World R) :
  (d <= inject_Z (Z.of_nat n))%Q → extends_by (sleep_for n) w (after_sleep d w).
Proof. intros Hd. exists [EvSleep d]. split; [done | by apply within_sleep]. Qed.

Lemma extends_by_write path data (w : World R) :
  extends_by one_write w (after_write path data w).
Proof. exists [EvWrite path]. split; [done | apply within_write]. Qed.

(** A loop that at most one iteration leaves: all iterations but the last
    go on, the last one goes on, leaves or raises. *)

Lemma spends_for_range_split {A} (body : nat → M (World R) (option A)) b c n i :
  (∀ i, spends_split (body i) b c) →
  spends (for_range_from i (S n) body) (n ⊗ b ⊕ (b ⊔ c)).
Proof.
  intros Hbody. revert i. induction n as [|n IH]; intros i w;
    unfold exec; rewrite for_range_from_S; unfold bind;
    specialize (Hbody i w); unfold run, exec in Hbody;
    destruct (body i w) as [[[x|]|e] w1]; simpl in *;
    try (apply (extends_by_weaken c); [budget_le | done]).
  - apply (extends_by_weaken b); [budget_le | done].
  - apply (extends_by_weaken (b ⊕ (n ⊗ b ⊕ (b ⊔ c)))); [budget_le|].
    apply (extends_by_trans _ _ _ w1); [done | apply IH].
Qed.

(** The effects of the world. *)

Lemma spends_http req : spends (http req) (request_budget req).
Proof.
  intros w. exists [EvRequest req]. split; [|apply within_request].
  unfold exec, http. by destruct (serve req (remote w)).
Qed.

Lemma spends_requests_get url headers timeout :
  spends (requests_get url headers timeout) one_get.
Proof. unfold requests_get. exact (spends_http _). Qed.

Lemma spends_requests_post url headers json timeout :
  spends (requests_post url headers json timeout) one_post.
Proof. unfold requests_post. exact (spends_http _). Qed.

Lemma spends_time_sleep d n :
  (d <= inject_Z (Z.of_nat n))%Q →
  spends (time_sleep d : M (World R) unit) (sleep_for n).
Proof. intros Hd w. exists [EvSleep d]. split; [done|]. by apply within_sleep. Qed.

Lemma spends_write_file path data :
  spends (write_file path data : M (World R) unit) one_write.
Proof. intros w. exists [EvWrite path]. split; [done|]. apply within_write. Qed.

Lemma spends_read_file path : spends (read_file path : M (World R) string) no_budget.
Proof.
  apply spends_nothing. intros w. unfold exec, read_file.
  by destruct (files w !! path).
Qed.

Lemma spends_int_time : spends (int_time : M (World R) Z) no_budget.
Proof. by apply spends_nothing. Qed.

Lemma spends_os_getenv name :
  spends (os_getenv name : M (World R) (option string)) no_budget.
Proof. by apply spends_nothing. Qed.

Lemma spends_os_getenv_default name fallback :
  spends (os_getenv_default name fallback : M (World R) string) no_budget.
Proof. by apply spends_nothing. Qed.

Lemma spends_random_uniform `{Random} (lo hi : Q) :
  spends (random_uniform lo hi : M (World R) Q) no_budget.
Proof. by apply spends_nothing. Qed.

Lemma spends_os_makedirs path :
  spends (os_makedirs path : M (World R) unit) no_budget.
Proof.
  intros w. unfold exec, os_makedirs. destruct (makedirs_error w path).
  - exists []. split; [by rewrite app_nil_r | apply within_nil].
  - exists [EvMakedirs path]. split; [done | apply within_makedirs].
Qed.

(** What a budget says of the counts along a run. *)

Lemma spends_counts {A} (m : M (World R) A) b w :
  spends m b →
  let t := trace (exec m w) in
  (count_requests GET t ≤ count_requests GET (trace w) + gets b)%nat ∧
  (count_requests POST t ≤ count_requests POST (trace w) + posts b)%nat ∧
  (total_sleep t <= total_sleep (trace w) + inject_Z (Z.of_nat (sleeps b)))%Q ∧
  (length (writes_of t) ≤ length (writes_of (trace w)) + writes b)%nat.
Proof.
  intros Hm t. subst t. destruct (Hm w) as (t & -> & Hg & Hp & Hs & Hw).
  rewrite !count_requests_app, total_sleep_app, writes_of_app, length_app.
  split; [|split; [|split]]; [lia | lia | | lia]. by apply Qplus_le_r.
Qed.

End Rules.

#[export] Hint Resolve spends_ret spends_raise spends_lift_outcome spends_http
  spends_requests_get spends_requests_post spends_write_file spends_read_file
  spends_int_time spends_os_getenv spends_os_getenv_default spends_random_uniform
  spends_os_makedirs : nexus.

(** [spend] follows the structure of a program: sequences, handlers,
    conditionals and loops by their rules, the effects by the hints. *)

Ltac spend_step :=
  lazymatch goal with
  | |- spends (bind _ _) _ => eapply spends_bind; [|intros ?]
  | |- spends (try_catch _ _) _ => eapply spends_try_catch; [|intros ?]
  | |- spends (for_range _ _) _ => eapply spends_for_range; intros ?
  | |- spends (for_each _ _) _ => eapply spends_for_each; intros ?
  | |- spends (if _ then _ else _) _ => eapply spends_if
  | |- spends (match _ with Some _ => _ | None => _ end) _ =>
      eapply spends_option; [intros ?|]
  | |- spends (let '(_, _) := ?p in _) _ => destruct p
  | |- spends _ _ => solve [eauto with nexus]
  end.

Ltac spend :=
  unfold mbind, M_bind, mret, M_ret, mthrow, M_throw, fmap, M_fmap; cbv zeta;
  repeat (spend_step; cbv zeta).

(** [spend] up to a given budget: the budget that the rules compute is
    compared with the one of the goal by evaluation. *)

Ltac spend_within := eapply spends_weaken; [spend | budget_le].
