(* ===== verification/Image.v ===== *)
(** * Images, arrays and the computer-vision interface

    What [image_analyzer.py] uses of PIL, numpy and OpenCV.

    - A PIL image has a size, known as soon as the file is opened, and pixel
      data that is loaded on first use and may fail to load; [crop] and
      [np.array] force the load.
    - A numpy array of an image is a list of rows of pixels, a pixel being
      the list of its channel values; a grayscale array is a list of rows of
      unsigned bytes.  [mean] and [var] are computed over the rationals;
      the subtraction of two [uint8] arrays wraps around modulo 256.
    - The OpenCV calls ([cvtColor], [Laplacian], [Canny],
      [fastNlMeansDenoising]) and [ndarray.std] are the interface [Vision],
      with the laws the scorer's proofs rely on. *)

From stdpp Require Import base option list strings.
From Stdlib Require Import QArith Qminmax Lqa.
From S2P Require Import Prelude Python.

Open Scope Z_scope.

(** ** PIL images *)

Definition pixel : Type := list Z.

Record Image : Type := {
  img_width : Z;
  img_height : Z;
  img_data : outcome (Z → Z → pixel)
}.

(** [image.size]. *)

Definition img_size (img : Image) : Z * Z := (img_width img, img_height img).

Definition in_bounds (img : Image) (x y : Z) : bool :=
  (0 <=? x) && (x <? img_width img) && (0 <=? y) && (y <? img_height img).

(** [image.crop((left, top, right, bottom))]: loads the pixel data, then
    copies the box; the part of the box outside of the image is black. *)

Definition crop (img : Image) (box : Z * Z * Z * Z) : outcome Image :=
  let '(x0, y0, x1, y1) := box in
  match img_data img with
  | Raise e => Raise e
  | Ok px =>
      Ok {| img_width := x1 - x0;
            img_height := y1 - y0;
            img_data := Ok (λ x y,
              if in_bounds img (x + x0) (y + y0) then px (x + x0) (y + y0)
              else map (λ _, 0) (px 0 0)) |}
  end.

(** [np.array(image)]: the rows of the image, from top to bottom. *)

Definition array3 : Type := list (list pixel).

Definition to_array (img : Image) : outcome array3 :=
  match img_data img with
  | Raise e => Raise e
  | Ok px =>
      Ok (map (λ y, map (λ x, px x y) (seqZ 0 (img_width img)))
              (seqZ 0 (img_height img)))
  end.

Definition well_formed (img : Image) : Prop :=
  0 ≤ img_width img ∧ 0 ≤ img_height img.

(** The pixel of an image at a position, when the data loads. *)

Definition pixel_at (img : Image) (x y : Z) : option pixel :=
  match img_data img with
  | Ok px => Some (px x y)
  | Raise _ => None
  end.

(** ** Arrays *)

Definition gray_array : Type := list (list Z).
Definition float_array : Type := list (list Q).

Definition is_byte (v : Z) : Prop := 0 ≤ v < 256.

Definition byte_array (g : gray_array) : Prop :=
  Forall (Forall is_byte) g.

Definition same_shape {A B} (a : list (list A)) (b : list (list B)) : Prop :=
  Forall2 (λ r1 r2, length r1 = length r2) a b.

Definition Qsum (l : list Q) : Q := foldr Qplus 0%Q l.

(** [np.mean(a)] and [a.var()] of the flattened array. *)

Definition mean (l : list Q) : Q := (Qsum l / inject_Z (Z.of_nat (length l)))%Q.

Definition var (l : list Q) : Q :=
  mean (map (λ x, ((x - mean l) * (x - mean l))%Q) l).

Definition flatten_gray (g : gray_array) : list Q := map inject_Z (concat g).

Definition flatten_float (a : float_array) : list Q := concat a.

(** [a - b] on [uint8] arrays of the same shape: each difference is taken
    modulo 256. *)

Definition sub_u8 (a b : Z) : Z := (a - b) `mod` 256.

Definition sub_u8_array (a b : gray_array) : gray_array :=
  zip_with (zip_with sub_u8) a b.

(** [np.abs(a)]. *)

Definition np_abs (a : gray_array) : gray_array := map (map Z.abs) a.

(** ** The OpenCV interface *)

Class Vision := {
  (** [cv2.cvtColor(a, cv2.COLOR_RGB2GRAY)]; raises on an empty array and on
      an array whose pixels have neither 3 nor 4 channels. *)
  cvtColor_RGB2GRAY : array3 → outcome gray_array;
  (** [cv2.Laplacian(gray, cv2.CV_64F)]. *)
  Laplacian : gray_array → float_array;
  (** [cv2.Canny(gray, 100, 200)]. *)
  Canny : gray_array → gray_array;
  (** [cv2.fastNlMeansDenoising(gray)]. *)
  fastNlMeansDenoising : gray_array → gray_array;
  (** [gray.std()]. *)
  np_std : gray_array → Q;

  cvtColor_bytes a g : cvtColor_RGB2GRAY a = Ok g → byte_array g;
  cvtColor_nonempty a g : cvtColor_RGB2GRAY a = Ok g → concat g ≠ [];
  cvtColor_empty : is_ok (cvtColor_RGB2GRAY []) = false;
  Canny_bytes g : byte_array g → byte_array (Canny g);
  denoise_bytes g : byte_array g → byte_array (fastNlMeansDenoising g);
  denoise_shape g : same_shape g (fastNlMeansDenoising g);
  np_std_nonneg g : (0 <= np_std g)%Q
}.

(** [Image.open]: identifies the file and reads its size; the pixel data is
    decoded later. *)

Class ImageCodec := {
  image_open : string → outcome Image;
  image_open_wf data img : image_open data = Ok img → well_formed img
}.

(** ** Lemmas *)

Section ImageFacts.

Lemma crop_size img l t r b c :
  crop img (l, t, r, b) = Ok c → img_size c = (r - l, b - t).
Proof. unfold crop. destruct (img_data img); [|done]. by intros [= <-]. Qed.

Lemma crop_loaded img box c :
  crop img box = Ok c → is_ok (img_data c) = true.
Proof.
  destruct box as [[[l t] r] b]. unfold crop.
  destruct (img_data img); [|done]. by intros [= <-].
Qed.

Lemma crop_ok_iff img box : is_ok (crop img box) = is_ok (img_data img).
Proof. destruct box as [[[l t] r] b]. unfold crop. by destruct (img_data img). Qed.

Lemma crop_raise img box e :
  img_data img = Raise e → crop img box = Raise e.
Proof. intros E. destruct box as [[[l t] r] b]. unfold crop. by rewrite E. Qed.

Lemma crop_wf img l t r b c :
  l ≤ r → t ≤ b → crop img (l, t, r, b) = Ok c → well_formed c.
Proof.
  intros Hl Ht. unfold crop. destruct (img_data img); [|done].
  intros [= <-]. unfold well_formed. simpl. lia.
Qed.

(** Inside the image, a pixel of the crop is the pixel of the source at the
    shifted position. *)

Lemma crop_pixel img l t r b c x y :
  crop img (l, t, r, b) = Ok c →
  in_bounds img (x + l) (y + t) = true →
  pixel_at c x y = pixel_at img (x + l) (y + t).
Proof.
  unfold crop, pixel_at. destruct (img_data img) as [px|]; [|done].
  intros [= <-] Hin. simpl. by rewrite Hin.
Qed.

Lemma to_array_rows img a :
  to_array img = Ok a → length a = Z.to_nat (img_height img).
Proof.
  unfold to_array. destruct (img_data img); [|done]. intros [= <-].
  by rewrite length_map, length_seqZ.
Qed.

Lemma to_array_cols img a :
  to_array img = Ok a → Forall (λ row, length row = Z.to_nat (img_width img)) a.
Proof.
  unfold to_array. destruct (img_data img); [|done]. intros [= <-].
  apply Forall_map, Forall_forall. intros y _. simpl.
  by rewrite length_map, length_seqZ.
Qed.

Lemma to_array_ok_iff img : is_ok (to_array img) = is_ok (img_data img).
Proof. unfold to_array. by destruct (img_data img). Qed.

Lemma to_array_empty img a :
  to_array img = Ok a → img_height img ≤ 0 → a = [].
Proof.
  intros Ha Hh. apply to_array_rows in Ha. apply nil_length_inv. lia.
Qed.

End ImageFacts.

Section ArrayFacts.
Open Scope Q_scope.

Lemma Qsum_nonneg l : Forall (λ x, 0 <= x) l → 0 <= Qsum l.
Proof.
  induction 1 as [|x l Hx _ IH]; simpl; [lra|]. lra.
Qed.

Lemma mean_nonneg l : Forall (λ x, 0 <= x) l → 0 <= mean l.
Proof.
  intros Hl. unfold mean. destruct l as [|x l]; [done|].
  apply Qle_shift_div_l.
  - replace 0 with (inject_Z 0) by done. rewrite <- Zlt_Qlt. simpl. lia.
  - rewrite Qmult_0_l. by apply Qsum_nonneg.
Qed.

Lemma var_nonneg l : 0 <= var l.
Proof.
  unfold var. apply mean_nonneg, Forall_map, Forall_forall. intros x _.
  generalize (x - mean l). intros d.
  destruct (Qlt_le_dec d 0) as [Hd|Hd].
  - assert (E : d * d == (- d) * (- d)) by ring.
    rewrite E. apply Qmult_le_0_compat; lra.
  - by apply Qmult_le_0_compat.
Qed.

Lemma flatten_gray_nonneg g : byte_array g → Forall (λ x, 0 <= x) (flatten_gray g).
Proof.
  intros Hg. unfold flatten_gray. apply Forall_map, Forall_concat.
  eapply Forall_impl; [exact Hg|]. intros row Hrow. simpl in *.
  eapply Forall_impl; [exact Hrow|]. intros v [Hv _]. simpl.
  replace 0 with (inject_Z 0) by done. by rewrite <- Zle_Qle.
Qed.

Lemma mean_gray_nonneg g : byte_array g → 0 <= mean (flatten_gray g).
Proof. intros Hg. by apply mean_nonneg, flatten_gray_nonneg. Qed.

End ArrayFacts.

Section BytesFacts.

Lemma sub_u8_byte a b : is_byte (sub_u8 a b).
Proof. unfold is_byte, sub_u8. apply Z.mod_pos_bound. lia. Qed.

Lemma sub_u8_no_wrap a b : is_byte a → is_byte b → b ≤ a → sub_u8 a b = a - b.
Proof. unfold is_byte, sub_u8. intros. apply Z.mod_small. lia. Qed.

Lemma sub_u8_wrap a b : is_byte a → is_byte b → a < b → sub_u8 a b = 256 - (b - a).
Proof.
  unfold is_byte, sub_u8. intros.
  replace (a - b) with (256 - (b - a) + (-1) * 256) by lia.
  rewrite Z.mod_add by lia. apply Z.mod_small. lia.
Qed.

Lemma sub_u8_array_bytes a b : byte_array (sub_u8_array a b).
Proof.
  unfold byte_array, sub_u8_array. revert b.
  induction a as [|ra a IH]; intros [|rb b]; simpl; try constructor; [|apply IH].
  revert rb. induction ra as [|x ra IHr]; intros [|y rb]; simpl; try constructor;
    [apply sub_u8_byte | apply IHr].
Qed.

Lemma np_abs_bytes a : byte_array a → np_abs a = a.
Proof.
  unfold byte_array, np_abs. intros Ha. rewrite <- (list_fmap_id a) at 2.
  apply Forall_fmap_ext_1. eapply Forall_impl; [exact Ha|]. intros row Hrow.
  simpl in *. rewrite <- (list_fmap_id row) at 2.
  apply Forall_fmap_ext_1. eapply Forall_impl; [exact Hrow|].
  intros v [Hv _]. simpl. by apply Z.abs_eq.
Qed.

End BytesFacts.

#[export] Hint Resolve var_nonneg mean_gray_nonneg sub_u8_array_bytes sub_u8_byte : nexus.
