(* ===== verification/Doubles.v ===== *)
(** * Test doubles

    Small executable instances of the interfaces of [Python], [World] and
    [Image], on which the theorems of the components are run at concrete
    inputs: a scripted remote service, a toy image format, a toy
    computer-vision library.  None of them models code of the repository;
    each is proved to satisfy the laws of its interface. *)

From stdpp Require Import base option list strings pretty gmap.
From Stdlib Require Import Ascii QArith Qminmax Qround Lqa.
From S2P Require Import Prelude Python World Image.

Open Scope string_scope.
Open Scope list_scope.
Open Scope Z_scope.

(** ** Formatting *)

Definition toy_repr_float (q : Q) : string :=
  pretty (Qnum q) +:+ "/" +:+ pretty (Zpos (Qden q)).

#[export] Instance toy_repr : PyRepr := {|
  repr_float := toy_repr_float;
  repr_list := λ l, "[" +:+ pretty (length l) +:+ " items]";
  repr_dict := λ d, "{" +:+ pretty (length d) +:+ " keys}"
|}.

(** ** A scripted remote: the replies, in the order of the requests *)

Definition connection_error : Reply :=
  {| reply_result := Raise "Connection aborted."; reply_elapsed := 0 |}.

#[export] Instance scripted_remote : Remote (list Reply) :=
  λ req script,
    match script with
    | [] => (connection_error, [])
    | r :: script' => (r, script')
    end.

Definition json_reply (code : Z) (body : pyval) : Reply :=
  {| reply_result := Ok {| status_code := code; text := "json"; content := "json";
                           resp_json := Ok body |};
     reply_elapsed := 0 |}.

(** A reply with the JSON body [{"data": data}]. *)

Definition data_reply (code : Z) (data : list (string * pyval)) : Reply :=
  json_reply code (PyDict [("data", PyDict data)]).

(** The replies of a task service: a task accepted, in progress, completed
    with its output, failed. *)

Definition accepted_reply (task_id : string) : Reply :=
  data_reply 200 [("task_id", PyStr task_id)].

Definition processing_reply : Reply :=
  data_reply 200 [("status", PyStr "processing");
                  ("output", PyDict [("progress", PyInt 50)])].

Definition completed_reply (image_url : string) (actions : list pyval) : Reply :=
  data_reply 200 [("status", PyStr "completed");
                  ("output", PyDict [("image_url", PyStr image_url);
                                     ("actions", PyList actions)])].

Definition failed_reply (message : string) : Reply :=
  data_reply 200 [("status", PyStr "failed");
                  ("error", PyDict [("message", PyStr message)])].

Definition exception_reply (e : string) : Reply :=
  {| reply_result := Raise e; reply_elapsed := 0 |}.

Definition body_reply (code : Z) (data : string) : Reply :=
  {| reply_result := Ok {| status_code := code; text := data; content := data;
                           resp_json := Raise "Expecting value: line 1 column 1 (char 0)" |};
     reply_elapsed := 0 |}.

Definition start_world (script : list Reply) : World (list Reply) :=
  {| remote := script; clock := 1700000000; seed := 0; environ := ∅;
     files := ∅; dirs := ∅; refused := ∅; trace := [] |}.

(** ** Random delays: the ends of the interval, in turn *)

Definition toy_uniform (a b : Q) (seed : nat) : Q :=
  if Nat.even seed then a else b.

(** ** A toy image format

    The first byte is the width, the second the height, the rest the gray
    values of the pixels, row by row.  A file of fewer than two bytes is not
    an image; a file with too few pixels opens and fails to load. *)

Definition byte_at (data : string) (i : nat) : Z :=
  match String.get i data with
  | Some c => Z.of_N (N_of_ascii c)
  | None => 0
  end.

Definition toy_open (data : string) : outcome Image :=
  if (String.length data <? 2)%nat then Raise "cannot identify image file"
  else
    let w := byte_at data 0 in
    let h := byte_at data 1 in
    Ok {| img_width := w; img_height := h;
          img_data :=
            if (String.length data <? 2 + Z.to_nat (w * h))%nat
            then Raise "image file is truncated"
            else Ok (λ x y, let v := byte_at data (2 + Z.to_nat (y * w + x)) in
                            [v; v; v]) |}.

Definition toy_file (w h : N) (body : string) : string :=
  String (ascii_of_N w) (String (ascii_of_N h) body).

(** An image given by a function of the position. *)

Definition image_of (w h : Z) (f : Z → Z → Z) : Image :=
  {| img_width := w; img_height := h;
     img_data := Ok (λ x y, [f x y; f x y; f x y]) |}.

Definition broken_image (w h : Z) : Image :=
  {| img_width := w; img_height := h; img_data := Raise "image file is truncated" |}.

(** ** A toy computer-vision library *)

Definition clip_byte (v : Z) : Z := Z.min 255 (Z.max 0 v).

Definition luma (p : pixel) : Z :=
  match p with
  | r :: g :: b :: _ => clip_byte ((r * 4899 + g * 9617 + b * 1868 + 8192) `div` 16384)
  | _ => 0
  end.

Definition has_colour (p : pixel) : bool :=
  bool_decide (length p = 3%nat ∨ length p = 4%nat).

Definition toy_cvtColor (a : array3) : outcome gray_array :=
  if bool_decide (concat a = []) then Raise "(-215:Assertion failed) !_src.empty()"
  else if forallb (forallb has_colour) a then Ok (map (map luma) a)
  else Raise "Invalid number of channels in input image"%string.

(** Second difference along each row, the border pixel repeated. *)

Definition lap_row (row : list Z) : list Q :=
  let before := default 0 (head row) :: row in
  let after := tail row ++ [default 0 (last row)] in
  zip_with (λ '(a, v) b, inject_Z (a + b - 2 * v)) (zip before row) after.

Definition toy_Laplacian (g : gray_array) : float_array := map lap_row g.

Definition toy_Canny (g : gray_array) : gray_array :=
  map (map (λ v, if 128 <=? v then 255 else 0)) g.

(** Rounding to the nearest multiple of four. *)

Definition toy_denoise (g : gray_array) : gray_array :=
  map (map (λ v, clip_byte ((v + 2) `div` 4 * 4))) g.

Definition toy_std (g : gray_array) : Q :=
  (inject_Z (Z.sqrt (Qfloor (var (flatten_gray g) * 1000000))) / 1000)%Q.

(** ** The doubles satisfy the laws *)

Section Laws.

Lemma toy_uniform_range a b seed :
  (a <= b → a <= toy_uniform a b seed <= b)%Q.
Proof. intros Hab. unfold toy_uniform. destruct (Nat.even seed); lra. Qed.

Lemma clip_byte_is_byte v : is_byte (clip_byte v).
Proof. unfold is_byte, clip_byte. lia. Qed.

Lemma luma_is_byte p : is_byte (luma p).
Proof.
  destruct p as [|r [|g [|b p]]]; try (unfold is_byte; simpl; lia).
  apply clip_byte_is_byte.
Qed.

Lemma map_map_bytes {A} (f : A → Z) (a : list (list A)) :
  (∀ x, is_byte (f x)) → byte_array (map (map f) a).
Proof.
  intros Hf. apply Forall_map, Forall_forall. intros row _.
  apply Forall_map, Forall_forall. intros x _. apply Hf.
Qed.

Lemma map_map_shape {A B} (f : A → B) (a : list (list A)) :
  same_shape a (map (map f) a).
Proof.
  unfold same_shape. induction a as [|row a IH]; simpl; constructor; [|done].
  by rewrite length_map.
Qed.

Lemma concat_map_map {A B} (f : A → B) (a : list (list A)) :
  concat (map (map f) a) = map f (concat a).
Proof. induction a as [|row a IH]; simpl; [done|]. by rewrite map_app, IH. Qed.

Lemma toy_cvtColor_bytes a g : toy_cvtColor a = Ok g → byte_array g.
Proof.
  unfold toy_cvtColor. case_bool_decide; [done|].
  destruct (forallb _ a); [|done]. intros [= <-].
  apply map_map_bytes, luma_is_byte.
Qed.

Lemma toy_cvtColor_nonempty a g : toy_cvtColor a = Ok g → concat g ≠ [].
Proof.
  unfold toy_cvtColor. case_bool_decide as Hne; [done|].
  destruct (forallb _ a); [|done]. intros [= <-].
  rewrite concat_map_map. intros E. by apply map_eq_nil in E.
Qed.

Lemma toy_Canny_bytes g : byte_array g → byte_array (toy_Canny g).
Proof.
  intros _. apply map_map_bytes. intros v. unfold is_byte.
  destruct (128 <=? v); lia.
Qed.

Lemma toy_denoise_bytes g : byte_array g → byte_array (toy_denoise g).
Proof. intros _. apply map_map_bytes. intros v. apply clip_byte_is_byte. Qed.

Lemma toy_std_nonneg g : (0 <= toy_std g)%Q.
Proof.
  unfold toy_std. apply Qle_shift_div_l; [done|]. rewrite Qmult_0_l.
  replace 0%Q with (inject_Z 0) by done. rewrite <- Zle_Qle.
  apply Z.sqrt_nonneg.
Qed.

Lemma toy_open_wf data img : toy_open data = Ok img → well_formed img.
Proof.
  unfold toy_open. destruct (String.length data <? 2)%nat; [done|].
  intros [= <-]. unfold well_formed, byte_at. simpl.
  split; destruct (String.get _ data); lia.
Qed.

End Laws.

#[export] Instance toy_random : Random := {|
  uniform := toy_uniform;
  uniform_range := toy_uniform_range
|}.

#[export] Instance toy_vision : Vision := {|
  cvtColor_RGB2GRAY := toy_cvtColor;
  Laplacian := toy_Laplacian;
  Canny := toy_Canny;
  fastNlMeansDenoising := toy_denoise;
  np_std := toy_std;
  cvtColor_bytes := toy_cvtColor_bytes;
  cvtColor_nonempty := toy_cvtColor_nonempty;
  cvtColor_empty := eq_refl;
  Canny_bytes := toy_Canny_bytes;
  denoise_bytes := toy_denoise_bytes;
  denoise_shape := map_map_shape _;
  np_std_nonneg := toy_std_nonneg
|}.

#[export] Instance toy_codec : ImageCodec := {|
  image_open := toy_open;
  image_open_wf := toy_open_wf
|}.
