(* ===== verification/ImageAnalyzer.v ===== *)
(** * The image analyzer

    [src/src/content_generation/image_analyzer.py], class [ImageAnalyzer]:
    the quality scorer, the grid splitter and the selectors.  The
    definitions follow the methods of the class one by one; a method whose
    body is a [try] with an [except Exception] that returns a default is the
    body as an [outcome] followed by [or_else] (or [try_catch] when the body
    has effects).

    The theorems show that a score lies between 0 and 1, that an image that
    cannot be loaded scores 0, that the splitter yields the four quadrants in
    row-major order without ever reading outside of the grid, that the
    selectors answer the first position of the largest score, and that the
    noise measure wraps around where the denoised pixel is the brighter
    one. *)

From stdpp Require Import base option list strings.
From Stdlib Require Import QArith Qminmax Lqa.
From S2P Require Import Prelude Python World Budget Image Doubles.

Open Scope string_scope.
Open Scope list_scope.

(** ** The analyzer and its weights *)

Record ImageAnalyzer : Type := {
  metrics : list (string * Q)
}.

Definition ImageAnalyzer_init : ImageAnalyzer :=
  {| metrics := [("sharpness", 0.3%Q); ("contrast", 0.2%Q);
                 ("detail", 0.3%Q); ("noise", 0.2%Q)] |}.

(** [self.metrics[metric]], a [KeyError] when the metric has no weight. *)

Fixpoint weight_lookup (d : list (string * Q)) (metric : string) : option Q :=
  match d with
  | [] => None
  | (k, w) :: d' => if String.eqb k metric then Some w else weight_lookup d' metric
  end.

Definition metric_weight (self : ImageAnalyzer) (metric : string) : outcome Q :=
  match weight_lookup (metrics self) metric with
  | Some w => Ok w
  | None => Raise ("'" +:+ metric +:+ "'")
  end.

(** [sum(...)]: from 0, left to right. *)

Definition py_sum (l : list Q) : Q := fold_left Qplus l 0%Q.

Section Scorer.
Context `{Vision}.

(** ** The four measurements *)

Definition calculate_sharpness (img_array : array3) : outcome Q :=
  gray ← cvtColor_RGB2GRAY img_array;
  mret (var (flatten_float (Laplacian gray))).

Definition calculate_contrast (img_array : array3) : outcome Q :=
  gray ← cvtColor_RGB2GRAY img_array;
  mret (np_std gray).

Definition calculate_detail (img_array : array3) : outcome Q :=
  gray ← cvtColor_RGB2GRAY img_array;
  let edges := Canny gray in
  mret (mean (flatten_gray edges)).

Definition calculate_noise (img_array : array3) : outcome Q :=
  gray ← cvtColor_RGB2GRAY img_array;
  let noise := fastNlMeansDenoising gray in
  mret (mean (flatten_gray (np_abs (sub_u8_array gray noise)))).

(** ** The score *)

Definition analyze_image_try (self : ImageAnalyzer) (image : Image) : outcome Q :=
  img_array ← to_array image;
  sharpness ← calculate_sharpness img_array;
  contrast ← calculate_contrast img_array;
  detail ← calculate_detail img_array;
  noise ← calculate_noise img_array;
  let max_sharpness := 1000%Q in
  let max_contrast := 100%Q in
  let max_detail := 50%Q in
  let max_noise := 30%Q in
  let normalized_scores :=
    [("sharpness", Qmin (sharpness / max_sharpness) 1);
     ("contrast", Qmin (contrast / max_contrast) 1);
     ("detail", Qmin (detail / max_detail) 1);
     ("noise", (1 - Qmin (noise / max_noise) 1)%Q)] in
  weighted ← outcome_map
    (λ '(metric, score), w ← metric_weight self metric; mret (score * w)%Q)
    normalized_scores;
  mret (py_sum weighted).

Definition analyze_image (self : ImageAnalyzer) (image : Image) : Q :=
  or_else (analyze_image_try self image) 0%Q.

(** ** The grid splitter *)

Definition grid_cell (grid_image : Image) (x y : Z) : outcome Image :=
  let '(width, height) := img_size grid_image in
  let cell_width := (width `div` 2)%Z in
  let cell_height := (height `div` 2)%Z in
  let x0 := (x * cell_width)%Z in
  let y0 := (y * cell_height)%Z in
  let x1 := (x0 + cell_width)%Z in
  let y1 := (y0 + cell_height)%Z in
  crop grid_image (x0, y0, x1, y1).

Definition split_grid_image (grid_image : Image) : outcome (list Image) :=
  outcome_map (λ '(y, x), grid_cell grid_image x y)
    (y ← seqZ 0 2; x ← seqZ 0 2; [(y, x)]).

(** ** The selector of a grid *)

Definition analyze_grid_image_try `{PyRepr} (self : ImageAnalyzer) (grid_image : Image)
  : outcome nat :=
  images ← split_grid_image grid_image;
  let scores := map (analyze_image self) images in
  index_of_max scores.

Definition analyze_grid_image `{PyRepr} (self : ImageAnalyzer) (grid_image : Image) : nat :=
  or_else (analyze_grid_image_try self grid_image) 0%nat.

(** ** The selector of independently hosted images *)

Section Downloads.
Context {R : Type} `{Remote R} `{ImageCodec} `{PyRepr}.

Definition download_image (url : string) : M (World R) (option Image) :=
  try_catch
    (response ← requests_get (PyStr url) PyNone 30;
     if (status_code response =? 200)%Z
     then image ← lift_outcome (image_open (content response)); mret (Some image)
     else mret None)
    (λ e, mret None).

Definition score_url (self : ImageAnalyzer) (url : string) : M (World R) Q :=
  image ← download_image url;
  match image with
  | Some image => mret (analyze_image self image)
  | None => mret 0%Q
  end.

Definition select_best_image (self : ImageAnalyzer) (image_urls : list string)
  : M (World R) (nat * Q) :=
  try_catch
    (scores ← for_each image_urls (score_url self);
     if bool_decide (scores = []) then mret (0%nat, 0%Q)
     else
       best_index ← lift_outcome (index_of_max scores);
       match scores !! best_index with
       | Some score => mret (best_index, score)
       | None => mthrow "list index out of range"
       end)
    (λ e, mret (0%nat, 0%Q)).

End Downloads.
End Scorer.

(** The cell of column [x] and row [y] of a grid whose pixels are [px], as
    the splitter produces it: the reference against which [split_grid_image]
    is checked. *)

Definition quadrant (grid_image : Image) (px : Z → Z → pixel) (x y : Z) : Image :=
  let cw := (img_width grid_image `div` 2)%Z in
  let ch := (img_height grid_image `div` 2)%Z in
  {| img_width := (x * cw + cw - x * cw)%Z;
     img_height := (y * ch + ch - y * ch)%Z;
     img_data := Ok (λ i j,
       if in_bounds grid_image (i + x * cw) (j + y * ch)
       then px (i + x * cw)%Z (j + y * ch)%Z
       else map (λ _, 0%Z) (px 0%Z 0%Z)) |}.

(** The scores of the four cells of a loaded grid, in the splitter's order. *)

Definition grid_scores `{Vision} (self : ImageAnalyzer) (grid_image : Image)
    (px : Z → Z → pixel) : list Q :=
  map (analyze_image self)
    [quadrant grid_image px 0 0; quadrant grid_image px 1 0;
     quadrant grid_image px 0 1; quadrant grid_image px 1 1].

(** The request that [download_image] sends. *)

Definition download_request (url : string) : Request :=
  {| req_method := GET; req_url := PyStr url; req_headers := PyNone;
     req_json := PyNone; req_timeout := 30 |}.

(** What [download_image] answers, by the reply of the remote: the image of
    a 200 response whose body opens, [None] otherwise. *)

Definition downloaded `{ImageCodec} (reply : Reply) : option Image :=
  match reply_result reply with
  | Ok response =>
      if (status_code response =? 200)%Z
      then outcome_value (image_open (content response))
      else None
  | Raise _ => None
  end.

(** The scores that [select_best_image] collects, by the replies of the
    remote to the downloads in turn: the score of the image, and 0 for a
    download that fails. *)

Fixpoint url_scores `{Vision} {R : Type} `{Remote R} `{ImageCodec}
    (self : ImageAnalyzer) (urls : list string) (r : R) : list Q :=
  match urls with
  | [] => []
  | url :: urls' =>
      let '(reply, r') := serve (download_request url) r in
      from_option (analyze_image self) 0%Q (downloaded reply)
      :: url_scores self urls' r'
  end.

(** The absolute difference that [calculate_noise] is meant to take, and
    what the [uint8] subtraction yields in its place. *)

Definition abs_diff (g d : Z) : Z := Z.abs (g - d).

Definition wrapped_diff (g d : Z) : Z :=
  if (g <? d)%Z then (256 - (d - g))%Z else (g - d)%Z.

(** [l !! i] holds the largest item of [l] and is the first to do so. *)

Definition first_maximum (l : list Q) (i : nat) : Prop :=
  ∃ m, l !! i = Some m ∧ (∀ x, x ∈ l → (x <= m)%Q) ∧
       (∀ k y, (k < i)%nat → l !! k = Some y → (y < m)%Q).

(** ** Concrete inputs for the examples

    A grid of 800 by 800 pixels, a cell of 2 by 2 pixels, a grid of 4 by 4
    pixels, a grid that does not load, and a remote that serves one image of
    the toy format, one 404 and one body that is not an image. *)

Definition demo_pixels : Z → Z → pixel :=
  λ x y, let v := ((x * 70 + y * 25 + x * y * 90) `mod` 256)%Z in [v; v; v].

Definition demo_grid_800 : Image :=
  {| img_width := 800; img_height := 800; img_data := Ok demo_pixels |}.

Definition demo_grid : Image :=
  {| img_width := 4; img_height := 4; img_data := Ok demo_pixels |}.

Definition demo_cell : Image :=
  {| img_width := 2; img_height := 2; img_data := Ok demo_pixels |}.

Definition demo_cell_array : array3 :=
  [[[0; 0; 0]; [70; 70; 70]]; [[25; 25; 25]; [185; 185; 185]]]%Z.

Definition demo_cell_gray : gray_array := [[0; 70]; [25; 185]]%Z.

Definition demo_broken_grid : Image := broken_image 4 4.

Definition demo_urls : list string := ["u1"; "u2"; "u3"].

Definition demo_world : World (list Reply) :=
  start_world [body_reply 200 (toy_file 2 2 "a0z9");
               body_reply 404 "not found";
               body_reply 200 "x"].

Definition demo_scores : list Q :=
  Eval vm_compute in
    or_else (run (for_each demo_urls (score_url ImageAnalyzer_init)) demo_world) [].

(** ** Lemmas: the measurements *)

Section ScorerFacts.
Context `{Vision}.
Open Scope Q_scope.

Lemma calculate_sharpness_nonneg a v : calculate_sharpness a = Ok v → 0 <= v.
Proof.
  unfold calculate_sharpness. destruct (cvtColor_RGB2GRAY a); [|done].
  intros [= <-]. apply var_nonneg.
Qed.

Lemma calculate_contrast_nonneg a v : calculate_contrast a = Ok v → 0 <= v.
Proof.
  unfold calculate_contrast. destruct (cvtColor_RGB2GRAY a); [|done].
  intros [= <-]. apply np_std_nonneg.
Qed.

Lemma calculate_detail_nonneg a v : calculate_detail a = Ok v → 0 <= v.
Proof.
  unfold calculate_detail. destruct (cvtColor_RGB2GRAY a) as [g|] eqn:E; [|done].
  intros [= <-]. apply mean_gray_nonneg, Canny_bytes. by eapply cvtColor_bytes.
Qed.

Lemma calculate_noise_nonneg a v : calculate_noise a = Ok v → 0 <= v.
Proof.
  unfold calculate_noise. destruct (cvtColor_RGB2GRAY a) as [g|] eqn:E; [|done].
  intros [= <-]. rewrite np_abs_bytes by apply sub_u8_array_bytes.
  apply mean_gray_nonneg, sub_u8_array_bytes.
Qed.

(** The four measurements fail together: each starts with the same
    conversion to grayscale. *)

Lemma calculate_all_raise a e :
  cvtColor_RGB2GRAY a = Raise e →
  calculate_sharpness a = Raise e ∧ calculate_contrast a = Raise e ∧
  calculate_detail a = Raise e ∧ calculate_noise a = Raise e.
Proof.
  intros E. unfold calculate_sharpness, calculate_contrast, calculate_detail,
    calculate_noise. by rewrite E.
Qed.

(** The weighted sum of the constructor's weights. *)

Lemma weighted_sum_default a b c d :
  py_sum [a * 0.3; b * 0.2; c * 0.3; d * 0.2]
  == 0.3 * a + 0.2 * b + 0.3 * c + 0.2 * d.
Proof. unfold py_sum. simpl. ring. Qed.

Lemma weighted_sum_range a b c d :
  0 <= a <= 1 → 0 <= b <= 1 → 0 <= c <= 1 → 0 <= d <= 1 →
  0 <= py_sum [a * 0.3; b * 0.2; c * 0.3; d * 0.2] <= 1.
Proof. intros. rewrite weighted_sum_default. lra. Qed.

Lemma clamp_range x d : 0 <= x → 0 < d → 0 <= Qmin (x / d) 1 <= 1.
Proof.
  intros Hx Hd. split; [by apply (clamp01_ge_0 x d) | apply (clamp01_le_1 x d)].
Qed.

Lemma inverted_clamp_range x d : 0 <= x → 0 < d → 0 <= 1 - Qmin (x / d) 1 <= 1.
Proof. intros Hx Hd. pose proof (clamp_range x d Hx Hd). lra. Qed.

(** What [analyze_image_try] computes from the four measurements. *)

Lemma analyze_image_try_unfold image a s c d n :
  to_array image = Ok a →
  calculate_sharpness a = Ok s → calculate_contrast a = Ok c →
  calculate_detail a = Ok d → calculate_noise a = Ok n →
  analyze_image_try ImageAnalyzer_init image
  = Ok (py_sum [Qmin (s / 1000) 1 * 0.3; Qmin (c / 100) 1 * 0.2;
                Qmin (d / 50) 1 * 0.3; (1 - Qmin (n / 30) 1) * 0.2]).
Proof.
  intros Ea Es Ec Ed En. unfold analyze_image_try.
  rewrite Ea. simpl. rewrite Es. simpl. rewrite Ec. simpl.
  rewrite Ed. simpl. by rewrite En.
Qed.

Lemma analyze_image_try_range image v :
  analyze_image_try ImageAnalyzer_init image = Ok v → 0 <= v <= 1.
Proof.
  unfold analyze_image_try.
  destruct (to_array image) as [a|]; [simpl|done].
  destruct (calculate_sharpness a) as [s|] eqn:Es; [simpl|done].
  destruct (calculate_contrast a) as [c|] eqn:Ec; [simpl|done].
  destruct (calculate_detail a) as [d|] eqn:Ed; [simpl|done].
  destruct (calculate_noise a) as [n|] eqn:En; [simpl|done].
  intros [= <-].
  apply calculate_sharpness_nonneg in Es. apply calculate_contrast_nonneg in Ec.
  apply calculate_detail_nonneg in Ed. apply calculate_noise_nonneg in En.
  apply weighted_sum_range;
    [apply clamp_range | apply clamp_range | apply clamp_range
     | apply inverted_clamp_range]; done.
Qed.

Lemma analyze_image_try_load_error self image e :
  img_data image = Raise e → analyze_image_try self image = Raise e.
Proof. intros E. unfold analyze_image_try, to_array. by rewrite E. Qed.

Lemma analyze_image_try_convert_error self image a e :
  to_array image = Ok a → cvtColor_RGB2GRAY a = Raise e →
  analyze_image_try self image = Raise e.
Proof.
  intros Ea Ec. unfold analyze_image_try. rewrite Ea. simpl.
  destruct (calculate_all_raise a e Ec) as (-> & _). done.
Qed.

End ScorerFacts.

#[export] Hint Resolve calculate_sharpness_nonneg calculate_contrast_nonneg
  calculate_detail_nonneg calculate_noise_nonneg : nexus.

(** ** Lemmas: the score *)

Section ScoreFacts.
Context `{Vision}.
Open Scope Q_scope.

Lemma analyze_image_range_aux image :
  0 <= analyze_image ImageAnalyzer_init image <= 1.
Proof.
  unfold analyze_image.
  destruct (analyze_image_try ImageAnalyzer_init image) as [v|] eqn:E; simpl;
    [by eapply analyze_image_try_range | lra].
Qed.

Lemma analyze_image_load_error self image e :
  img_data image = Raise e → analyze_image self image = 0.
Proof.
  intros E. unfold analyze_image.
  by rewrite (analyze_image_try_load_error self image e E).
Qed.

Lemma analyze_image_convert_error self image a e :
  to_array image = Ok a → cvtColor_RGB2GRAY a = Raise e →
  analyze_image self image = 0.
Proof.
  intros Ea Ec. unfold analyze_image.
  by rewrite (analyze_image_try_convert_error self image a e Ea Ec).
Qed.

(** An image without rows has an empty array, which OpenCV rejects. *)

Lemma analyze_image_empty self image :
  (img_height image <= 0)%Z → analyze_image self image = 0.
Proof.
  intros Hh. destruct (to_array image) as [a|e] eqn:Ea.
  - pose proof (to_array_empty image a Ea Hh) as ->.
    pose proof cvtColor_empty as Hc.
    destruct (cvtColor_RGB2GRAY []) as [g|e] eqn:Ec; [done|].
    by eapply analyze_image_convert_error.
  - unfold to_array in Ea. destruct (img_data image) eqn:Ed; [done|].
    by eapply analyze_image_load_error.
Qed.

End ScoreFacts.

(** ** Lemmas: the splitter *)

Section SplitterFacts.
Open Scope Z_scope.

Lemma grid_positions :
  (y ← seqZ 0 2; x ← seqZ 0 2; [(y, x)]) = [(0, 0); (0, 1); (1, 0); (1, 1)].
Proof. reflexivity. Qed.

Lemma grid_cell_loaded grid_image px x y :
  img_data grid_image = Ok px →
  grid_cell grid_image x y = Ok (quadrant grid_image px x y).
Proof. intros E. unfold grid_cell, crop. simpl. by rewrite E. Qed.

Lemma grid_cell_raise grid_image e x y :
  img_data grid_image = Raise e → grid_cell grid_image x y = Raise e.
Proof. intros E. unfold grid_cell, crop. simpl. by rewrite E. Qed.

Lemma split_grid_image_loaded grid_image px :
  img_data grid_image = Ok px →
  split_grid_image grid_image
  = Ok [quadrant grid_image px 0 0; quadrant grid_image px 1 0;
        quadrant grid_image px 0 1; quadrant grid_image px 1 1].
Proof.
  intros E. unfold split_grid_image. rewrite grid_positions. simpl.
  by rewrite !(grid_cell_loaded _ px).
Qed.

Lemma split_grid_image_raise grid_image e :
  img_data grid_image = Raise e → split_grid_image grid_image = Raise e.
Proof.
  intros E. unfold split_grid_image. rewrite grid_positions. simpl.
  by rewrite (grid_cell_raise _ e).
Qed.

Lemma quadrant_size grid_image px x y :
  img_size (quadrant grid_image px x y)
  = (img_width grid_image `div` 2, img_height grid_image `div` 2).
Proof. unfold img_size, quadrant. simpl. f_equal; lia. Qed.

(** A position of a cell lies inside the grid. *)

Lemma quadrant_in_bounds grid_image x y i j :
  well_formed grid_image → 0 ≤ x ≤ 1 → 0 ≤ y ≤ 1 →
  0 ≤ i < img_width grid_image `div` 2 →
  0 ≤ j < img_height grid_image `div` 2 →
  in_bounds grid_image (i + x * (img_width grid_image `div` 2))
                       (j + y * (img_height grid_image `div` 2)) = true.
Proof.
  intros [Hw Hh] Hx Hy Hi Hj. unfold in_bounds.
  pose proof (Z.mul_div_le (img_width grid_image) 2 ltac:(lia)).
  pose proof (Z.mul_div_le (img_height grid_image) 2 ltac:(lia)).
  repeat (apply andb_true_iff; split);
    first [apply Z.leb_le | apply Z.ltb_lt]; nia.
Qed.

Lemma quadrant_pixel grid_image px x y i j :
  well_formed grid_image → 0 ≤ x ≤ 1 → 0 ≤ y ≤ 1 →
  0 ≤ i < img_width grid_image `div` 2 →
  0 ≤ j < img_height grid_image `div` 2 →
  pixel_at (quadrant grid_image px x y) i j
  = Some (px (i + x * (img_width grid_image `div` 2))
             (j + y * (img_height grid_image `div` 2))).
Proof.
  intros Hwf Hx Hy Hi Hj. unfold pixel_at, quadrant. simpl.
  by rewrite quadrant_in_bounds.
Qed.

Lemma quadrant_wf grid_image px x y :
  well_formed grid_image → well_formed (quadrant grid_image px x y).
Proof.
  intros [Hw Hh]. unfold well_formed, quadrant. simpl.
  pose proof (Z.div_pos (img_width grid_image) 2 Hw ltac:(lia)).
  pose proof (Z.div_pos (img_height grid_image) 2 Hh ltac:(lia)).
  lia.
Qed.

End SplitterFacts.

(** ** Lemmas: the selector of a grid *)

Section GridSelectorFacts.
Context `{Vision} `{PyRepr}.

Lemma index_of_max_first_maximum l i : index_of_max l = Ok i → first_maximum l i.
Proof. apply index_of_max_spec. Qed.

Lemma first_maximum_lt l i : first_maximum l i → (i < length l)%nat.
Proof. intros (m & Hm & _). by eapply lookup_lt_Some. Qed.

Lemma first_maximum_unique l i j : first_maximum l i → first_maximum l j → i = j.
Proof.
  intros (m & Hm & Hmax & Hfirst) (m' & Hm' & Hmax' & Hfirst').
  destruct (Nat.lt_trichotomy i j) as [Hlt|[->|Hlt]]; [|done|].
  - pose proof (Hfirst' i m Hlt Hm).
    pose proof (Hmax m' (list_elem_of_lookup_2 _ _ _ Hm')). lra.
  - pose proof (Hfirst j m' Hlt Hm').
    pose proof (Hmax' m (list_elem_of_lookup_2 _ _ _ Hm)). lra.
Qed.

Lemma analyze_grid_image_try_loaded self grid_image px :
  img_data grid_image = Ok px →
  analyze_grid_image_try self grid_image
  = index_of_max (grid_scores self grid_image px).
Proof.
  intros E. unfold analyze_grid_image_try.
  by rewrite (split_grid_image_loaded _ px E).
Qed.

Lemma analyze_grid_image_loaded self grid_image px :
  img_data grid_image = Ok px →
  index_of_max (grid_scores self grid_image px)
  = Ok (analyze_grid_image self grid_image).
Proof.
  intros E. unfold analyze_grid_image.
  rewrite (analyze_grid_image_try_loaded _ _ px E).
  destruct (index_of_max_total (grid_scores self grid_image px)) as [i ->]; done.
Qed.

Lemma analyze_grid_image_raise self grid_image e :
  img_data grid_image = Raise e → analyze_grid_image self grid_image = 0%nat.
Proof.
  intros E. unfold analyze_grid_image, analyze_grid_image_try.
  by rewrite (split_grid_image_raise _ e E).
Qed.

Lemma analyze_grid_image_lt_4 self grid_image :
  (analyze_grid_image self grid_image < 4)%nat.
Proof.
  destruct (img_data grid_image) as [px|e] eqn:E.
  - pose proof (analyze_grid_image_loaded self _ px E) as Hi.
    apply index_of_max_first_maximum, first_maximum_lt in Hi. done.
  - rewrite (analyze_grid_image_raise _ _ e E). lia.
Qed.

End GridSelectorFacts.

(** ** Lemmas: downloads and the selector of hosted images *)

Section DownloadFacts.
Context `{Vision} {R : Type} `{Remote R} `{ImageCodec} `{PyRepr}.
Implicit Types w : World R.

Lemma download_image_run url w :
  download_image url w
  = (Ok (downloaded (serve (download_request url) (remote w)).1),
     exec (http (download_request url)) w).
Proof.
  unfold download_image, downloaded, requests_get, exec. munfold.
  fold (download_request url). unfold http.
  destruct (serve (download_request url) (remote w)) as [[[resp|e] el] r']; simpl;
    [|done].
  destruct (status_code resp =? 200)%Z; [|done].
  by destruct (image_open (content resp)).
Qed.

Lemma score_url_run self url w :
  score_url self url w
  = (Ok (from_option (analyze_image self) 0%Q
           (downloaded (serve (download_request url) (remote w)).1)),
     exec (http (download_request url)) w).
Proof.
  unfold score_url. munfold. rewrite download_image_run.
  by destruct (downloaded _).
Qed.

Lemma score_url_total self url w : is_ok (run (score_url self url) w) = true.
Proof. unfold run. by rewrite score_url_run. Qed.

Lemma select_best_image_scores self urls w scores w' :
  for_each urls (score_url self) w = (Ok scores, w') →
  select_best_image self urls w
  = if bool_decide (scores = []) then (Ok (0%nat, 0%Q), w')
    else match index_of_max scores with
         | Ok i => (Ok (i, default 0%Q (scores !! i)), w')
         | Raise _ => (Ok (0%nat, 0%Q), w')
         end.
Proof.
  intros E. unfold select_best_image. munfold. rewrite E.
  case_bool_decide; [done|].
  destruct (index_of_max scores) as [i|e] eqn:Ei; [|done].
  destruct (index_of_max_first_maximum _ _ Ei) as (m & -> & _). done.
Qed.

Lemma select_best_image_nonempty self urls w scores w' :
  for_each urls (score_url self) w = (Ok scores, w') → scores ≠ [] →
  ∃ i s, select_best_image self urls w = (Ok (i, s), w') ∧
         first_maximum scores i ∧ scores !! i = Some s.
Proof.
  intros E Hne. rewrite (select_best_image_scores _ _ _ _ _ E).
  rewrite bool_decide_eq_false_2 by done.
  destruct (index_of_max_total scores Hne) as [i Hi]. rewrite Hi.
  pose proof (index_of_max_first_maximum _ _ Hi) as Hfm.
  destruct Hfm as (m & Hm & Hrest). exists i, m. rewrite Hm. simpl.
  split; [done|]. split; [by exists m | done].
Qed.

Lemma for_each_score_url_total self urls w :
  ∃ scores, run (for_each urls (score_url self)) w = Ok scores ∧
            length scores = length urls.
Proof. apply for_each_total. intros url w'. apply score_url_total. Qed.

(** The loop of the selection collects [url_scores]. *)

Lemma for_each_score_url_run self urls w :
  run (for_each urls (score_url self)) w = Ok (url_scores self urls (remote w)).
Proof.
  revert w. induction urls as [|url urls IH]; intros w; [done|].
  unfold run in *. rewrite for_each_cons. unfold bind, ret.
  rewrite score_url_run. specialize (IH (exec (http (download_request url)) w)).
  rewrite http_remote in IH. simpl.
  destruct (serve (download_request url) (remote w)) as [reply r'].
  destruct (for_each urls _ _) as [[scores|e] w']; simpl in *; congruence.
Qed.

Lemma url_scores_length self urls (r : R) :
  length (url_scores self urls r) = length urls.
Proof.
  revert r. induction urls as [|url urls IH]; intros r; [done|]. simpl.
  destruct (serve (download_request url) r) as [reply r']. simpl. by rewrite IH.
Qed.

(** On a list that is not empty the selection answers a first maximum of
    [url_scores]. *)

Lemma select_best_image_url_scores self urls w :
  urls ≠ [] →
  ∃ i s, run (select_best_image self urls) w = Ok (i, s) ∧
         first_maximum (url_scores self urls (remote w)) i ∧
         url_scores self urls (remote w) !! i = Some s.
Proof.
  intros Hne. pose proof (for_each_score_url_run self urls w) as Hs. unfold run in *.
  destruct (for_each urls (score_url self) w) as [o w'] eqn:E. simpl in Hs. subst o.
  destruct (select_best_image_nonempty self urls w _ w' E) as (i & s & Hr & Hfm & Hl).
  { intros Hnil. apply (f_equal length) in Hnil. rewrite url_scores_length in Hnil.
    by destruct urls. }
  exists i, s. by rewrite Hr.
Qed.

(** What the selection may add to the trace: one request for each URL. *)

Lemma spends_download_image url : spends (download_image url) one_get.
Proof. unfold download_image. spend_within. Qed.

Lemma spends_score_url self url : spends (score_url self url) one_get.
Proof. unfold score_url. pose proof spends_download_image. spend_within. Qed.

Lemma spends_select_best_image self urls :
  spends (select_best_image self urls) (length urls ⊗ one_get).
Proof. unfold select_best_image. pose proof spends_score_url. spend_within. Qed.

End DownloadFacts.

Section NoiseFacts.
Open Scope Z_scope.

Lemma sub_u8_wrapped g d : is_byte g → is_byte d → sub_u8 g d = wrapped_diff g d.
Proof.
  intros Hg Hd. unfold wrapped_diff. destruct (Z.ltb_spec g d).
  - by apply sub_u8_wrap.
  - by apply sub_u8_no_wrap.
Qed.

Lemma wrapped_diff_brighter g d : g < d → wrapped_diff g d = 256 - abs_diff g d.
Proof.
  intros Hlt. unfold wrapped_diff, abs_diff.
  destruct (Z.ltb_spec g d); lia.
Qed.

Lemma wrapped_diff_darker g d : d ≤ g → wrapped_diff g d = abs_diff g d.
Proof.
  intros Hle. unfold wrapped_diff, abs_diff.
  destruct (Z.ltb_spec g d); lia.
Qed.

Lemma sub_u8_row_wrapped (r1 r2 : list Z) :
  Forall is_byte r1 → Forall is_byte r2 →
  zip_with sub_u8 r1 r2 = zip_with wrapped_diff r1 r2.
Proof.
  intros H1. revert r2. induction H1 as [|g r1 Hg _ IH]; intros r2 H2; [done|].
  destruct H2 as [|d r2 Hd H2]; [done|]. simpl.
  by rewrite sub_u8_wrapped, IH.
Qed.

Lemma sub_u8_array_wrapped (a b : gray_array) :
  byte_array a → byte_array b →
  sub_u8_array a b = zip_with (zip_with wrapped_diff) a b.
Proof.
  unfold byte_array, sub_u8_array. intros Ha. revert b.
  induction Ha as [|r1 a Hr1 _ IH]; intros b Hb; [done|].
  destruct Hb as [|r2 b Hr2 Hb]; [done|]. simpl.
  by rewrite sub_u8_row_wrapped, IH.
Qed.

End NoiseFacts.

(** ** Theorems *)

Section Theorems.
Context `{Vision} `{PyRepr}.
Open Scope Q_scope.

(** C5: the score that [analyze_image] gives with the weights of the
    constructor lies between 0 and 1, whatever the image and whatever the
    measurements come to. *)
Theorem analyze_image_unit_interval (image : Image) :
  0 <= analyze_image ImageAnalyzer_init image <= 1.
Proof. apply analyze_image_range_aux. Qed.

(** C6: an image whose pixel data cannot be loaded scores exactly 0: the
    exception is caught inside [analyze_image] and never reaches the
    caller. *)
Theorem analyze_image_unloadable (self : ImageAnalyzer) (image : Image) e :
  img_data image = Raise e → analyze_image self image = 0.
Proof. apply analyze_image_load_error. Qed.

(** C7: for an image that loads and converts to grayscale, [analyze_image]
    is the weighted sum 0.3, 0.2, 0.3, 0.2 of the clamped sharpness (over
    1000), contrast (over 100), detail (over 50) and of one minus the clamped
    noise (over 30). *)
Theorem analyze_image_weighted_sum (image : Image) a gray :
  to_array image = Ok a → cvtColor_RGB2GRAY a = Ok gray →
  analyze_image ImageAnalyzer_init image
  == 0.3 * clamp01 (var (flatten_float (Laplacian gray))) 1000
   + 0.2 * clamp01 (np_std gray) 100
   + 0.3 * clamp01 (mean (flatten_gray (Canny gray))) 50
   + 0.2 * (1 - clamp01 (mean (flatten_gray
               (np_abs (sub_u8_array gray (fastNlMeansDenoising gray))))) 30).
Proof.
  intros Ea Eg. unfold analyze_image.
  erewrite (analyze_image_try_unfold image a); [| done | | | |].
  2: { unfold calculate_sharpness. by rewrite Eg. }
  2: { unfold calculate_contrast. by rewrite Eg. }
  2: { unfold calculate_detail. by rewrite Eg. }
  2: { unfold calculate_noise. by rewrite Eg. }
  unfold clamp01. simpl. apply weighted_sum_default.
Qed.

(** C8: the noise measurement subtracts unsigned bytes, so that a pixel
    which the denoiser made brighter contributes 256 minus the difference
    instead of the difference. *)
Theorem calculate_noise_wraps_around a gray :
  cvtColor_RGB2GRAY a = Ok gray →
  calculate_noise a
  = Ok (mean (flatten_gray
          (zip_with (zip_with wrapped_diff) gray (fastNlMeansDenoising gray)))).
Proof.
  intros Eg. unfold calculate_noise. rewrite Eg. simpl.
  pose proof (cvtColor_bytes a gray Eg) as Hb.
  rewrite np_abs_bytes by apply sub_u8_array_bytes.
  by rewrite sub_u8_array_wrapped by (try apply denoise_bytes; done).
Qed.

(** C9: on a grid whose pixels load, [split_grid_image] answers exactly four
    cells, of half the width and half the height of the grid, in the order
    top-left, top-right, bottom-left, bottom-right, and each pixel of a cell
    is the pixel of the grid at the cell's offset. *)
Theorem split_grid_image_quadrants (grid_image : Image) px :
  img_data grid_image = Ok px → well_formed grid_image →
  let cw := (img_width grid_image `div` 2)%Z in
  let ch := (img_height grid_image `div` 2)%Z in
  ∃ tl tr bl br,
    split_grid_image grid_image = Ok [tl; tr; bl; br] ∧
    Forall (λ c, img_size c = (cw, ch)) [tl; tr; bl; br] ∧
    ∀ i j, (0 ≤ i < cw)%Z → (0 ≤ j < ch)%Z →
      pixel_at tl i j = Some (px i j) ∧
      pixel_at tr i j = Some (px (i + cw)%Z j) ∧
      pixel_at bl i j = Some (px i (j + ch)%Z) ∧
      pixel_at br i j = Some (px (i + cw)%Z (j + ch)%Z).
Proof.
  intros E Hwf cw ch.
  exists (quadrant grid_image px 0 0), (quadrant grid_image px 1 0),
         (quadrant grid_image px 0 1), (quadrant grid_image px 1 1).
  split; [by apply split_grid_image_loaded|]. split.
  - repeat constructor; apply quadrant_size.
  - intros i j Hi Hj.
    rewrite !quadrant_pixel by (done || lia). fold cw ch.
    by rewrite !Z.mul_0_l, !Z.mul_1_l, !Z.add_0_r.
Qed.

(** C10: a grid whose pixel data cannot be loaded is not split: the
    exception of the first [crop] propagates. *)
Theorem split_grid_image_unloadable (grid_image : Image) e :
  img_data grid_image = Raise e → split_grid_image grid_image = Raise e.
Proof. apply split_grid_image_raise. Qed.

(** C11: on a grid that loads, [analyze_grid_image] answers the position of
    the largest of the four cell scores, and the first such position when
    several cells share that score. *)
Theorem analyze_grid_image_first_maximum (self : ImageAnalyzer) grid_image px :
  img_data grid_image = Ok px →
  first_maximum (grid_scores self grid_image px) (analyze_grid_image self grid_image).
Proof.
  intros E. apply index_of_max_first_maximum.
  by apply analyze_grid_image_loaded.
Qed.

(** C12: on a grid that cannot be loaded, [analyze_grid_image] answers the
    index 0. *)
Theorem analyze_grid_image_unloadable (self : ImageAnalyzer) grid_image e :
  img_data grid_image = Raise e → analyze_grid_image self grid_image = 0%nat.
Proof. apply analyze_grid_image_raise. Qed.

(** C13: the index that [analyze_grid_image] answers is always one of 0, 1,
    2, 3. *)
Theorem analyze_grid_image_in_range (self : ImageAnalyzer) grid_image :
  (analyze_grid_image self grid_image < 4)%nat.
Proof. apply analyze_grid_image_lt_4. Qed.

End Theorems.

Section DownloadTheorems.
Context `{Vision} {R : Type} `{Remote R} `{ImageCodec} `{PyRepr}.
Implicit Types w : World R.

(** C14: [download_image] never raises.  It sends one GET with a timeout
    of 30 seconds and answers the opened image when the status is 200 and
    the body opens, and [None] in every other case: another status, a body
    that is not an image, an exception of the transport. *)
Theorem download_image_never_raises (url : string) w :
  run (download_image url) w
  = Ok (downloaded (serve (download_request url) (remote w)).1) ∧
  trace (exec (download_image url) w) = trace w ++ [EvRequest (download_request url)].
Proof.
  unfold run, exec. rewrite download_image_run. simpl.
  split; [done | apply http_trace].
Qed.

(** C15: [select_best_image] never raises; on an empty list of URLs it
    answers the index 0 with the score 0, and on every other list a position
    of the list. *)
Theorem select_best_image_never_raises (self : ImageAnalyzer) (urls : list string) w :
  is_ok (run (select_best_image self urls) w) = true ∧
  run (select_best_image self []) w = Ok (0%nat, 0%Q) ∧
  ∃ i s, run (select_best_image self urls) w = Ok (i, s) ∧
         (i < 1 `max` length urls)%nat.
Proof.
  split; [by apply try_catch_total|]. split; [done|].
  destruct urls as [|url urls]; [exists 0%nat, 0%Q; split; [done | simpl; lia]|].
  destruct (select_best_image_url_scores self (url :: urls) w)
    as (i & s & Hr & Hfm & _); [done|].
  exists i, s. split; [done|]. apply first_maximum_lt in Hfm.
  rewrite url_scores_length in Hfm. lia.
Qed.

(** C16: on a list of URLs that is not empty, [select_best_image] answers
    the first position of the largest score together with that score, where
    the score of a URL is the score of the image that its download yields,
    and 0 when the download fails: a failed download does not abort the
    selection. *)
Theorem select_best_image_first_maximum (self : ImageAnalyzer) urls w :
  urls ≠ [] →
  let scores := url_scores self urls (remote w) in
  ∃ i s, run (select_best_image self urls) w = Ok (i, s) ∧
         first_maximum scores i ∧ scores !! i = Some s.
Proof. apply select_best_image_url_scores. Qed.

(** C28: whatever the remote answers, [select_best_image] sends at most one
    GET request for each URL, and neither posts, sleeps nor writes. *)
Theorem select_best_image_within_budget (self : ImageAnalyzer) urls w :
  let t := trace (exec (select_best_image self urls) w) in
  (count_requests GET t ≤ count_requests GET (trace w) + length urls)%nat ∧
  (count_requests POST t ≤ count_requests POST (trace w))%nat ∧
  (total_sleep t <= total_sleep (trace w))%Q ∧
  (length (writes_of t) ≤ length (writes_of (trace w)))%nat.
Proof.
  intros t. subst t.
  destruct (spends_counts _ _ w (spends_select_best_image self urls))
    as (Hg & Hp & Hs & Hw). simpl in *.
  rewrite Nat.mul_1_r in Hg. rewrite Nat.mul_0_r, Nat.add_0_r in Hp, Hw.
  rewrite Nat.mul_0_r, Qplus_0_r in Hs. done.
Qed.

End DownloadTheorems.

(** ** The theorems at concrete inputs *)

Lemma analyze_image_unloadable_witness :
  img_data demo_broken_grid = Raise "image file is truncated" ∧
  analyze_image ImageAnalyzer_init demo_broken_grid = 0%Q.
Proof.
  split; [reflexivity|].
  apply (analyze_image_unloadable ImageAnalyzer_init demo_broken_grid
           "image file is truncated"). reflexivity.
Defined.

Lemma analyze_image_weighted_sum_witness :
  to_array demo_cell = Ok demo_cell_array ∧
  cvtColor_RGB2GRAY demo_cell_array = Ok demo_cell_gray ∧
  (analyze_image ImageAnalyzer_init demo_cell
   == 0.3 * clamp01 (var (flatten_float (Laplacian demo_cell_gray))) 1000
    + 0.2 * clamp01 (np_std demo_cell_gray) 100
    + 0.3 * clamp01 (mean (flatten_gray (Canny demo_cell_gray))) 50
    + 0.2 * (1 - clamp01 (mean (flatten_gray
               (np_abs (sub_u8_array demo_cell_gray
                          (fastNlMeansDenoising demo_cell_gray))))) 30))%Q.
Proof.
  split; [reflexivity|]. split; [reflexivity|].
  apply (analyze_image_weighted_sum demo_cell demo_cell_array demo_cell_gray);
    reflexivity.
Defined.

Lemma calculate_noise_wraps_around_witness :
  cvtColor_RGB2GRAY [[[10; 10; 10]]]%Z = Ok [[10]]%Z ∧
  calculate_noise [[[10; 10; 10]]]%Z
  = Ok (mean (flatten_gray
          (zip_with (zip_with wrapped_diff) [[10]]%Z (fastNlMeansDenoising [[10]]%Z)))).
Proof.
  split; [reflexivity|].
  apply (calculate_noise_wraps_around [[[10; 10; 10]]]%Z [[10]]%Z). reflexivity.
Defined.

(** The denoiser of the examples turns the gray value 10 into 12: the
    absolute difference is 2, the measured noise is 254. *)

Example noise_of_a_brightened_pixel :
  calculate_noise [[[10; 10; 10]]]%Z = Ok 254%Q ∧ abs_diff 10 12 = 2%Z.
Proof. split; reflexivity. Qed.

Lemma split_grid_image_quadrants_witness :
  img_data demo_grid_800 = Ok demo_pixels ∧ well_formed demo_grid_800 ∧
  ∃ tl tr bl br,
    split_grid_image demo_grid_800 = Ok [tl; tr; bl; br] ∧
    Forall (λ c, img_size c = (400, 400)%Z) [tl; tr; bl; br] ∧
    ∀ i j, (0 ≤ i < 400)%Z → (0 ≤ j < 400)%Z →
      pixel_at tl i j = Some (demo_pixels i j) ∧
      pixel_at tr i j = Some (demo_pixels (i + 400)%Z j) ∧
      pixel_at bl i j = Some (demo_pixels i (j + 400)%Z) ∧
      pixel_at br i j = Some (demo_pixels (i + 400)%Z (j + 400)%Z).
Proof.
  split; [reflexivity|]. split; [unfold well_formed; simpl; lia|].
  apply (split_grid_image_quadrants demo_grid_800 demo_pixels eq_refl).
  unfold well_formed; simpl; lia.
Defined.

Lemma split_grid_image_unloadable_witness :
  img_data demo_broken_grid = Raise "image file is truncated" ∧
  split_grid_image demo_broken_grid = Raise "image file is truncated".
Proof.
  split; [reflexivity|].
  apply (split_grid_image_unloadable demo_broken_grid). reflexivity.
Defined.

Lemma analyze_grid_image_first_maximum_witness :
  img_data demo_grid = Ok demo_pixels ∧
  first_maximum (grid_scores ImageAnalyzer_init demo_grid demo_pixels)
    (analyze_grid_image ImageAnalyzer_init demo_grid).
Proof.
  split; [reflexivity|].
  apply (analyze_grid_image_first_maximum ImageAnalyzer_init demo_grid demo_pixels).
  reflexivity.
Defined.

(** In the grid of the examples the bottom-right cell has the largest
    score. *)

Example analyze_grid_image_demo : analyze_grid_image ImageAnalyzer_init demo_grid = 3%nat.
Proof. reflexivity. Qed.

Lemma analyze_grid_image_unloadable_witness :
  img_data demo_broken_grid = Raise "image file is truncated" ∧
  analyze_grid_image ImageAnalyzer_init demo_broken_grid = 0%nat.
Proof.
  split; [reflexivity|].
  apply (analyze_grid_image_unloadable ImageAnalyzer_init demo_broken_grid
           "image file is truncated"). reflexivity.
Defined.

Lemma select_best_image_first_maximum_witness :
  demo_urls ≠ [] ∧
  url_scores ImageAnalyzer_init demo_urls (remote demo_world) = demo_scores ∧
  ∃ i s, run (select_best_image ImageAnalyzer_init demo_urls) demo_world = Ok (i, s) ∧
         first_maximum (url_scores ImageAnalyzer_init demo_urls (remote demo_world)) i ∧
         url_scores ImageAnalyzer_init demo_urls (remote demo_world) !! i = Some s.
Proof.
  split; [discriminate|]. split; [reflexivity|].
  apply (select_best_image_first_maximum ImageAnalyzer_init demo_urls demo_world).
  discriminate.
Defined.

(** The tie-break of the selection: of two equal largest scores the first
    wins; and four scores of 0 select the index 0. *)

Example index_of_max_tie : index_of_max [0.5; 0.5; 0.3; 0.1]%Q = Ok 0%nat.
Proof. reflexivity. Qed.

Example index_of_max_all_zero : index_of_max [0; 0; 0; 0]%Q = Ok 0%nat.
Proof. reflexivity. Qed.
