(* ===== verification/Service.v ===== *)
(** * The generator object and the remote task service

    [src/src/content_generation/ai_content_generator.py], the parts that the
    methods of [AIContentGenerator] share: the object as a record, the
    headers and payloads it sends, the URLs of the task service, the bounds
    of the polling loops, and the chained [.get] that reads a JSON reply.
    Both polling loops of [generate_image] repeat one status request with a
    sleep in between: [after_polls] is the world after such polls, and
    [wait_loop_skip] lets a loop skip the polls whose replies make it wait. *)

From stdpp Require Import base option list strings pretty gmap.
From Stdlib Require Import QArith Qminmax Qround Lqa.
From S2P Require Import Prelude Python World Image Doubles ImageAnalyzer.

Open Scope string_scope.
Open Scope list_scope.

(** ** The object *)

Record AIContentGenerator : Type := {
  openai_api_key : option string;
  midjourney_api_key : option string;
  midjourney_api_url : string;
  openai_available : bool;
  midjourney_available : bool;
  static_dir : string;
  generated_images_dir : string;
  fallback_images_dir : string;
  image_analyzer : ImageAnalyzer
}.

Definition set_openai_available (b : bool) (self : AIContentGenerator) :=
  {| openai_api_key := openai_api_key self;
     midjourney_api_key := midjourney_api_key self;
     midjourney_api_url := midjourney_api_url self;
     openai_available := b;
     midjourney_available := midjourney_available self;
     static_dir := static_dir self;
     generated_images_dir := generated_images_dir self;
     fallback_images_dir := fallback_images_dir self;
     image_analyzer := image_analyzer self |}.

Definition set_midjourney_available (b : bool) (self : AIContentGenerator) :=
  {| openai_api_key := openai_api_key self;
     midjourney_api_key := midjourney_api_key self;
     midjourney_api_url := midjourney_api_url self;
     openai_available := openai_available self;
     midjourney_available := b;
     static_dir := static_dir self;
     generated_images_dir := generated_images_dir self;
     fallback_images_dir := fallback_images_dir self;
     image_analyzer := image_analyzer self |}.

(** ** Values built by the methods *)

(** An optional string as a Python value, and its truthiness. *)

Definition py_of_key (key : option string) : pyval :=
  match key with Some k => PyStr k | None => PyNone end.

Definition key_present (key : option string) : bool := truthy (py_of_key key).

(** [v.get(k1, {}).get(k2, {}) ... .get(last, default)]. *)

Definition get_in (v : pyval) (path : list string) (last : string) (dflt : pyval)
  : outcome pyval :=
  d ← foldl (λ acc k, a ← acc; py_get a k (PyDict [])) (Ok v) path;
  py_get d last dflt.

Definition midjourney_headers (self : AIContentGenerator) : pyval :=
  PyDict [("Content-Type", PyStr "application/json");
          ("x-api-key", py_of_key (midjourney_api_key self))].

Definition imagine_payload (prompt : string) (skip_prompt_check : bool) : pyval :=
  PyDict [("model", PyStr "midjourney");
          ("task_type", PyStr "imagine");
          ("input", PyDict [("prompt", PyStr prompt);
                            ("aspect_ratio", PyStr "1:1");
                            ("process_mode", PyStr "fast");
                            ("skip_prompt_check", PyBool skip_prompt_check)])].

Definition task_url (self : AIContentGenerator) : string :=
  midjourney_api_url self +:+ "/api/v1/task".

Definition task_status_url `{PyRepr} (self : AIContentGenerator) (task_id : pyval)
  : string :=
  midjourney_api_url self +:+ "/api/v1/task/" +:+ py_str task_id.

Definition max_polls : nat := 30.
Definition poll_interval : Q := 10.

(** ** The requests that both loops send *)

Definition status_request `{PyRepr} (self : AIContentGenerator) (task_id : pyval)
  : Request :=
  {| req_method := GET; req_url := PyStr (task_status_url self task_id);
     req_headers := midjourney_headers self;
     req_json := PyNone; req_timeout := 15 |}.

Definition fetch_request (url : pyval) : Request :=
  {| req_method := GET; req_url := url; req_headers := PyNone;
     req_json := PyNone; req_timeout := 30 |}.

(** The status of a task in a reply: [.get("data", {}).get("status", "").lower()]. *)

Definition status_of (status_result : pyval) : outcome string :=
  status_raw ← get_in status_result ["data"] "status" (PyStr EmptyString);
  py_lower status_raw.

(** ** Polls that wait *)

Section Runs.
Context {R : Type} `{Remote R}.

(** The next [n] replies to [req] all satisfy [again]. *)

Fixpoint waits (again : Reply → bool) (n : nat) (req : Request) (r : R) : bool :=
  match n with
  | O => true
  | S k => let '(reply, r') := serve req r in
           again reply && waits again k req r'
  end.

(** The world after [n] polls that were each followed by the sleep. *)

Fixpoint after_polls (n : nat) (req : Request) (w : World R) : World R :=
  match n with
  | O => w
  | S k => let '(reply, r') := serve req (remote w) in
           after_polls k req (after_sleep poll_interval (after_request req reply r' w))
  end.

(** The state of the remote after it served [req] [n] times. *)

Fixpoint served (n : nat) (req : Request) (r : R) : R :=
  match n with
  | O => r
  | S k => served k req (serve req r).2
  end.

(** The events of [n] such polls. *)

Definition polling_events (n : nat) (req : Request) : list Event :=
  concat (replicate n [EvRequest req; EvSleep poll_interval]).

End Runs.

(** ** Concrete inputs for the examples: a generator with both keys *)

Definition demo_generator : AIContentGenerator :=
  {| openai_api_key := Some "sk-demo";
     midjourney_api_key := Some "mj-demo";
     midjourney_api_url := "https://api.goapi.ai";
     openai_available := true;
     midjourney_available := true;
     static_dir := "/app/src/web_interface/static";
     generated_images_dir := "/app/src/web_interface/static/generated_images";
     fallback_images_dir := "/app/src/web_interface/static/fallback_images";
     image_analyzer := ImageAnalyzer_init |}.

Definition demo_task : pyval := PyStr "task-1".

(** ** Lemmas: reading JSON *)

Section JsonFacts.

Lemma get_in_nil v last dflt : get_in v [] last dflt = py_get v last dflt.
Proof. done. Qed.

Lemma get_in_data d last dflt :
  get_in (PyDict d) ["data"] last dflt
  = py_get (from_option id (PyDict []) (dict_lookup d "data")) last dflt.
Proof. done. Qed.

Lemma get_in_not_dict v path last dflt :
  (∀ d, v ≠ PyDict d) → path ≠ [] →
  get_in v path last dflt = Raise (attribute_error v "get").
Proof.
  intros Hv Hp. destruct path as [|k path]; [done|].
  unfold get_in. simpl. rewrite (py_get_not_dict v k _ Hv).
  clear. induction path as [|k' path IH]; [done|]. simpl. apply IH.
Qed.

End JsonFacts.

(** ** Lemmas: polls that wait *)

Section LoopFacts.
Context {R : Type} `{Remote R}.
Implicit Types w : World R.

Lemma polling_events_S n req :
  polling_events (S n) req
  = [EvRequest req; EvSleep poll_interval] ++ polling_events n req.
Proof. done. Qed.

Lemma after_polls_S n req w reply r' :
  serve req (remote w) = (reply, r') →
  after_polls (S n) req w
  = after_polls n req (after_sleep poll_interval (after_request req reply r' w)).
Proof. intros E. simpl. by rewrite E. Qed.

Lemma after_polls_trace n req w :
  trace (after_polls n req w) = trace w ++ polling_events n req.
Proof.
  revert w. induction n as [|n IH]; intros w; simpl.
  - by rewrite app_nil_r.
  - destruct (serve req (remote w)) as [reply r']. rewrite IH. simpl.
    by rewrite <- !app_assoc.
Qed.

Lemma after_polls_files n req w : files (after_polls n req w) = files w.
Proof.
  revert w. induction n as [|n IH]; intros w; simpl; [done|].
  destruct (serve req (remote w)) as [reply r']. by rewrite IH.
Qed.

Lemma after_polls_clock n req w :
  (clock w + inject_Z (Z.of_nat n) * poll_interval <= clock (after_polls n req w))%Q.
Proof.
  revert w. induction n as [|n IH]; intros w.
  - unfold poll_interval. change (inject_Z (Z.of_nat 0)) with 0%Q. simpl. lra.
  - simpl after_polls. destruct (serve req (remote w)) as [reply r'].
    eapply Qle_trans; [|apply IH]. simpl clock.
    pose proof (Q.le_max_l 0 (reply_elapsed reply)).
    rewrite Nat2Z.inj_succ. unfold Z.succ. rewrite inject_Z_plus.
    unfold poll_interval. change (inject_Z 1) with 1%Q. lra.
Qed.

Lemma polling_events_requests n req :
  req_method req = GET →
  count_requests GET (polling_events n req) = n ∧
  count_requests POST (polling_events n req) = 0%nat.
Proof.
  intros Hm. induction n as [|n [IH1 IH2]]; [done|].
  rewrite polling_events_S. simpl app.
  rewrite !count_requests_cons, IH1, IH2. simpl. by rewrite Hm.
Qed.

Lemma polling_events_sleep n req :
  (total_sleep (polling_events n req) == inject_Z (Z.of_nat n) * poll_interval)%Q.
Proof.
  induction n as [|n IH]; [done|].
  rewrite polling_events_S, total_sleep_app, IH. simpl total_sleep.
  rewrite Nat2Z.inj_succ. unfold Z.succ. rewrite inject_Z_plus.
  unfold poll_interval. change (inject_Z 1) with 1%Q. ring.
Qed.

Lemma polling_events_writes n req : writes_of (polling_events n req) = [].
Proof.
  induction n as [|n IH]; [done|].
  by rewrite polling_events_S, writes_of_app, IH.
Qed.

Lemma after_polls_remote n req w :
  remote (after_polls n req w) = served n req (remote w).
Proof.
  revert w. induction n as [|n IH]; intros w; simpl; [done|].
  destruct (serve req (remote w)) as [reply r']. by rewrite IH.
Qed.

(** While the replies make the body of a polling loop wait, the loop goes
    on: this holds of both polling loops of [generate_image]. *)

Lemma wait_loop_skip {A} (body : M (World R) (option A)) again req k m i w :
  (∀ w reply r', serve req (remote w) = (reply, r') → again reply = true →
     body w = (Ok None, after_sleep poll_interval (after_request req reply r' w))) →
  waits again k req (remote w) = true →
  for_range_from i (k + m) (λ _, body) w
  = for_range_from (i + k) m (λ _, body) (after_polls k req w).
Proof.
  intros Hbody. revert i w. induction k as [|k IH]; intros i w Hr.
  - by rewrite Nat.add_0_r.
  - simpl in Hr. simpl after_polls.
    destruct (serve req (remote w)) as [reply r'] eqn:E.
    apply andb_prop in Hr as [Ha Hr].
    replace (S k + m)%nat with (S (k + m)) by lia.
    rewrite (for_range_from_continue _ _ _ _ _ (Hbody _ _ _ E Ha)).
    rewrite IH by done. f_equal. lia.
Qed.

Lemma wait_loop_all {A} (body : M (World R) (option A)) again req n i w :
  (∀ w reply r', serve req (remote w) = (reply, r') → again reply = true →
     body w = (Ok None, after_sleep poll_interval (after_request req reply r' w))) →
  waits again n req (remote w) = true →
  for_range_from i n (λ _, body) w = (Ok None, after_polls n req w).
Proof.
  intros Hbody Hr. rewrite <- (Nat.add_0_r n) at 1.
  by rewrite (wait_loop_skip _ _ _ _ _ _ _ Hbody Hr).
Qed.

(** Counting along a run. *)

Lemma after_polls_counts n (req : Request) w :
  req_method req = GET →
  count_requests GET (trace (after_polls n req w))
    = (count_requests GET (trace w) + n)%nat ∧
  count_requests POST (trace (after_polls n req w)) = count_requests POST (trace w) ∧
  (total_sleep (trace (after_polls n req w))
   == total_sleep (trace w) + inject_Z (Z.of_nat n) * 10)%Q ∧
  writes_of (trace (after_polls n req w)) = writes_of (trace w).
Proof.
  intros Hm. rewrite after_polls_trace.
  destruct (polling_events_requests n req Hm) as [Hg Hp].
  rewrite !count_requests_app, Hg, Hp, total_sleep_app, writes_of_app.
  rewrite polling_events_sleep, polling_events_writes, app_nil_r.
  repeat split; try done; lia.
Qed.

Lemma after_request_counts (req : Request) reply r' w :
  count_requests GET (trace (after_request req reply r' w))
    = (count_requests GET (trace w) + if is_request GET (EvRequest req) then 1 else 0)%nat ∧
  count_requests POST (trace (after_request req reply r' w))
    = (count_requests POST (trace w) + if is_request POST (EvRequest req) then 1 else 0)%nat ∧
  (total_sleep (trace (after_request req reply r' w)) == total_sleep (trace w))%Q ∧
  writes_of (trace (after_request req reply r' w)) = writes_of (trace w).
Proof.
  rewrite after_request_trace, !count_requests_snoc, total_sleep_snoc, writes_of_app.
  simpl. rewrite app_nil_r. repeat split; try done. lra.
Qed.

Lemma polling_events_requests_of n req :
  requests_of (polling_events n req) = replicate n req.
Proof.
  induction n as [|n IH]; [done|].
  by rewrite polling_events_S, requests_of_app, IH.
Qed.

End LoopFacts.

#[export] Hint Rewrite @after_polls_trace @after_polls_files @after_polls_remote
  : world_rw.
