(* ===== verification/Upscale.v ===== *)
(** * The grid branch of [generate_image]

    [src/src/content_generation/ai_content_generator.py], the block of
    [generate_image] under [if "upscale1" in actions]: the image of the
    completed task is a grid of four candidates.  [upscale_best] downloads
    and stores the grid, lets the analyzer choose a cell ([request_upscale])
    and polls for the upscaled image ([upscale_poll_once] is one iteration
    of that loop).  The file reads the replies of the remote along the
    branch ([upscale_submitted], [upscale_decide]) and proves what the
    branch answers: the upscaled URL when the upscale completes, the URL of
    the grid when the upscale falls through, an exception where the code has
    no handler, and the index that the upscale request carries. *)

From stdpp Require Import base option list strings pretty gmap.
From Stdlib Require Import QArith Qminmax Qround Lqa.
From S2P Require Import Prelude Python World Image Doubles ImageAnalyzer Service.

Open Scope string_scope.
Open Scope list_scope.

(** ** The upscale request *)

Definition upscale_payload (task_id : pyval) (best_index : nat) : pyval :=
  PyDict [("model", PyStr "midjourney");
          ("task_type", PyStr "upscale");
          ("input", PyDict [("origin_task_id", task_id);
                            ("index", PyStr (pretty (Z.of_nat best_index + 1)%Z))])].

Definition upscale_request (self : AIContentGenerator) (task_id : pyval)
    (best_index : nat) : Request :=
  {| req_method := POST; req_url := PyStr (task_url self);
     req_headers := midjourney_headers self;
     req_json := upscale_payload task_id best_index; req_timeout := 15 |}.

Section Branch.
Context {R : Type} `{Remote R} `{Vision} `{ImageCodec} `{PyRepr}.

(** ** [generate_image]: one iteration of the upscale polling loop

    [Some (Some url)] leaves the loop with [image_url = url], [Some None]
    leaves it with [image_url] unchanged, [None] goes on after the sleep. *)

Definition upscale_poll_once (self : AIContentGenerator) (upscale_task_id : pyval)
  : M (World R) (option (option pyval)) :=
  upscale_status_response ←
    requests_get (PyStr (task_status_url self upscale_task_id))
      (midjourney_headers self) 15;
  leave ←
    (if (status_code upscale_status_response =? 200)%Z then
       upscale_status ← lift_outcome (resp_json upscale_status_response);
       status_raw ← lift_outcome (get_in upscale_status ["data"] "status" (PyStr EmptyString));
       upscale_status_str ← lift_outcome (py_lower status_raw);
       if String.eqb upscale_status_str "completed" then
         upscale_url ← lift_outcome
           (get_in upscale_status ["data"; "output"] "image_url" PyNone);
         if truthy upscale_url then mret (Some (Some upscale_url)) else mret None
       else if String.eqb upscale_status_str "failed" then mret (Some None)
       else mret None
     else mret None);
  match leave with
  | Some r => mret (Some r)
  | None => time_sleep poll_interval;; mret None
  end.

(** ** [generate_image]: the upscale request and its polling loop

    Answers the URL to download in the end: the upscaled image, or the grid
    itself when a step of the upscale falls through. *)

Definition request_upscale (self : AIContentGenerator) (task_id image_url : pyval)
    (best_index : nat) : M (World R) pyval :=
  upscale_response ← requests_post (PyStr (task_url self)) (midjourney_headers self)
                         (upscale_payload task_id best_index) 15;
  if negb (status_code upscale_response =? 200)%Z then mret image_url
  else
    upscale_data ← lift_outcome (resp_json upscale_response);
    upscale_task_id ← lift_outcome (get_in upscale_data ["data"] "task_id" PyNone);
    if negb (truthy upscale_task_id) then mret image_url
    else
      r ← for_range max_polls (λ j, upscale_poll_once self upscale_task_id);
      match r with
      | Some (Some upscale_url) => mret upscale_url
      | _ => mret image_url
      end.

(** ** [generate_image]: the grid branch

    The grid is downloaded and stored, opened from the file, and its best
    cell is requested for upscale; a grid that cannot be downloaded is used
    as it is. *)

Definition upscale_best (self : AIContentGenerator) (task_id image_url : pyval)
  : M (World R) pyval :=
  now ← int_time;
  let grid_filename := "midjourney_grid_" +:+ pretty now +:+ ".jpg" in
  let grid_path := path_join (generated_images_dir self) grid_filename in
  grid_response ← requests_get image_url PyNone 30;
  if (status_code grid_response =? 200)%Z then
    write_file grid_path (content grid_response);;
    grid_data ← read_file grid_path;
    grid_image ← lift_outcome (image_open grid_data);
    let best_index := analyze_grid_image (image_analyzer self) grid_image in
    request_upscale self task_id image_url best_index
  else mret image_url.

End Branch.

(** ** What the branch decides on a reply *)

(** The reply to the upscale request: the task to poll, or [None] when the
    request was refused and the grid is used. *)

Definition upscale_submitted (reply : Reply) : outcome (option pyval) :=
  upscale_response ← reply_result reply;
  if negb (status_code upscale_response =? 200)%Z then Ok None
  else
    upscale_data ← resp_json upscale_response;
    upscale_task_id ← get_in upscale_data ["data"] "task_id" PyNone;
    if negb (truthy upscale_task_id) then Ok None else Ok (Some upscale_task_id).

(** One poll of the upscale task: poll again after the sleep, leave the loop
    (with the upscaled URL, or without one when the task failed), or raise. *)

Inductive upscale_decision : Type :=
| Again
| Leave (upscale_url : option pyval)
| Broken (e : string).

Definition decide_upscaled (upscale_status : pyval) : upscale_decision :=
  match get_in upscale_status ["data"; "output"] "image_url" PyNone with
  | Ok upscale_url => if truthy upscale_url then Leave (Some upscale_url) else Again
  | Raise e => Broken e
  end.

Definition upscale_decide (reply : Reply) : upscale_decision :=
  match reply_result reply with
  | Raise e => Broken e
  | Ok response =>
      if (status_code response =? 200)%Z then
        match resp_json response with
        | Raise e => Broken e
        | Ok upscale_status =>
            match status_of upscale_status with
            | Raise e => Broken e
            | Ok upscale_status_str =>
                if String.eqb upscale_status_str "completed"
                then decide_upscaled upscale_status
                else if String.eqb upscale_status_str "failed" then Leave None
                else Again
            end
        end
      else Again
  end.

Definition is_again (d : upscale_decision) : bool :=
  match d with Again => true | _ => false end.

(** The URL that the branch answers when the loop ends with [r]. *)

Definition chosen_url (image_url : pyval) (r : option (option pyval)) : pyval :=
  match r with
  | Some (Some upscale_url) => upscale_url
  | _ => image_url
  end.

Section Runs.
Context {R : Type} `{Remote R} `{Vision} `{ImageCodec} `{PyRepr}.

(** The next [n] replies to [req] all make the upscale loop poll again. *)

Definition upscale_waits (n : nat) (req : Request) (r : R) : bool :=
  waits (λ reply, is_again (upscale_decide reply)) n req r.

(** The file of the grid, and the world once the grid is stored. *)

Definition grid_filename (now : Z) : string := "midjourney_grid_" +:+ pretty now +:+ ".jpg".

Definition grid_path (self : AIContentGenerator) (now : Z) : string :=
  path_join (generated_images_dir self) (grid_filename now).

Definition after_grid (self : AIContentGenerator) (url : pyval) (reply : Reply)
    (response : Response) (r' : R) (w : World R) : World R :=
  after_write (grid_path self (py_int (clock w))) (content response)
    (after_request (fetch_request url) reply r' w).

End Runs.

(** ** Concrete inputs for the examples

    A grid of 4×4 pixels in the toy format whose top-right cell scores
    best, the reply of a task that completed with a grid, and the replies
    that the branch receives from the download of the grid on. *)

Definition demo_grid_file : string := toy_file 4 4 "aa0zaaz0abAzbazA".

Definition grid_reply : Reply :=
  completed_reply "https://cdn/grid.jpg" [PyStr "upscale1"; PyStr "upscale2"].

Definition demo_upscale_task : pyval := PyStr "task-2".

(** The same from the download of the grid on: the replies that the branch
    itself receives. *)

Definition demo_grid_url : pyval := PyStr "https://cdn/grid.jpg".

Definition demo_grid_response : Response :=
  {| status_code := 200; text := demo_grid_file; content := demo_grid_file;
     resp_json := Raise "Expecting value: line 1 column 1 (char 0)" |}.

Definition demo_grid_image : Image :=
  match toy_open demo_grid_file with
  | Ok image => image
  | Raise _ => broken_image 0 0
  end.

Definition demo_upscale_request : Request :=
  upscale_request demo_generator demo_task
    (analyze_grid_image (image_analyzer demo_generator) demo_grid_image).

Definition demo_upscaled_url : pyval := PyStr "https://cdn/upscaled.jpg".

Definition branch_upscaled : list Reply :=
  [body_reply 200 demo_grid_file; accepted_reply "task-2";
   processing_reply; processing_reply; completed_reply "https://cdn/upscaled.jpg" []].

Definition branch_refused : list Reply :=
  [body_reply 200 demo_grid_file; body_reply 500 "busy"].

Definition branch_failed : list Reply :=
  [body_reply 200 demo_grid_file; accepted_reply "task-2";
   processing_reply; failed_reply "no capacity"].

Definition branch_stuck : list Reply :=
  body_reply 200 demo_grid_file :: accepted_reply "task-2"
  :: replicate 30 processing_reply.

Definition branch_unavailable : list Reply := [body_reply 404 "not found"].

Definition branch_undecodable : list Reply := [body_reply 200 "x"].

Definition branch_dropped : list Reply :=
  [body_reply 200 demo_grid_file; connection_error].

(** ** Lemmas: the blocks of the branch, by the reply of the remote *)

Section BlockFacts.
Context {R : Type} `{Remote R} `{Vision} `{ImageCodec} `{PyRepr}.
Implicit Types w : World R.

Lemma upscale_poll_once_run self upscale_task_id w reply r' :
  serve (status_request self upscale_task_id) (remote w) = (reply, r') →
  upscale_poll_once self upscale_task_id w
  = let w1 := after_request (status_request self upscale_task_id) reply r' w in
    match upscale_decide reply with
    | Again => (Ok None, after_sleep poll_interval w1)
    | Leave r => (Ok (Some r), w1)
    | Broken e => (Raise e, w1)
    end.
Proof.
  intros E. unfold upscale_poll_once, upscale_decide, status_of. munfold.
  rewrite (requests_get_serve _ _ _ _ _ _ E).
  fold (status_request self upscale_task_id).
  destruct (reply_result reply) as [resp|e]; [simpl|done].
  destruct (status_code resp =? 200)%Z; [simpl|done].
  destruct (resp_json resp) as [j|e]; [simpl|done].
  destruct (get_in j ["data"] "status" _) as [raw|e]; [simpl|done].
  destruct (py_lower raw) as [status|e]; [simpl|done].
  destruct (String.eqb status "completed").
  { unfold decide_upscaled.
    destruct (get_in j ["data"; "output"] "image_url" PyNone) as [url|e];
      [simpl|done].
    by destruct (truthy url). }
  by destruct (String.eqb status "failed").
Qed.

Lemma upscale_poll_once_again self upscale_task_id w reply r' :
  serve (status_request self upscale_task_id) (remote w) = (reply, r') →
  is_again (upscale_decide reply) = true →
  upscale_poll_once self upscale_task_id w
  = (Ok None, after_sleep poll_interval
                (after_request (status_request self upscale_task_id) reply r' w)).
Proof.
  intros E D. rewrite (upscale_poll_once_run _ _ _ _ _ E). simpl.
  by destruct (upscale_decide reply).
Qed.

(** The upscale loop: [k] polls that wait, then the poll that decides. *)

Lemma upscale_loop_decided self upscale_task_id k w reply r' :
  (k < max_polls)%nat →
  upscale_waits k (status_request self upscale_task_id) (remote w) = true →
  serve (status_request self upscale_task_id)
    (served k (status_request self upscale_task_id) (remote w)) = (reply, r') →
  is_again (upscale_decide reply) = false →
  for_range max_polls (λ _, upscale_poll_once self upscale_task_id) w
  = let w1 := after_request (status_request self upscale_task_id) reply r'
                (after_polls k (status_request self upscale_task_id) w) in
    match upscale_decide reply with
    | Leave r => (Ok (Some r), w1)
    | Broken e => (Raise e, w1)
    | Again => (Ok None, w1)
    end.
Proof.
  intros Hk Hw E D. unfold for_range.
  replace max_polls with (k + S (max_polls - S k))%nat by lia.
  rewrite (wait_loop_skip _ _ _ _ _ _ _
             (upscale_poll_once_again self upscale_task_id) Hw).
  rewrite <- after_polls_remote in E.
  rewrite for_range_from_S. unfold bind.
  rewrite (upscale_poll_once_run _ _ _ _ _ E). simpl.
  by destruct (upscale_decide reply).
Qed.

Lemma upscale_loop_exhausted self upscale_task_id w :
  upscale_waits max_polls (status_request self upscale_task_id) (remote w) = true →
  for_range max_polls (λ _, upscale_poll_once self upscale_task_id) w
  = (Ok None, after_polls max_polls (status_request self upscale_task_id) w).
Proof.
  apply wait_loop_all, upscale_poll_once_again.
Qed.

Lemma request_upscale_run self task_id url best w reply r' :
  serve (upscale_request self task_id best) (remote w) = (reply, r') →
  request_upscale self task_id url best w
  = let w1 := after_request (upscale_request self task_id best) reply r' w in
    match upscale_submitted reply with
    | Raise e => (Raise e, w1)
    | Ok None => (Ok url, w1)
    | Ok (Some upscale_task_id) =>
        bind (for_range max_polls (λ _, upscale_poll_once self upscale_task_id))
          (λ r, ret (chosen_url url r)) w1
    end.
Proof.
  intros E. unfold request_upscale, upscale_submitted. munfold.
  rewrite (requests_post_serve _ _ _ _ _ _ _ E).
  fold (upscale_request self task_id best).
  destruct (reply_result reply) as [resp|e]; [simpl|done].
  destruct (status_code resp =? 200)%Z; [simpl|done].
  destruct (resp_json resp) as [j|e]; [simpl|done].
  destruct (get_in j ["data"] "task_id" PyNone) as [t|e]; [simpl|done].
  destruct (truthy t); [simpl|done].
  by destruct (for_range _ _ _) as [[[[u|]|]|e] w'].
Qed.

Lemma upscale_best_run self task_id url w reply r' :
  serve (fetch_request url) (remote w) = (reply, r') →
  upscale_best self task_id url w
  = let w1 := after_request (fetch_request url) reply r' w in
    match reply_result reply with
    | Raise e => (Raise e, w1)
    | Ok response =>
        if (status_code response =? 200)%Z then
          match image_open (content response) with
          | Raise e => (Raise e, after_grid self url reply response r' w)
          | Ok grid_image =>
              request_upscale self task_id url
                (analyze_grid_image (image_analyzer self) grid_image)
                (after_grid self url reply response r' w)
          end
        else (Ok url, w1)
    end.
Proof.
  intros E. unfold upscale_best, after_grid, grid_path, grid_filename, int_time.
  munfold. rewrite (requests_get_serve _ _ _ _ _ _ E). fold (fetch_request url).
  destruct (reply_result reply) as [resp|e]; [simpl|done].
  destruct (status_code resp =? 200)%Z; [simpl|done].
  unfold read_file. simpl. rewrite lookup_insert_eq.
  by destruct (image_open (content resp)).
Qed.

End BlockFacts.

(** ** Lemmas: the branch, phase by phase *)

Section BranchFacts.
Context {R : Type} `{Remote R} `{Vision} `{ImageCodec} `{PyRepr}.
Implicit Types w : World R.

(** Once the grid is stored and opens, the branch is the upscale request. *)

Lemma upscale_best_stored self task_id url w reply r1 response grid_image :
  serve (fetch_request url) (remote w) = (reply, r1) →
  reply_result reply = Ok response → status_code response = 200%Z →
  image_open (content response) = Ok grid_image →
  upscale_best self task_id url w
  = request_upscale self task_id url
      (analyze_grid_image (image_analyzer self) grid_image)
      (after_grid self url reply response r1 w).
Proof.
  intros E Hres Hcode Hopen. rewrite (upscale_best_run _ _ _ _ _ _ E).
  simpl. by rewrite Hres, Hcode, Hopen.
Qed.

(** Once the upscale task is accepted, the branch is the upscale loop. *)

Lemma upscale_best_accepted self task_id url w reply r1 response grid_image
    reply_u r2 upscale_task_id :
  serve (fetch_request url) (remote w) = (reply, r1) →
  reply_result reply = Ok response → status_code response = 200%Z →
  image_open (content response) = Ok grid_image →
  serve (upscale_request self task_id
           (analyze_grid_image (image_analyzer self) grid_image)) r1
  = (reply_u, r2) →
  upscale_submitted reply_u = Ok (Some upscale_task_id) →
  upscale_best self task_id url w
  = bind (for_range max_polls (λ _, upscale_poll_once self upscale_task_id))
      (λ r, ret (chosen_url url r))
      (after_request (upscale_request self task_id
                        (analyze_grid_image (image_analyzer self) grid_image))
         reply_u r2 (after_grid self url reply response r1 w)).
Proof.
  intros E Hres Hcode Hopen Eu Hsub.
  rewrite (upscale_best_stored _ _ _ _ _ _ _ _ E Hres Hcode Hopen).
  erewrite request_upscale_run; [|done]. simpl. by rewrite Hsub.
Qed.

(** An upscale that is still in progress after all of its polls: the
    branch answers the URL of the grid. *)

Lemma upscale_best_exhausted self task_id url w reply r1 response grid_image
    reply_u r2 upscale_task_id :
  serve (fetch_request url) (remote w) = (reply, r1) →
  reply_result reply = Ok response → status_code response = 200%Z →
  image_open (content response) = Ok grid_image →
  serve (upscale_request self task_id
           (analyze_grid_image (image_analyzer self) grid_image)) r1
  = (reply_u, r2) →
  upscale_submitted reply_u = Ok (Some upscale_task_id) →
  upscale_waits max_polls (status_request self upscale_task_id) r2 = true →
  upscale_best self task_id url w
  = (Ok url,
     after_polls max_polls (status_request self upscale_task_id)
       (after_request (upscale_request self task_id
                         (analyze_grid_image (image_analyzer self) grid_image))
          reply_u r2 (after_grid self url reply response r1 w))).
Proof.
  intros E Hres Hcode Hopen Eu Hsub Hw.
  rewrite (upscale_best_accepted _ _ _ _ _ _ _ _ _ _ _ E Hres Hcode Hopen Eu Hsub).
  unfold bind. by erewrite upscale_loop_exhausted.
Qed.

End BranchFacts.

(** ** Theorems: what the grid branch answers *)

Section BranchTheorems.
Context {R : Type} `{Remote R} `{Vision} `{ImageCodec} `{PyRepr}.
Implicit Types w : World R.

(** C17: the upscale request names the cell that the analyzer chose, as the
    string of its 1-based position (the analyzer counts from 0, the wire
    protocol from 1), one of "1", "2", "3", "4", and refers to the task that
    produced the grid. *)
Theorem upscale_request_index_one_based self (task_id : pyval) (grid_image : Image) :
  let best := analyze_grid_image (image_analyzer self) grid_image in
  let payload := req_json (upscale_request self task_id best) in
  get_in payload ["input"] "index" PyNone = Ok (PyStr (pretty (Z.of_nat best + 1)%Z)) ∧
  get_in payload ["input"] "origin_task_id" PyNone = Ok task_id ∧
  pretty (Z.of_nat best + 1)%Z ∈ ["1"; "2"; "3"; "4"].
Proof.
  intros best payload. split; [done|]. split; [done|].
  pose proof (analyze_grid_image_lt_4 (image_analyzer self) grid_image) as Hlt.
  fold best in Hlt. destruct best as [|[|[|[|n]]]]; [| | | |lia];
    vm_compute; set_solver.
Qed.

(** C18: when the grid is downloaded and opens, the upscale request is
    accepted and, after [k] polls (fewer than thirty) that wait, the upscale
    task is reported completed with an image URL, the branch answers that
    URL, not the URL of the grid; along the way it stored the grid and sent
    the download, the upscale request for the chosen cell and [k + 1] status
    requests. *)
Theorem upscale_best_upscaled self task_id url w reply r1 response grid_image
    reply_u r2 upscale_task_id k reply_s r3 upscale_url :
  serve (fetch_request url) (remote w) = (reply, r1) →
  reply_result reply = Ok response → status_code response = 200%Z →
  image_open (content response) = Ok grid_image →
  serve (upscale_request self task_id
           (analyze_grid_image (image_analyzer self) grid_image)) r1
  = (reply_u, r2) →
  upscale_submitted reply_u = Ok (Some upscale_task_id) →
  (k < max_polls)%nat →
  upscale_waits k (status_request self upscale_task_id) r2 = true →
  serve (status_request self upscale_task_id)
    (served k (status_request self upscale_task_id) r2) = (reply_s, r3) →
  upscale_decide reply_s = Leave (Some upscale_url) →
  let w' := exec (upscale_best self task_id url) w in
  run (upscale_best self task_id url) w = Ok upscale_url ∧
  trace w'
  = trace w
    ++ [EvRequest (fetch_request url); EvWrite (grid_path self (py_int (clock w)));
        EvRequest (upscale_request self task_id
                     (analyze_grid_image (image_analyzer self) grid_image))]
    ++ polling_events k (status_request self upscale_task_id)
    ++ [EvRequest (status_request self upscale_task_id)] ∧
  files w' = <[grid_path self (py_int (clock w)) := content response]> (files w).
Proof.
  intros E Hres Hcode Hopen Eu Hsub Hk Hw Es D w'. subst w'. unfold run, exec.
  rewrite (upscale_best_accepted _ _ _ _ _ _ _ _ _ _ _ E Hres Hcode Hopen Eu Hsub).
  unfold bind.
  erewrite upscale_loop_decided; [| exact Hk | exact Hw | exact Es | by rewrite D].
  simpl. rewrite D. unfold after_grid. by world_simpl.
Qed.

(** C19: when the upscale request is refused (a status other than 200, or a
    response without task identifier), the branch answers the URL of the
    grid without raising, and does not poll. *)
Theorem upscale_best_refused self task_id url w reply r1 response grid_image
    reply_u r2 :
  serve (fetch_request url) (remote w) = (reply, r1) →
  reply_result reply = Ok response → status_code response = 200%Z →
  image_open (content response) = Ok grid_image →
  serve (upscale_request self task_id
           (analyze_grid_image (image_analyzer self) grid_image)) r1
  = (reply_u, r2) →
  upscale_submitted reply_u = Ok None →
  run (upscale_best self task_id url) w = Ok url ∧
  trace (exec (upscale_best self task_id url) w)
  = trace w
    ++ [EvRequest (fetch_request url); EvWrite (grid_path self (py_int (clock w)));
        EvRequest (upscale_request self task_id
                     (analyze_grid_image (image_analyzer self) grid_image))].
Proof.
  intros E Hres Hcode Hopen Eu Hsub. unfold run, exec.
  rewrite (upscale_best_stored _ _ _ _ _ _ _ _ E Hres Hcode Hopen).
  erewrite request_upscale_run; [|exact Eu]. simpl. rewrite Hsub.
  unfold after_grid. by world_simpl.
Qed.

(** C20: when the upscale task is reported failed after [k] polls that wait,
    the branch answers the URL of the grid without raising. *)
Theorem upscale_best_failed self task_id url w reply r1 response grid_image
    reply_u r2 upscale_task_id k reply_s r3 :
  serve (fetch_request url) (remote w) = (reply, r1) →
  reply_result reply = Ok response → status_code response = 200%Z →
  image_open (content response) = Ok grid_image →
  serve (upscale_request self task_id
           (analyze_grid_image (image_analyzer self) grid_image)) r1
  = (reply_u, r2) →
  upscale_submitted reply_u = Ok (Some upscale_task_id) →
  (k < max_polls)%nat →
  upscale_waits k (status_request self upscale_task_id) r2 = true →
  serve (status_request self upscale_task_id)
    (served k (status_request self upscale_task_id) r2) = (reply_s, r3) →
  upscale_decide reply_s = Leave None →
  run (upscale_best self task_id url) w = Ok url ∧
  requests_of (trace (exec (upscale_best self task_id url) w))
  = requests_of (trace w)
    ++ [fetch_request url;
        upscale_request self task_id
          (analyze_grid_image (image_analyzer self) grid_image)]
    ++ replicate (S k) (status_request self upscale_task_id).
Proof.
  intros E Hres Hcode Hopen Eu Hsub Hk Hw Es D. unfold run, exec.
  rewrite (upscale_best_accepted _ _ _ _ _ _ _ _ _ _ _ E Hres Hcode Hopen Eu Hsub).
  unfold bind.
  erewrite upscale_loop_decided; [| exact Hk | exact Hw | exact Es | by rewrite D].
  simpl. rewrite D. unfold after_grid. world_simpl.
  rewrite !requests_of_app, polling_events_requests_of. simpl.
  by rewrite replicate_cons_app.
Qed.

(** C21: when the upscale task is still in progress after thirty polls, the
    branch answers the URL of the grid without raising, after thirty status
    requests each followed by a sleep of ten seconds. *)
Theorem upscale_best_times_out self task_id url w reply r1 response grid_image
    reply_u r2 upscale_task_id :
  serve (fetch_request url) (remote w) = (reply, r1) →
  reply_result reply = Ok response → status_code response = 200%Z →
  image_open (content response) = Ok grid_image →
  serve (upscale_request self task_id
           (analyze_grid_image (image_analyzer self) grid_image)) r1
  = (reply_u, r2) →
  upscale_submitted reply_u = Ok (Some upscale_task_id) →
  upscale_waits max_polls (status_request self upscale_task_id) r2 = true →
  run (upscale_best self task_id url) w = Ok url ∧
  trace (exec (upscale_best self task_id url) w)
  = trace w
    ++ [EvRequest (fetch_request url); EvWrite (grid_path self (py_int (clock w)));
        EvRequest (upscale_request self task_id
                     (analyze_grid_image (image_analyzer self) grid_image))]
    ++ polling_events 30 (status_request self upscale_task_id).
Proof.
  intros E Hres Hcode Hopen Eu Hsub Hw. unfold run, exec.
  rewrite (upscale_best_exhausted _ _ _ _ _ _ _ _ _ _ _ E Hres Hcode Hopen Eu Hsub Hw).
  unfold after_grid. by world_simpl.
Qed.

(** C22: when the download of the grid is answered with a status other than
    200, the branch answers the URL of the grid: nothing is stored, no cell
    is chosen and no upscale is requested. *)
Theorem upscale_best_grid_unavailable self task_id url w reply r1 response :
  serve (fetch_request url) (remote w) = (reply, r1) →
  reply_result reply = Ok response → status_code response ≠ 200%Z →
  run (upscale_best self task_id url) w = Ok url ∧
  trace (exec (upscale_best self task_id url) w)
  = trace w ++ [EvRequest (fetch_request url)] ∧
  files (exec (upscale_best self task_id url) w) = files w.
Proof.
  intros E Hres Hcode. unfold run, exec.
  rewrite (upscale_best_run _ _ _ _ _ _ E). simpl. rewrite Hres.
  by destruct (Z.eqb_spec (status_code response) 200).
Qed.

(** C23: when the stored grid cannot be opened as an image, the branch
    raises the error of the decoder: the generation fails although the grid
    was downloaded. *)
Theorem upscale_best_undecodable self task_id url w reply r1 response e :
  serve (fetch_request url) (remote w) = (reply, r1) →
  reply_result reply = Ok response → status_code response = 200%Z →
  image_open (content response) = Raise e →
  run (upscale_best self task_id url) w = Raise e ∧
  trace (exec (upscale_best self task_id url) w)
  = trace w ++ [EvRequest (fetch_request url);
                EvWrite (grid_path self (py_int (clock w)))].
Proof.
  intros E Hres Hcode Hopen. unfold run, exec.
  rewrite (upscale_best_run _ _ _ _ _ _ E). simpl. rewrite Hres, Hcode, Hopen.
  change (200 =? 200)%Z with true. unfold after_grid. by world_simpl.
Qed.

(** C24: when the upscale request itself raises (an exception of the
    transport, or a body that is not JSON behind a status 200), the branch
    raises: there is no fallback to the grid on this path. *)
Theorem upscale_best_submission_raises self task_id url w reply r1 response
    grid_image reply_u r2 e :
  serve (fetch_request url) (remote w) = (reply, r1) →
  reply_result reply = Ok response → status_code response = 200%Z →
  image_open (content response) = Ok grid_image →
  serve (upscale_request self task_id
           (analyze_grid_image (image_analyzer self) grid_image)) r1
  = (reply_u, r2) →
  upscale_submitted reply_u = Raise e →
  run (upscale_best self task_id url) w = Raise e.
Proof.
  intros E Hres Hcode Hopen Eu Hsub. unfold run.
  rewrite (upscale_best_stored _ _ _ _ _ _ _ _ E Hres Hcode Hopen).
  erewrite request_upscale_run; [|exact Eu]. simpl. by rewrite Hsub.
Qed.

End BranchTheorems.

(** ** The theorems at concrete inputs *)

Lemma upscale_best_upscaled_witness :
  let w := start_world branch_upscaled in
  let status := status_request demo_generator demo_upscale_task in
  serve (fetch_request demo_grid_url) (remote w)
  = (body_reply 200 demo_grid_file, drop 1 branch_upscaled) ∧
  reply_result (body_reply 200 demo_grid_file) = Ok demo_grid_response ∧
  status_code demo_grid_response = 200%Z ∧
  image_open (content demo_grid_response) = Ok demo_grid_image ∧
  serve demo_upscale_request (drop 1 branch_upscaled)
  = (accepted_reply "task-2", drop 2 branch_upscaled) ∧
  upscale_submitted (accepted_reply "task-2") = Ok (Some demo_upscale_task) ∧
  (2 < max_polls)%nat ∧
  upscale_waits 2 status (drop 2 branch_upscaled) = true ∧
  serve status (served 2 status (drop 2 branch_upscaled))
  = (completed_reply "https://cdn/upscaled.jpg" [], []) ∧
  upscale_decide (completed_reply "https://cdn/upscaled.jpg" [])
  = Leave (Some demo_upscaled_url) ∧
  let w' := exec (upscale_best demo_generator demo_task demo_grid_url) w in
  run (upscale_best demo_generator demo_task demo_grid_url) w = Ok demo_upscaled_url ∧
  trace w'
  = trace w
    ++ [EvRequest (fetch_request demo_grid_url);
        EvWrite (grid_path demo_generator (py_int (clock w)));
        EvRequest demo_upscale_request]
    ++ polling_events 2 status ++ [EvRequest status] ∧
  files w' = <[grid_path demo_generator (py_int (clock w))
               := content demo_grid_response]> (files w).
Proof.
  intros w status. do 6 (split; [reflexivity|]). split; [unfold max_polls; lia|].
  do 3 (split; [reflexivity|]).
  apply (upscale_best_upscaled demo_generator demo_task demo_grid_url w
           (body_reply 200 demo_grid_file) (drop 1 branch_upscaled)
           demo_grid_response demo_grid_image (accepted_reply "task-2")
           (drop 2 branch_upscaled) demo_upscale_task 2
           (completed_reply "https://cdn/upscaled.jpg" []) []);
    first [reflexivity | unfold max_polls; lia].
Defined.

(** The cell at the top right has the highest score: the request names
    the index "2". *)

Example upscale_request_demo :
  analyze_grid_image (image_analyzer demo_generator) demo_grid_image = 1%nat ∧
  get_in (req_json demo_upscale_request) ["input"] "index" PyNone = Ok (PyStr "2").
Proof. by_computation. Qed.

Lemma upscale_best_refused_witness :
  let w := start_world branch_refused in
  serve (fetch_request demo_grid_url) (remote w)
  = (body_reply 200 demo_grid_file, [body_reply 500 "busy"]) ∧
  reply_result (body_reply 200 demo_grid_file) = Ok demo_grid_response ∧
  status_code demo_grid_response = 200%Z ∧
  image_open (content demo_grid_response) = Ok demo_grid_image ∧
  serve demo_upscale_request [body_reply 500 "busy"] = (body_reply 500 "busy", []) ∧
  upscale_submitted (body_reply 500 "busy") = Ok None ∧
  run (upscale_best demo_generator demo_task demo_grid_url) w = Ok demo_grid_url ∧
  trace (exec (upscale_best demo_generator demo_task demo_grid_url) w)
  = trace w
    ++ [EvRequest (fetch_request demo_grid_url);
        EvWrite (grid_path demo_generator (py_int (clock w)));
        EvRequest demo_upscale_request].
Proof.
  intros w. do 6 (split; [reflexivity|]).
  apply (upscale_best_refused demo_generator demo_task demo_grid_url w
           (body_reply 200 demo_grid_file) [body_reply 500 "busy"]
           demo_grid_response demo_grid_image (body_reply 500 "busy") []);
    reflexivity.
Defined.

Lemma upscale_best_failed_witness :
  let w := start_world branch_failed in
  let status := status_request demo_generator demo_upscale_task in
  serve (fetch_request demo_grid_url) (remote w)
  = (body_reply 200 demo_grid_file, drop 1 branch_failed) ∧
  reply_result (body_reply 200 demo_grid_file) = Ok demo_grid_response ∧
  status_code demo_grid_response = 200%Z ∧
  image_open (content demo_grid_response) = Ok demo_grid_image ∧
  serve demo_upscale_request (drop 1 branch_failed)
  = (accepted_reply "task-2", drop 2 branch_failed) ∧
  upscale_submitted (accepted_reply "task-2") = Ok (Some demo_upscale_task) ∧
  (1 < max_polls)%nat ∧
  upscale_waits 1 status (drop 2 branch_failed) = true ∧
  serve status (served 1 status (drop 2 branch_failed))
  = (failed_reply "no capacity", []) ∧
  upscale_decide (failed_reply "no capacity") = Leave None ∧
  run (upscale_best demo_generator demo_task demo_grid_url) w = Ok demo_grid_url ∧
  requests_of (trace (exec (upscale_best demo_generator demo_task demo_grid_url) w))
  = requests_of (trace w)
    ++ [fetch_request demo_grid_url; demo_upscale_request] ++ replicate 2 status.
Proof.
  intros w status. do 6 (split; [reflexivity|]). split; [unfold max_polls; lia|].
  do 3 (split; [reflexivity|]).
  apply (upscale_best_failed demo_generator demo_task demo_grid_url w
           (body_reply 200 demo_grid_file) (drop 1 branch_failed)
           demo_grid_response demo_grid_image (accepted_reply "task-2")
           (drop 2 branch_failed) demo_upscale_task 1
           (failed_reply "no capacity") []);
    first [reflexivity | unfold max_polls; lia].
Defined.

Lemma upscale_best_times_out_witness :
  let w := start_world branch_stuck in
  let status := status_request demo_generator demo_upscale_task in
  serve (fetch_request demo_grid_url) (remote w)
  = (body_reply 200 demo_grid_file, drop 1 branch_stuck) ∧
  reply_result (body_reply 200 demo_grid_file) = Ok demo_grid_response ∧
  status_code demo_grid_response = 200%Z ∧
  image_open (content demo_grid_response) = Ok demo_grid_image ∧
  serve demo_upscale_request (drop 1 branch_stuck)
  = (accepted_reply "task-2", drop 2 branch_stuck) ∧
  upscale_submitted (accepted_reply "task-2") = Ok (Some demo_upscale_task) ∧
  upscale_waits max_polls status (drop 2 branch_stuck) = true ∧
  run (upscale_best demo_generator demo_task demo_grid_url) w = Ok demo_grid_url ∧
  trace (exec (upscale_best demo_generator demo_task demo_grid_url) w)
  = trace w
    ++ [EvRequest (fetch_request demo_grid_url);
        EvWrite (grid_path demo_generator (py_int (clock w)));
        EvRequest demo_upscale_request]
    ++ polling_events 30 status.
Proof.
  intros w status. do 7 (split; [reflexivity|]).
  apply (upscale_best_times_out demo_generator demo_task demo_grid_url w
           (body_reply 200 demo_grid_file) (drop 1 branch_stuck)
           demo_grid_response demo_grid_image (accepted_reply "task-2")
           (drop 2 branch_stuck) demo_upscale_task);
    reflexivity.
Defined.

Lemma upscale_best_grid_unavailable_witness :
  let w := start_world branch_unavailable in
  let response := {| status_code := 404; text := "not found"; content := "not found";
                     resp_json := Raise "Expecting value: line 1 column 1 (char 0)" |} in
  serve (fetch_request demo_grid_url) (remote w) = (body_reply 404 "not found", []) ∧
  reply_result (body_reply 404 "not found") = Ok response ∧
  status_code response ≠ 200%Z ∧
  run (upscale_best demo_generator demo_task demo_grid_url) w = Ok demo_grid_url ∧
  trace (exec (upscale_best demo_generator demo_task demo_grid_url) w)
  = trace w ++ [EvRequest (fetch_request demo_grid_url)] ∧
  files (exec (upscale_best demo_generator demo_task demo_grid_url) w) = files w.
Proof.
  intros w response. do 2 (split; [reflexivity|]). split; [discriminate|].
  apply (upscale_best_grid_unavailable demo_generator demo_task demo_grid_url w
           (body_reply 404 "not found") [] response);
    first [reflexivity | discriminate].
Defined.

Lemma upscale_best_undecodable_witness :
  let w := start_world branch_undecodable in
  let response := {| status_code := 200; text := "x"; content := "x";
                     resp_json := Raise "Expecting value: line 1 column 1 (char 0)" |} in
  serve (fetch_request demo_grid_url) (remote w) = (body_reply 200 "x", []) ∧
  reply_result (body_reply 200 "x") = Ok response ∧
  status_code response = 200%Z ∧
  image_open (content response) = Raise "cannot identify image file" ∧
  run (upscale_best demo_generator demo_task demo_grid_url) w
  = Raise "cannot identify image file" ∧
  trace (exec (upscale_best demo_generator demo_task demo_grid_url) w)
  = trace w ++ [EvRequest (fetch_request demo_grid_url);
                EvWrite (grid_path demo_generator (py_int (clock w)))].
Proof.
  intros w response. do 4 (split; [reflexivity|]).
  apply (upscale_best_undecodable demo_generator demo_task demo_grid_url w
           (body_reply 200 "x") [] response); reflexivity.
Defined.

Lemma upscale_best_submission_raises_witness :
  let w := start_world branch_dropped in
  serve (fetch_request demo_grid_url) (remote w)
  = (body_reply 200 demo_grid_file, [connection_error]) ∧
  reply_result (body_reply 200 demo_grid_file) = Ok demo_grid_response ∧
  status_code demo_grid_response = 200%Z ∧
  image_open (content demo_grid_response) = Ok demo_grid_image ∧
  serve demo_upscale_request [connection_error] = (connection_error, []) ∧
  upscale_submitted connection_error = Raise "Connection aborted." ∧
  run (upscale_best demo_generator demo_task demo_grid_url) w
  = Raise "Connection aborted.".
Proof.
  intros w. do 6 (split; [reflexivity|]).
  apply (upscale_best_submission_raises demo_generator demo_task demo_grid_url w
           (body_reply 200 demo_grid_file) [connection_error]
           demo_grid_response demo_grid_image connection_error []);
    reflexivity.
Defined.
