(* ===== verification/Generator.v ===== *)
(** * [generate_image]

    [src/src/content_generation/ai_content_generator.py], the method
    [generate_image] of [AIContentGenerator], cut along its blocks: the
    submission ([submit_imagine]), one iteration of the polling loop
    ([poll_once]) with the branch of a completed task ([poll_completed],
    which runs the grid branch of [Upscale]) and the final download
    ([download_final]); [generate_image] composes them as the source does.

    The theorems follow the runs of [generate_image]: what each kind of
    reply of the remote service does to the polling loop, how many requests
    are sent and how long the program sleeps, which message each failure
    carries, and which file the returned path names. *)

From stdpp Require Import base option list strings pretty gmap.
From Stdlib Require Import QArith Qminmax Qround Lqa.
From S2P Require Import Prelude Python World Image Doubles ImageAnalyzer Service Upscale.

Open Scope string_scope.
Open Scope list_scope.

(** ** The submission request *)

Definition submit_request (self : AIContentGenerator) (prompt : string) : Request :=
  {| req_method := POST; req_url := PyStr (task_url self);
     req_headers := midjourney_headers self;
     req_json := imagine_payload prompt false; req_timeout := 15 |}.

Section Generator.
Context {R : Type} `{Remote R} `{Vision} `{ImageCodec} `{PyRepr}.

(** ** [generate_image]: the submission *)

Definition submit_imagine (self : AIContentGenerator) (prompt : string)
  : M (World R) pyval :=
  response ← requests_post (PyStr (task_url self)) (midjourney_headers self)
                 (imagine_payload prompt false) 15;
  response_data ← lift_outcome (resp_json response);
  if negb (status_code response =? 200)%Z then
    mthrow ("Midjourney API error: " +:+ pretty (status_code response)
            +:+ " - " +:+ text response)
  else
    task_id ← lift_outcome (get_in response_data ["data"] "task_id" PyNone);
    if negb (truthy task_id)
    then mthrow "No task_id in Midjourney API response"
    else mret task_id.

(** ** [generate_image]: the final download *)

Definition download_final (self : AIContentGenerator) (image_url : pyval)
  : M (World R) string :=
  now ← int_time;
  let image_filename := "midjourney_" +:+ pretty now +:+ ".jpg" in
  let image_path := path_join (generated_images_dir self) image_filename in
  img_response ← requests_get image_url PyNone 30;
  if negb (status_code img_response =? 200)%Z then
    mthrow ("Error downloading image: " +:+ pretty (status_code img_response))
  else
    write_file image_path (content img_response);;
    mret ("/static/generated_images/" +:+ image_filename).

(** ** [generate_image]: one iteration of the polling loop

    [Some path] is the [return] of the function, [None] goes on after the
    sleep; the two [raise] statements and every exception of a call leave
    the loop as exceptions. *)

Definition poll_completed (self : AIContentGenerator) (task_id status_result : pyval)
  : M (World R) string :=
  image_url ← lift_outcome (get_in status_result ["data"; "output"] "image_url" PyNone);
  actions ← lift_outcome (get_in status_result ["data"; "output"] "actions" (PyList []));
  if negb (truthy image_url) then mthrow "No image_url in completed task"
  else
    grid ← lift_outcome (py_contains "upscale1" actions);
    image_url ← (if grid : bool then upscale_best self task_id image_url
                 else mret image_url);
    download_final self image_url.

Definition poll_once (self : AIContentGenerator) (task_id : pyval)
  : M (World R) (option string) :=
  status_response ← requests_get (PyStr (task_status_url self task_id))
                       (midjourney_headers self) 15;
  if negb (status_code status_response =? 200)%Z then
    time_sleep poll_interval;; mret None
  else
    status_result ← lift_outcome (resp_json status_response);
    status_raw ← lift_outcome (get_in status_result ["data"] "status" (PyStr EmptyString));
    status ← lift_outcome (py_lower status_raw);
    if String.eqb status "completed" then
      path ← poll_completed self task_id status_result;
      mret (Some path)
    else if String.eqb status "failed" then
      error ← lift_outcome (get_in status_result ["data"; "error"] "message"
                              (PyStr "Unknown error"));
      mthrow ("Midjourney task failed: " +:+ py_str error)
    else if str_in status ["processing"; "pending"; "staged"] then
      progress ← lift_outcome (get_in status_result ["data"; "output"] "progress" (PyInt 0));
      time_sleep poll_interval;; mret None
    else
      time_sleep poll_interval;; mret None.

(** ** [generate_image] *)

Definition generate_image_try (self : AIContentGenerator) (prompt : string)
  : M (World R) string :=
  task_id ← submit_imagine self prompt;
  r ← for_range max_polls (λ i, poll_once self task_id);
  match r with
  | Some path => mret path
  | None => mthrow "Timed out waiting for Midjourney task to complete"
  end.

Definition generate_image (self : AIContentGenerator) (prompt : string)
  : M (World R) string :=
  try_catch (generate_image_try self prompt)
    (λ e, mthrow ("Failed to generate image with Midjourney: " +:+ e)).

End Generator.

(** ** What the generator decides on a reply

    Pure readings of a reply, against which the effectful blocks are
    proved: the task identifier that a submission yields, and what one poll
    makes the polling loop do. *)

Definition submitted (reply : Reply) : outcome pyval :=
  response ← reply_result reply;
  response_data ← resp_json response;
  if negb (status_code response =? 200)%Z then
    Raise ("Midjourney API error: " +:+ pretty (status_code response)
           +:+ " - " +:+ text response)
  else
    task_id ← get_in response_data ["data"] "task_id" PyNone;
    if negb (truthy task_id) then Raise "No task_id in Midjourney API response"
    else Ok task_id.

Inductive poll_decision : Type :=
| Retry
| Completed (image_url : pyval) (grid : bool)
| Abort (msg : string).

Definition decide_completed `{PyRepr} (status_result : pyval) : poll_decision :=
  match get_in status_result ["data"; "output"] "image_url" PyNone,
        get_in status_result ["data"; "output"] "actions" (PyList []) with
  | Ok image_url, Ok actions =>
      if negb (truthy image_url) then Abort "No image_url in completed task"
      else match py_contains "upscale1" actions with
           | Ok grid => Completed image_url grid
           | Raise e => Abort e
           end
  | Raise e, _ => Abort e
  | _, Raise e => Abort e
  end.

Definition decide_failed `{PyRepr} (status_result : pyval) : poll_decision :=
  match get_in status_result ["data"; "error"] "message" (PyStr "Unknown error") with
  | Ok error => Abort ("Midjourney task failed: " +:+ py_str error)
  | Raise e => Abort e
  end.

Definition decide_waiting (status_result : pyval) : poll_decision :=
  match get_in status_result ["data"; "output"] "progress" (PyInt 0) with
  | Ok _ => Retry
  | Raise e => Abort e
  end.

Definition poll_decide `{PyRepr} (reply : Reply) : poll_decision :=
  match reply_result reply with
  | Raise e => Abort e
  | Ok response =>
      if negb (status_code response =? 200)%Z then Retry
      else match resp_json response with
           | Raise e => Abort e
           | Ok status_result =>
               match status_of status_result with
               | Raise e => Abort e
               | Ok status =>
                   if String.eqb status "completed" then decide_completed status_result
                   else if String.eqb status "failed" then decide_failed status_result
                   else if str_in status ["processing"; "pending"; "staged"]
                   then decide_waiting status_result
                   else Retry
               end
           end
  end.

Definition is_retry (d : poll_decision) : bool :=
  match d with Retry => true | _ => false end.

Section Runs.
Context {R : Type} `{Remote R} `{Vision} `{ImageCodec} `{PyRepr}.

(** The next [n] replies to [req] all make the polling loop retry. *)

Definition retries (n : nat) (req : Request) (r : R) : bool :=
  waits (λ reply, is_retry (poll_decide reply)) n req r.

(** What [download_final] answers on a reply, the clock reading [now] when
    the file name is chosen. *)

Definition final_filename (now : Z) : string := "midjourney_" +:+ pretty now +:+ ".jpg".

Definition after_download (self : AIContentGenerator) (url : pyval) (reply : Reply)
    (r' : R) (w : World R) : outcome string * World R :=
  let w1 := after_request (fetch_request url) reply r' w in
  match reply_result reply with
  | Raise e => (Raise e, w1)
  | Ok response =>
      if negb (status_code response =? 200)%Z
      then (Raise ("Error downloading image: " +:+ pretty (status_code response)), w1)
      else (Ok ("/static/generated_images/" +:+ final_filename (py_int (clock w))),
            after_write (path_join (generated_images_dir self)
                           (final_filename (py_int (clock w))))
              (content response) w1)
  end.

End Runs.

(** ** Concrete inputs for the examples

    Scripts of a remote: a task that stays in progress for thirty polls; a
    task that completes on the thirtieth poll with a single image, followed
    by the image; a task that fails on the third poll; a submission without
    task identifier; tasks that complete with a grid, the upscale completing
    after two polls, being refused, failing. *)

Definition script_timeout : list Reply :=
  accepted_reply "task-1" :: replicate 30 processing_reply.

Definition script_single : list Reply :=
  accepted_reply "task-1" :: replicate 29 processing_reply
  ++ [completed_reply "https://cdn/final.jpg" []; body_reply 200 "JPEG"].

Definition script_failed : list Reply :=
  accepted_reply "task-1" :: replicate 2 processing_reply
  ++ [failed_reply "banned prompt"].

Definition script_rejected : list Reply := [data_reply 200 []].

Definition script_upscaled : list Reply :=
  [accepted_reply "task-1"; processing_reply; grid_reply;
   body_reply 200 demo_grid_file; accepted_reply "task-2";
   processing_reply; processing_reply; completed_reply "https://cdn/upscaled.jpg" [];
   body_reply 200 "UPSCALED"].

Definition script_upscale_refused : list Reply :=
  [accepted_reply "task-1"; grid_reply; body_reply 200 demo_grid_file;
   body_reply 500 "busy"; body_reply 200 "GRID"].

Definition script_upscale_failed : list Reply :=
  [accepted_reply "task-1"; grid_reply; body_reply 200 demo_grid_file;
   accepted_reply "task-2"; processing_reply; failed_reply "no capacity";
   body_reply 200 "GRID"].

(** ** Lemmas: the blocks of [generate_image], by the reply of the remote *)

Section BlockFacts.
Context {R : Type} `{Remote R} `{Vision} `{ImageCodec} `{PyRepr}.
Implicit Types w : World R.

Lemma submit_imagine_run self prompt w reply r' :
  serve (submit_request self prompt) (remote w) = (reply, r') →
  submit_imagine self prompt w
  = (submitted reply, after_request (submit_request self prompt) reply r' w).
Proof.
  intros E. unfold submit_imagine, submitted. munfold.
  rewrite (requests_post_serve _ _ _ _ _ _ _ E).
  fold (submit_request self prompt).
  destruct (reply_result reply) as [resp|e]; [simpl|done].
  destruct (resp_json resp) as [j|e]; [simpl|done].
  destruct (status_code resp =? 200)%Z; [simpl|done].
  destruct (get_in j ["data"] "task_id" PyNone) as [t|e]; [simpl|done].
  by destruct (truthy t).
Qed.

Lemma download_final_run self url w reply r' :
  serve (fetch_request url) (remote w) = (reply, r') →
  download_final self url w = after_download self url reply r' w.
Proof.
  intros E. unfold download_final, after_download, int_time. munfold.
  rewrite (requests_get_serve _ _ _ _ _ _ E). fold (fetch_request url).
  destruct (reply_result reply) as [resp|e]; [simpl|done].
  by destruct (status_code resp =? 200)%Z.
Qed.

Lemma poll_once_run self task_id w reply r' :
  serve (status_request self task_id) (remote w) = (reply, r') →
  poll_once self task_id w
  = let w1 := after_request (status_request self task_id) reply r' w in
    match poll_decide reply with
    | Retry => (Ok None, after_sleep poll_interval w1)
    | Abort e => (Raise e, w1)
    | Completed image_url grid =>
        bind (bind (if grid then upscale_best self task_id image_url
                    else ret image_url)
                (download_final self))
             (λ path, ret (Some path)) w1
    end.
Proof.
  intros E. unfold poll_once, poll_decide, status_of. munfold.
  rewrite (requests_get_serve _ _ _ _ _ _ E). fold (status_request self task_id).
  destruct (reply_result reply) as [resp|e]; [simpl|done].
  destruct (status_code resp =? 200)%Z; [simpl|done].
  destruct (resp_json resp) as [j|e]; [simpl|done].
  destruct (get_in j ["data"] "status" _) as [raw|e]; [simpl|done].
  destruct (py_lower raw) as [status|e]; [simpl|done].
  destruct (String.eqb status "completed").
  { unfold poll_completed, decide_completed. munfold.
    destruct (get_in j ["data"; "output"] "image_url" PyNone) as [url|e];
      [simpl|done].
    destruct (get_in j ["data"; "output"] "actions" _) as [actions|e];
      [simpl|done].
    destruct (truthy url); [simpl|done].
    destruct (py_contains "upscale1" actions) as [grid|e]; [simpl|done].
    done. }
  destruct (String.eqb status "failed").
  { unfold decide_failed.
    by destruct (get_in j ["data"; "error"] "message" _). }
  destruct (str_in status ["processing"; "pending"; "staged"]); [|done].
  unfold decide_waiting. by destruct (get_in j ["data"; "output"] "progress" _).
Qed.

Lemma poll_once_retry self task_id w reply r' :
  serve (status_request self task_id) (remote w) = (reply, r') →
  poll_decide reply = Retry →
  poll_once self task_id w
  = (Ok None, after_sleep poll_interval
                (after_request (status_request self task_id) reply r' w)).
Proof. intros E D. rewrite (poll_once_run _ _ _ _ _ E). simpl. by rewrite D. Qed.

Lemma poll_once_abort self task_id w reply r' e :
  serve (status_request self task_id) (remote w) = (reply, r') →
  poll_decide reply = Abort e →
  poll_once self task_id w
  = (Raise e, after_request (status_request self task_id) reply r' w).
Proof. intros E D. rewrite (poll_once_run _ _ _ _ _ E). simpl. by rewrite D. Qed.

Lemma poll_once_completed self task_id w reply r' image_url :
  serve (status_request self task_id) (remote w) = (reply, r') →
  poll_decide reply = Completed image_url false →
  poll_once self task_id w
  = bind (download_final self image_url) (λ path, ret (Some path))
      (after_request (status_request self task_id) reply r' w).
Proof. intros E D. rewrite (poll_once_run _ _ _ _ _ E). simpl. by rewrite D. Qed.

End BlockFacts.

(** ** Lemmas: the polling loop *)

Section LoopFacts.
Context {R : Type} `{Remote R} `{Vision} `{ImageCodec} `{PyRepr}.
Implicit Types w : World R.

Lemma poll_loop_skip self task_id k m i w :
  retries k (status_request self task_id) (remote w) = true →
  for_range_from i (k + m) (λ _, poll_once self task_id) w
  = for_range_from (i + k) m (λ _, poll_once self task_id)
      (after_polls k (status_request self task_id) w).
Proof.
  apply wait_loop_skip. intros w' reply r' E D.
  apply (poll_once_retry _ _ _ _ _ E). by destruct (poll_decide reply).
Qed.

Lemma poll_loop_retries self task_id n i w :
  retries n (status_request self task_id) (remote w) = true →
  for_range_from i n (λ _, poll_once self task_id) w
  = (Ok None, after_polls n (status_request self task_id) w).
Proof.
  intros Hr. rewrite <- (Nat.add_0_r n) at 1. by rewrite poll_loop_skip.
Qed.

(** The first reply that does not make the loop retry decides the loop. *)

Lemma poll_loop_abort self task_id k m i w reply r' e :
  retries k (status_request self task_id) (remote w) = true →
  serve (status_request self task_id)
    (remote (after_polls k (status_request self task_id) w)) = (reply, r') →
  poll_decide reply = Abort e →
  for_range_from i (k + S m) (λ _, poll_once self task_id) w
  = (Raise e, after_request (status_request self task_id) reply r'
                (after_polls k (status_request self task_id) w)).
Proof.
  intros Hr E D. rewrite poll_loop_skip by done.
  by rewrite (for_range_from_raise _ _ _ _ _ _ (poll_once_abort _ _ _ _ _ _ E D)).
Qed.

Lemma poll_loop_completed self task_id k m i w reply r' image_url :
  retries k (status_request self task_id) (remote w) = true →
  serve (status_request self task_id)
    (remote (after_polls k (status_request self task_id) w)) = (reply, r') →
  poll_decide reply = Completed image_url false →
  for_range_from i (k + S m) (λ _, poll_once self task_id) w
  = bind (download_final self image_url) (λ path, ret (Some path))
      (after_request (status_request self task_id) reply r'
         (after_polls k (status_request self task_id) w)).
Proof.
  intros Hr E D. rewrite poll_loop_skip by done.
  rewrite for_range_from_S. unfold bind. cbv beta.
  rewrite (poll_once_completed _ _ _ _ _ _ E D). unfold bind.
  by destruct (download_final self image_url _) as [[path|e] w'].
Qed.

End LoopFacts.

(** ** Lemmas: [generate_image], phase by phase *)

Section GenerateFacts.
Context {R : Type} `{Remote R} `{Vision} `{ImageCodec} `{PyRepr}.
Implicit Types w : World R.

Lemma generate_image_wrap_raise self prompt w e w' :
  generate_image_try self prompt w = (Raise e, w') →
  generate_image self prompt w
  = (Raise ("Failed to generate image with Midjourney: " +:+ e), w').
Proof. intros E. unfold generate_image. by rewrite (try_catch_err _ _ _ _ _ E). Qed.

Lemma generate_image_wrap_ok self prompt w path w' :
  generate_image_try self prompt w = (Ok path, w') →
  generate_image self prompt w = (Ok path, w').
Proof. intros E. unfold generate_image. by rewrite (try_catch_ok _ _ _ _ _ E). Qed.

Lemma generate_image_try_rejected self prompt w reply r1 e :
  serve (submit_request self prompt) (remote w) = (reply, r1) →
  submitted reply = Raise e →
  generate_image_try self prompt w
  = (Raise e, after_request (submit_request self prompt) reply r1 w).
Proof.
  intros E Hs. unfold generate_image_try. munfold.
  by rewrite (submit_imagine_run _ _ _ _ _ E), Hs.
Qed.

Lemma generate_image_try_started self prompt w reply r1 task_id :
  serve (submit_request self prompt) (remote w) = (reply, r1) →
  submitted reply = Ok task_id →
  generate_image_try self prompt w
  = match for_range max_polls (λ _, poll_once self task_id)
            (after_request (submit_request self prompt) reply r1 w) with
    | (Ok (Some path), w') => (Ok path, w')
    | (Ok None, w') =>
        (Raise "Timed out waiting for Midjourney task to complete", w')
    | (Raise e, w') => (Raise e, w')
    end.
Proof.
  intros E Hs. unfold generate_image_try. munfold.
  rewrite (submit_imagine_run _ _ _ _ _ E), Hs.
  by destruct (for_range _ _ _) as [[[path|]|e] w'].
Qed.

Lemma generate_image_try_timeout self prompt w reply r1 task_id :
  serve (submit_request self prompt) (remote w) = (reply, r1) →
  submitted reply = Ok task_id →
  retries max_polls (status_request self task_id) r1 = true →
  generate_image_try self prompt w
  = (Raise "Timed out waiting for Midjourney task to complete",
     after_polls max_polls (status_request self task_id)
       (after_request (submit_request self prompt) reply r1 w)).
Proof.
  intros E Hs Hr. rewrite (generate_image_try_started _ _ _ _ _ _ E Hs).
  unfold for_range. by rewrite poll_loop_retries.
Qed.

Lemma generate_image_try_abort self prompt w reply r1 task_id k reply' r2 e :
  serve (submit_request self prompt) (remote w) = (reply, r1) →
  submitted reply = Ok task_id →
  (k < max_polls)%nat →
  retries k (status_request self task_id) r1 = true →
  serve (status_request self task_id)
    (remote (after_polls k (status_request self task_id)
               (after_request (submit_request self prompt) reply r1 w)))
  = (reply', r2) →
  poll_decide reply' = Abort e →
  generate_image_try self prompt w
  = (Raise e,
     after_request (status_request self task_id) reply' r2
       (after_polls k (status_request self task_id)
          (after_request (submit_request self prompt) reply r1 w))).
Proof.
  intros E Hs Hk Hr E' D. rewrite (generate_image_try_started _ _ _ _ _ _ E Hs).
  unfold for_range.
  replace max_polls with (k + S (max_polls - S k))%nat by lia.
  by erewrite poll_loop_abort.
Qed.

Lemma generate_image_try_completed self prompt w reply r1 task_id k reply' r2 url :
  serve (submit_request self prompt) (remote w) = (reply, r1) →
  submitted reply = Ok task_id →
  (k < max_polls)%nat →
  retries k (status_request self task_id) r1 = true →
  serve (status_request self task_id)
    (remote (after_polls k (status_request self task_id)
               (after_request (submit_request self prompt) reply r1 w)))
  = (reply', r2) →
  poll_decide reply' = Completed url false →
  generate_image_try self prompt w
  = download_final self url
      (after_request (status_request self task_id) reply' r2
         (after_polls k (status_request self task_id)
            (after_request (submit_request self prompt) reply r1 w))).
Proof.
  intros E Hs Hk Hr E' D. rewrite (generate_image_try_started _ _ _ _ _ _ E Hs).
  unfold for_range.
  replace max_polls with (k + S (max_polls - S k))%nat by lia.
  erewrite poll_loop_completed; [|done..]. unfold bind.
  by destruct (download_final self url _) as [[path|e] w'].
Qed.

(** A completed task that offers the upscale makes [generate_image] run the
    branch and download what it answers. *)

Lemma generate_image_try_grid self prompt w reply r1 task_id k reply' r2 url :
  serve (submit_request self prompt) (remote w) = (reply, r1) →
  submitted reply = Ok task_id →
  (k < max_polls)%nat →
  retries k (status_request self task_id) r1 = true →
  serve (status_request self task_id) (served k (status_request self task_id) r1)
  = (reply', r2) →
  poll_decide reply' = Completed url true →
  generate_image_try self prompt w
  = bind (upscale_best self task_id url) (download_final self)
      (after_request (status_request self task_id) reply' r2
         (after_polls k (status_request self task_id)
            (after_request (submit_request self prompt) reply r1 w))).
Proof.
  intros E Hs Hk Hr E' D. rewrite (generate_image_try_started _ _ _ _ _ _ E Hs).
  unfold for_range. replace max_polls with (k + S (max_polls - S k))%nat by lia.
  rewrite poll_loop_skip by done. rewrite for_range_from_S.
  rewrite <- (after_polls_remote k (status_request self task_id)
                (after_request (submit_request self prompt) reply r1 w)) in E'.
  unfold bind at 1. rewrite (poll_once_run _ _ _ _ _ E'). simpl. rewrite D.
  unfold bind, ret.
  destruct (upscale_best self task_id url _) as [[final|e] w3]; [|done].
  by destruct (download_final self final w3) as [[path|e] w4].
Qed.

(** The poll that decides is answered at least ten seconds after the call
    for each poll that waited. *)

Lemma deciding_poll_clock self prompt task_id k reply r1 reply' r2 w :
  (clock w + inject_Z (Z.of_nat k) * 10
   <= clock (after_request (status_request self task_id) reply' r2
               (after_polls k (status_request self task_id)
                  (after_request (submit_request self prompt) reply r1 w))))%Q.
Proof.
  eapply Qle_trans; [|apply after_request_clock].
  eapply Qle_trans; [|apply after_polls_clock].
  pose proof (after_request_clock (submit_request self prompt) reply r1 w).
  unfold poll_interval. lra.
Qed.

End GenerateFacts.

(** ** Lemmas: what a poll decides, reply by reply *)

Section DecisionFacts.
Context `{PyRepr}.

Lemma poll_decide_exception e elapsed :
  poll_decide {| reply_result := Raise e; reply_elapsed := elapsed |} = Abort e.
Proof. done. Qed.

Lemma poll_decide_not_200 reply response :
  reply_result reply = Ok response → status_code response ≠ 200%Z →
  poll_decide reply = Retry.
Proof.
  intros E Hc. unfold poll_decide. rewrite E.
  by destruct (Z.eqb_spec (status_code response) 200).
Qed.

Lemma poll_decide_not_json reply response e :
  reply_result reply = Ok response → status_code response = 200%Z →
  resp_json response = Raise e → poll_decide reply = Abort e.
Proof. intros E Hc Hj. unfold poll_decide. by rewrite E, Hc, Hj. Qed.

Lemma poll_decide_status reply response status_result status :
  reply_result reply = Ok response → status_code response = 200%Z →
  resp_json response = Ok status_result → status_of status_result = Ok status →
  poll_decide reply
  = if String.eqb status "completed" then decide_completed status_result
    else if String.eqb status "failed" then decide_failed status_result
    else if str_in status ["processing"; "pending"; "staged"]
    then decide_waiting status_result
    else Retry.
Proof. intros E Hc Hj Hs. unfold poll_decide. by rewrite E, Hc, Hj, Hs. Qed.

End DecisionFacts.

(** ** Theorems: the runs of [generate_image] *)

Section GenerateTheorems.
Context {R : Type} `{Remote R} `{Vision} `{ImageCodec} `{PyRepr}.
Implicit Types w : World R.

(** C1: when the submission is accepted and the next thirty replies to the
    status request all leave the task in progress, [generate_image] raises
    the time-out failure, after exactly thirty GET requests and one POST,
    300 seconds of sleep and without writing any file. *)
Theorem generate_image_times_out self prompt w reply r1 task_id :
  serve (submit_request self prompt) (remote w) = (reply, r1) →
  submitted reply = Ok task_id →
  retries max_polls (status_request self task_id) r1 = true →
  let t := trace (exec (generate_image self prompt) w) in
  run (generate_image self prompt) w
  = Raise ("Failed to generate image with Midjourney: "
           +:+ "Timed out waiting for Midjourney task to complete") ∧
  count_requests GET t = (count_requests GET (trace w) + 30)%nat ∧
  count_requests POST t = (count_requests POST (trace w) + 1)%nat ∧
  (total_sleep t == total_sleep (trace w) + 300)%Q ∧
  writes_of t = writes_of (trace w).
Proof.
  intros E Hs Hr t. subst t. unfold run, exec.
  rewrite (generate_image_wrap_raise _ _ _ _ _
             (generate_image_try_timeout _ _ _ _ _ _ E Hs Hr)). cbn [fst snd].
  destruct (after_polls_counts max_polls (status_request self task_id)
              (after_request (submit_request self prompt) reply r1 w) eq_refl)
    as (-> & -> & -> & ->).
  destruct (after_request_counts (submit_request self prompt) reply r1 w)
    as (-> & -> & -> & ->).
  change (inject_Z (Z.of_nat max_polls)) with 30%Q.
  simpl. unfold max_polls. repeat split; first [done | lia | lra].
Qed.

(** C2: when the submission is accepted, [k] polls (fewer than thirty) leave
    the task in progress and the next reply makes the poll raise [e]
    (a failed task, a completed task without image URL, an exception of the
    transport, a body that is not JSON), [generate_image] raises [e] behind
    its prefix after exactly [k + 1] GET requests and [10 * k] seconds of
    sleep, without writing any file. *)
Theorem generate_image_aborts self prompt w reply r1 task_id k reply' r2 e :
  serve (submit_request self prompt) (remote w) = (reply, r1) →
  submitted reply = Ok task_id →
  (k < max_polls)%nat →
  retries k (status_request self task_id) r1 = true →
  serve (status_request self task_id) (served k (status_request self task_id) r1)
  = (reply', r2) →
  poll_decide reply' = Abort e →
  let t := trace (exec (generate_image self prompt) w) in
  run (generate_image self prompt) w
  = Raise ("Failed to generate image with Midjourney: " +:+ e) ∧
  count_requests GET t = (count_requests GET (trace w) + k + 1)%nat ∧
  (total_sleep t == total_sleep (trace w) + inject_Z (Z.of_nat k) * 10)%Q ∧
  writes_of t = writes_of (trace w).
Proof.
  intros E Hs Hk Hr E' D t. subst t. unfold run, exec.
  erewrite generate_image_wrap_raise;
    [| eapply generate_image_try_abort; try done;
       by rewrite after_polls_remote ].
  cbn [fst snd].
  destruct (after_request_counts (status_request self task_id) reply' r2
              (after_polls k (status_request self task_id)
                 (after_request (submit_request self prompt) reply r1 w)))
    as (-> & _ & -> & ->).
  destruct (after_polls_counts k (status_request self task_id)
              (after_request (submit_request self prompt) reply r1 w) eq_refl)
    as (-> & _ & -> & ->).
  destruct (after_request_counts (submit_request self prompt) reply r1 w)
    as (-> & _ & -> & ->).
  simpl. repeat split; first [done | lia | lra].
Qed.

(** C3: when the submission is accepted, [k] polls (fewer than thirty) leave
    the task in progress, the next reply reports a completed task with an
    image URL and no grid, and the download of that URL answers 200,
    [generate_image] returns the web path of a file named after the clock
    as it stands when that poll is answered (at least [10 * k] seconds after
    the call), whose content is the body of the download, after [k + 2] GET
    requests and [10 * k] seconds of sleep. *)
Theorem generate_image_completes self prompt w reply r1 task_id k reply' r2 url
    reply'' r3 response :
  serve (submit_request self prompt) (remote w) = (reply, r1) →
  submitted reply = Ok task_id →
  (k < max_polls)%nat →
  retries k (status_request self task_id) r1 = true →
  serve (status_request self task_id) (served k (status_request self task_id) r1)
  = (reply', r2) →
  poll_decide reply' = Completed url false →
  serve (fetch_request url) r2 = (reply'', r3) →
  reply_result reply'' = Ok response → status_code response = 200%Z →
  let w' := exec (generate_image self prompt) w in
  let w2 := after_request (status_request self task_id) reply' r2
              (after_polls k (status_request self task_id)
                 (after_request (submit_request self prompt) reply r1 w)) in
  let now := py_int (clock w2) in
  run (generate_image self prompt) w
  = Ok ("/static/generated_images/" +:+ final_filename now) ∧
  files w' = <[path_join (generated_images_dir self) (final_filename now)
               := content response]> (files w) ∧
  count_requests GET (trace w') = (count_requests GET (trace w) + k + 2)%nat ∧
  (total_sleep (trace w') == total_sleep (trace w) + inject_Z (Z.of_nat k) * 10)%Q ∧
  (clock w + inject_Z (Z.of_nat k) * 10 <= clock w2)%Q.
Proof.
  intros E Hs Hk Hr E' D E'' Hres Hcode w' w2 now. subst w' now.
  set (w1 := after_request (submit_request self prompt) reply r1 w) in *.
  assert (Hgen : generate_image_try self prompt w = after_download self url reply'' r3 w2).
  { erewrite generate_image_try_completed; try done;
      [| by rewrite after_polls_remote ].
    by apply download_final_run. }
  unfold after_download in Hgen. rewrite Hres, Hcode in Hgen. simpl in Hgen.
  unfold run, exec.
  rewrite (generate_image_wrap_ok _ _ _ _ _ Hgen). cbn [fst snd].
  split; [done|]. split.
  { rewrite after_write_files, after_request_files. unfold w2.
    by rewrite after_request_files, after_polls_files. }
  apply and_assoc. split; [|apply deciding_poll_clock].
  rewrite after_write_trace, count_requests_snoc, total_sleep_snoc.
  destruct (after_request_counts (fetch_request url) reply'' r3 w2) as (-> & _ & -> & _).
  unfold w2, w1.
  destruct (after_request_counts (status_request self task_id) reply' r2
              (after_polls k (status_request self task_id)
                 (after_request (submit_request self prompt) reply r1 w)))
    as (-> & _ & -> & _).
  destruct (after_polls_counts k (status_request self task_id)
              (after_request (submit_request self prompt) reply r1 w) eq_refl)
    as (-> & _ & -> & _).
  destruct (after_request_counts (submit_request self prompt) reply r1 w)
    as (-> & _ & -> & _).
  simpl. split; [lia | lra].
Qed.

(** C4: when the submission is rejected (a status other than 200, a body
    that is not JSON, a response without task identifier, an exception of
    the transport), [generate_image] raises the reason behind its prefix
    after that single POST: no status request is sent and the program does
    not sleep. *)
Theorem generate_image_submission_rejected self prompt w reply r1 e :
  serve (submit_request self prompt) (remote w) = (reply, r1) →
  submitted reply = Raise e →
  run (generate_image self prompt) w
  = Raise ("Failed to generate image with Midjourney: " +:+ e) ∧
  trace (exec (generate_image self prompt) w)
  = trace w ++ [EvRequest (submit_request self prompt)].
Proof.
  intros E Hs. unfold run, exec.
  by rewrite (generate_image_wrap_raise _ _ _ _ _
                (generate_image_try_rejected _ _ _ _ _ _ E Hs)).
Qed.

(** C25: when the task completes with a grid after [k] polls, the branch
    answers a URL and the download of that URL answers 200, [generate_image]
    returns the web path of a file that holds the body of that download: the
    upscaled image when the branch answered the upscaled URL, the grid when
    it fell back.  The file is named after the clock as the branch left it,
    and the last request of the run is that download. *)
Theorem generate_image_downloads_chosen self prompt w reply r1 task_id k reply' r2
    url final_url w3 reply'' r3 response :
  serve (submit_request self prompt) (remote w) = (reply, r1) →
  submitted reply = Ok task_id →
  (k < max_polls)%nat →
  retries k (status_request self task_id) r1 = true →
  serve (status_request self task_id) (served k (status_request self task_id) r1)
  = (reply', r2) →
  poll_decide reply' = Completed url true →
  upscale_best self task_id url
    (after_request (status_request self task_id) reply' r2
       (after_polls k (status_request self task_id)
          (after_request (submit_request self prompt) reply r1 w)))
  = (Ok final_url, w3) →
  serve (fetch_request final_url) (remote w3) = (reply'', r3) →
  reply_result reply'' = Ok response → status_code response = 200%Z →
  let w' := exec (generate_image self prompt) w in
  let now := py_int (clock w3) in
  run (generate_image self prompt) w
  = Ok ("/static/generated_images/" +:+ final_filename now) ∧
  files w' = <[path_join (generated_images_dir self) (final_filename now)
               := content response]> (files w3) ∧
  last (requests_of (trace w')) = Some (fetch_request final_url).
Proof.
  intros E Hs Hk Hr E' D Hup E'' Hres Hcode w' now. subst w' now.
  pose proof (generate_image_try_grid _ _ _ _ _ _ _ _ _ _ E Hs Hk Hr E' D) as Hgen.
  unfold bind in Hgen. rewrite Hup, (download_final_run _ _ _ _ _ E'') in Hgen.
  unfold after_download in Hgen. rewrite Hres, Hcode in Hgen. simpl in Hgen.
  unfold run, exec.
  rewrite (generate_image_wrap_ok _ _ _ _ _ Hgen). world_simpl.
  split; [done|]. split; [done|].
  rewrite !requests_of_app. simpl. by rewrite last_snoc.
Qed.

(** C26: when the task completes with a grid and the branch raises [e]
    (the download of the grid raises, the grid cannot be opened, the upscale
    request or one of its polls raises), [generate_image] raises [e] behind
    its prefix and writes no final image. *)
Theorem generate_image_grid_raises self prompt w reply r1 task_id k reply' r2
    url e w3 :
  serve (submit_request self prompt) (remote w) = (reply, r1) →
  submitted reply = Ok task_id →
  (k < max_polls)%nat →
  retries k (status_request self task_id) r1 = true →
  serve (status_request self task_id) (served k (status_request self task_id) r1)
  = (reply', r2) →
  poll_decide reply' = Completed url true →
  upscale_best self task_id url
    (after_request (status_request self task_id) reply' r2
       (after_polls k (status_request self task_id)
          (after_request (submit_request self prompt) reply r1 w)))
  = (Raise e, w3) →
  generate_image self prompt w
  = (Raise ("Failed to generate image with Midjourney: " +:+ e), w3).
Proof.
  intros E Hs Hk Hr E' D Hup.
  apply generate_image_wrap_raise.
  rewrite (generate_image_try_grid _ _ _ _ _ _ _ _ _ _ E Hs Hk Hr E' D).
  unfold bind. by rewrite Hup.
Qed.

End GenerateTheorems.

(** ** The theorems at concrete inputs *)

Lemma generate_image_times_out_witness :
  serve (submit_request demo_generator "a castle") (remote (start_world script_timeout))
  = (accepted_reply "task-1", replicate 30 processing_reply) ∧
  submitted (accepted_reply "task-1") = Ok demo_task ∧
  retries max_polls (status_request demo_generator demo_task)
    (replicate 30 processing_reply) = true ∧
  let t := trace (exec (generate_image demo_generator "a castle")
                    (start_world script_timeout)) in
  run (generate_image demo_generator "a castle") (start_world script_timeout)
  = Raise ("Failed to generate image with Midjourney: "
           +:+ "Timed out waiting for Midjourney task to complete") ∧
  count_requests GET t
  = (count_requests GET (trace (start_world script_timeout)) + 30)%nat ∧
  count_requests POST t
  = (count_requests POST (trace (start_world script_timeout)) + 1)%nat ∧
  (total_sleep t == total_sleep (trace (start_world script_timeout)) + 300)%Q ∧
  writes_of t = writes_of (trace (start_world script_timeout)).
Proof.
  split; [reflexivity|]. split; [reflexivity|]. split; [reflexivity|].
  apply (generate_image_times_out demo_generator "a castle"
           (start_world script_timeout) (accepted_reply "task-1")
           (replicate 30 processing_reply) demo_task); reflexivity.
Defined.

Lemma generate_image_aborts_witness :
  serve (submit_request demo_generator "a castle") (remote (start_world script_failed))
  = (accepted_reply "task-1",
     replicate 2 processing_reply ++ [failed_reply "banned prompt"]) ∧
  submitted (accepted_reply "task-1") = Ok demo_task ∧
  (2 < max_polls)%nat ∧
  retries 2 (status_request demo_generator demo_task)
    (replicate 2 processing_reply ++ [failed_reply "banned prompt"]) = true ∧
  serve (status_request demo_generator demo_task)
    (served 2 (status_request demo_generator demo_task)
       (replicate 2 processing_reply ++ [failed_reply "banned prompt"]))
  = (failed_reply "banned prompt", []) ∧
  poll_decide (failed_reply "banned prompt")
  = Abort "Midjourney task failed: banned prompt" ∧
  let t := trace (exec (generate_image demo_generator "a castle")
                    (start_world script_failed)) in
  run (generate_image demo_generator "a castle") (start_world script_failed)
  = Raise ("Failed to generate image with Midjourney: "
           +:+ "Midjourney task failed: banned prompt") ∧
  count_requests GET t
  = (count_requests GET (trace (start_world script_failed)) + 2 + 1)%nat ∧
  (total_sleep t
   == total_sleep (trace (start_world script_failed)) + inject_Z (Z.of_nat 2) * 10)%Q ∧
  writes_of t = writes_of (trace (start_world script_failed)).
Proof.
  split; [reflexivity|]. split; [reflexivity|]. split; [unfold max_polls; lia|].
  split; [reflexivity|]. split; [reflexivity|]. split; [reflexivity|].
  apply (generate_image_aborts demo_generator "a castle" (start_world script_failed)
           (accepted_reply "task-1")
           (replicate 2 processing_reply ++ [failed_reply "banned prompt"])
           demo_task 2 (failed_reply "banned prompt") []
           "Midjourney task failed: banned prompt");
    first [reflexivity | unfold max_polls; lia].
Defined.

(** A remote that reports the task in progress for 29 polls and completed
    on the thirtieth: the image is fetched and stored. *)

Lemma generate_image_completes_witness :
  let w := start_world script_single in
  let rest := replicate 29 processing_reply
              ++ [completed_reply "https://cdn/final.jpg" []; body_reply 200 "JPEG"] in
  let response := {| status_code := 200; text := "JPEG"; content := "JPEG";
                     resp_json := Raise "Expecting value: line 1 column 1 (char 0)" |} in
  serve (submit_request demo_generator "a castle") (remote w)
  = (accepted_reply "task-1", rest) ∧
  submitted (accepted_reply "task-1") = Ok demo_task ∧
  (29 < max_polls)%nat ∧
  retries 29 (status_request demo_generator demo_task) rest = true ∧
  serve (status_request demo_generator demo_task)
    (served 29 (status_request demo_generator demo_task) rest)
  = (completed_reply "https://cdn/final.jpg" [], [body_reply 200 "JPEG"]) ∧
  poll_decide (completed_reply "https://cdn/final.jpg" [])
  = Completed (PyStr "https://cdn/final.jpg") false ∧
  serve (fetch_request (PyStr "https://cdn/final.jpg")) [body_reply 200 "JPEG"]
  = (body_reply 200 "JPEG", []) ∧
  reply_result (body_reply 200 "JPEG") = Ok response ∧
  status_code response = 200%Z ∧
  let w' := exec (generate_image demo_generator "a castle") w in
  let w2 := after_request (status_request demo_generator demo_task)
              (completed_reply "https://cdn/final.jpg" []) [body_reply 200 "JPEG"]
              (after_polls 29 (status_request demo_generator demo_task)
                 (after_request (submit_request demo_generator "a castle")
                    (accepted_reply "task-1") rest w)) in
  let now := py_int (clock w2) in
  run (generate_image demo_generator "a castle") w
  = Ok ("/static/generated_images/" +:+ final_filename now) ∧
  files w' = <[path_join (generated_images_dir demo_generator) (final_filename now)
               := content response]> (files w) ∧
  count_requests GET (trace w') = (count_requests GET (trace w) + 29 + 2)%nat ∧
  (total_sleep (trace w') == total_sleep (trace w) + inject_Z (Z.of_nat 29) * 10)%Q ∧
  (clock w + inject_Z (Z.of_nat 29) * 10 <= clock w2)%Q.
Proof.
  intros w rest response.
  split; [reflexivity|]. split; [reflexivity|]. split; [unfold max_polls; lia|].
  split; [reflexivity|]. split; [reflexivity|]. split; [reflexivity|].
  split; [reflexivity|]. split; [reflexivity|]. split; [reflexivity|].
  apply (generate_image_completes demo_generator "a castle" w
           (accepted_reply "task-1") rest demo_task 29
           (completed_reply "https://cdn/final.jpg" []) [body_reply 200 "JPEG"]
           (PyStr "https://cdn/final.jpg") (body_reply 200 "JPEG") [] response);
    first [reflexivity | unfold max_polls; lia].
Defined.

Example generate_image_single_demo :
  run (generate_image demo_generator "a castle") (start_world script_single)
  = Ok "/static/generated_images/midjourney_1700000290.jpg".
Proof. vm_compute. reflexivity. Qed.

Lemma generate_image_submission_rejected_witness :
  serve (submit_request demo_generator "a castle") (remote (start_world script_rejected))
  = (data_reply 200 [], []) ∧
  submitted (data_reply 200 []) = Raise "No task_id in Midjourney API response" ∧
  run (generate_image demo_generator "a castle") (start_world script_rejected)
  = Raise ("Failed to generate image with Midjourney: "
           +:+ "No task_id in Midjourney API response") ∧
  trace (exec (generate_image demo_generator "a castle") (start_world script_rejected))
  = trace (start_world script_rejected)
    ++ [EvRequest (submit_request demo_generator "a castle")].
Proof.
  split; [reflexivity|]. split; [reflexivity|].
  apply (generate_image_submission_rejected demo_generator "a castle"
           (start_world script_rejected) (data_reply 200 []) []
           "No task_id in Midjourney API response"); reflexivity.
Defined.

Lemma generate_image_downloads_chosen_witness :
  let w := start_world script_upscaled in
  let submit := submit_request demo_generator "a castle" in
  let status := status_request demo_generator demo_task in
  let w2 := after_request status grid_reply (drop 3 script_upscaled)
              (after_polls 1 status
                 (after_request submit (accepted_reply "task-1")
                    (drop 1 script_upscaled) w)) in
  let w3 := exec (upscale_best demo_generator demo_task demo_grid_url) w2 in
  let response := {| status_code := 200; text := "UPSCALED"; content := "UPSCALED";
                     resp_json := Raise "Expecting value: line 1 column 1 (char 0)" |} in
  serve submit (remote w) = (accepted_reply "task-1", drop 1 script_upscaled) ∧
  submitted (accepted_reply "task-1") = Ok demo_task ∧
  (1 < max_polls)%nat ∧
  retries 1 status (drop 1 script_upscaled) = true ∧
  serve status (served 1 status (drop 1 script_upscaled))
  = (grid_reply, drop 3 script_upscaled) ∧
  poll_decide grid_reply = Completed demo_grid_url true ∧
  upscale_best demo_generator demo_task demo_grid_url w2 = (Ok demo_upscaled_url, w3) ∧
  serve (fetch_request demo_upscaled_url) (remote w3) = (body_reply 200 "UPSCALED", []) ∧
  reply_result (body_reply 200 "UPSCALED") = Ok response ∧
  status_code response = 200%Z ∧
  let w' := exec (generate_image demo_generator "a castle") w in
  let now := py_int (clock w3) in
  run (generate_image demo_generator "a castle") w
  = Ok ("/static/generated_images/" +:+ final_filename now) ∧
  files w' = <[path_join (generated_images_dir demo_generator) (final_filename now)
               := content response]> (files w3) ∧
  last (requests_of (trace w')) = Some (fetch_request demo_upscaled_url).
Proof.
  intros w submit status w2 w3 response.
  do 2 (split; [reflexivity|]). split; [unfold max_polls; lia|].
  do 3 (split; [reflexivity|]). split; [by_computation|].
  split; [by_computation|]. do 2 (split; [reflexivity|]).
  apply (generate_image_downloads_chosen demo_generator "a castle" w
           (accepted_reply "task-1") (drop 1 script_upscaled) demo_task 1
           grid_reply (drop 3 script_upscaled) demo_grid_url demo_upscaled_url w3
           (body_reply 200 "UPSCALED") [] response);
    first [by_computation | unfold max_polls; lia].
Defined.

Lemma generate_image_grid_raises_witness :
  let script := [accepted_reply "task-1"; grid_reply; body_reply 200 "x"] in
  let w := start_world script in
  let submit := submit_request demo_generator "a castle" in
  let status := status_request demo_generator demo_task in
  let w2 := after_request status grid_reply (drop 2 script)
              (after_polls 0 status
                 (after_request submit (accepted_reply "task-1") (drop 1 script) w)) in
  let w3 := exec (upscale_best demo_generator demo_task demo_grid_url) w2 in
  serve submit (remote w) = (accepted_reply "task-1", drop 1 script) ∧
  submitted (accepted_reply "task-1") = Ok demo_task ∧
  (0 < max_polls)%nat ∧
  retries 0 status (drop 1 script) = true ∧
  serve status (served 0 status (drop 1 script)) = (grid_reply, drop 2 script) ∧
  poll_decide grid_reply = Completed demo_grid_url true ∧
  upscale_best demo_generator demo_task demo_grid_url w2
  = (Raise "cannot identify image file", w3) ∧
  generate_image demo_generator "a castle" w
  = (Raise ("Failed to generate image with Midjourney: "
            +:+ "cannot identify image file"), w3).
Proof.
  intros script w submit status w2 w3.
  do 2 (split; [reflexivity|]). split; [unfold max_polls; lia|].
  do 3 (split; [reflexivity|]). split; [by_computation|].
  apply (generate_image_grid_raises demo_generator "a castle" w
           (accepted_reply "task-1") (drop 1 script) demo_task 0
           grid_reply (drop 2 script) demo_grid_url);
    first [by_computation | unfold max_polls; lia].
Defined.

(** The whole run on a task that completes with a grid: the top-right cell
    is upscaled and the upscaled image is what the returned path holds; when
    the upscale is refused or fails, the grid is. *)

Example generate_image_upscaled_demo :
  let w' := exec (generate_image demo_generator "a castle") (start_world script_upscaled) in
  run (generate_image demo_generator "a castle") (start_world script_upscaled)
  = Ok "/static/generated_images/midjourney_1700000030.jpg" ∧
  files w' !! "/app/src/web_interface/static/generated_images/midjourney_1700000030.jpg"
  = Some "UPSCALED" ∧
  files w' !! "/app/src/web_interface/static/generated_images/midjourney_grid_1700000010.jpg"
  = Some demo_grid_file ∧
  count_requests GET (trace w') = 7%nat ∧ count_requests POST (trace w') = 2%nat.
Proof. by_computation. Qed.

Example generate_image_fallback_demo :
  let w' := exec (generate_image demo_generator "a castle")
              (start_world script_upscale_refused) in
  run (generate_image demo_generator "a castle") (start_world script_upscale_refused)
  = Ok "/static/generated_images/midjourney_1700000000.jpg" ∧
  files w' !! "/app/src/web_interface/static/generated_images/midjourney_1700000000.jpg"
  = Some "GRID".
Proof. by_computation. Qed.

Example generate_image_upscale_failed_demo :
  let w' := exec (generate_image demo_generator "a castle")
              (start_world script_upscale_failed) in
  run (generate_image demo_generator "a castle") (start_world script_upscale_failed)
  = Ok "/static/generated_images/midjourney_1700000010.jpg" ∧
  files w' !! "/app/src/web_interface/static/generated_images/midjourney_1700000010.jpg"
  = Some "GRID".
Proof. by_computation. Qed.

(** ** What single replies make the generator do *)

(** The body of the submission's response is decoded before its status is
    looked at: a refusal whose body is not JSON is reported as a decoding
    error, without the status. *)

Example submitted_error_body :
  submitted (body_reply 500 "Internal Server Error")
  = Raise "Expecting value: line 1 column 1 (char 0)" ∧
  submitted (json_reply 500 (PyDict []))
  = Raise "Midjourney API error: 500 - json".
Proof. by_computation. Qed.

(** A task in progress whose [output] is [null]: the lookup of the progress
    raises, and the poll ends the generation although the task goes on. *)

Example poll_decide_null_output :
  poll_decide (data_reply 200 [("status", PyStr "processing"); ("output", PyNone)])
  = Abort "'NoneType' object has no attribute 'get'".
Proof. by_computation. Qed.

(** An exception of the transport during a poll ends the generation; a
    status other than 200 only costs the attempt. *)

Example poll_decide_transport :
  poll_decide connection_error = Abort "Connection aborted." ∧
  poll_decide (body_reply 503 "unavailable") = Retry.
Proof. by_computation. Qed.

(** A failed task without message, a status in capitals, an unknown status. *)

Example poll_decide_statuses :
  poll_decide (data_reply 200 [("status", PyStr "failed")])
  = Abort "Midjourney task failed: Unknown error" ∧
  poll_decide (data_reply 200 [("status", PyStr "COMPLETED")])
  = Abort "No image_url in completed task" ∧
  poll_decide (data_reply 200 [("status", PyStr "queued")]) = Retry ∧
  poll_decide (data_reply 200 []) = Retry.
Proof. by_computation. Qed.
