(* ===== verification/Poller.v ===== *)
(** * The task poller as a state machine

    The polling loop of [generate_image] against the state machine that the
    design describes for it: a task is waited for during at most thirty
    attempts and ends completed, failed or timed out.  The machine is a step
    relation on abstract states, labelled by what a reply decides
    ([Generator.poll_decide]); its runs against a remote are deterministic
    and end within [max_polls] attempts, and [poll_until_terminal] computes
    them.  The refinement theorem shows that the loop of [generate_image] is
    that machine followed, for a completed task, by the grid branch and the
    final download. *)

From stdpp Require Import base option list strings pretty gmap.
From Stdlib Require Import QArith Qminmax Qround Lqa.
From S2P Require Import Prelude Python World Budget Image Doubles ImageAnalyzer.
From S2P Require Import Service Upscale Generator.

Open Scope string_scope.
Open Scope list_scope.

(** ** The machine *)

(** [Waiting n]: [n] polls were answered and the task is still in progress.
    The terminal states record the number of polls that waited before the
    one that decided. *)

Inductive poller_state : Type :=
| Waiting (attempt : nat)
| Finished (waited : nat) (image_url : pyval) (grid : bool)
| Failed (waited : nat) (reason : string)
| Exhausted.

Definition is_terminal (s : poller_state) : bool :=
  match s with Waiting _ => false | _ => true end.

(** The number of status requests that were answered when the machine is in
    a state. *)

Definition polls_made (s : poller_state) : nat :=
  match s with
  | Waiting n => n
  | Finished k _ _ | Failed k _ => S k
  | Exhausted => max_polls
  end.

Inductive poller_step : poller_state → poll_decision → poller_state → Prop :=
| step_wait n :
    (S n < max_polls)%nat → poller_step (Waiting n) Retry (Waiting (S n))
| step_exhaust n :
    S n = max_polls → poller_step (Waiting n) Retry Exhausted
| step_finish n image_url grid :
    (n < max_polls)%nat →
    poller_step (Waiting n) (Completed image_url grid) (Finished n image_url grid)
| step_fail n reason :
    (n < max_polls)%nat → poller_step (Waiting n) (Abort reason) (Failed n reason).

(** The terminal state shifted by [n] polls that waited before. *)

Definition later (n : nat) (s : poller_state) : poller_state :=
  match s with
  | Waiting k => Waiting (n + k)
  | Finished k image_url grid => Finished (n + k) image_url grid
  | Failed k reason => Failed (n + k) reason
  | Exhausted => Exhausted
  end.

Section Machine.
Context {R : Type} `{Remote R} `{PyRepr}.

(** The runs of the machine against a remote that answers [req]. *)

Inductive poller_run (req : Request) : poller_state → R → poller_state → Prop :=
| run_here s r : poller_run req s r s
| run_step s r reply r' s' s'' :
    serve req r = (reply, r') →
    poller_step s (poll_decide reply) s' →
    poller_run req s' r' s'' →
    poller_run req s r s''.

(** The machine as a function: at most [left] polls, counted from 0. *)

Fixpoint poller_exec (left : nat) (req : Request) (r : R) : poller_state :=
  match left with
  | O => Exhausted
  | S left' =>
      let '(reply, r') := serve req r in
      match poll_decide reply with
      | Retry => later 1 (poller_exec left' req r')
      | Completed image_url grid => Finished 0 image_url grid
      | Abort reason => Failed 0 reason
      end
  end.

Definition poll_until_terminal (req : Request) (r : R) : poller_state :=
  poller_exec max_polls req r.

End Machine.

(** ** What the loop of [generate_image] makes of a terminal state *)

Section Outcome.
Context {R : Type} `{Remote R} `{Vision} `{ImageCodec} `{PyRepr}.

Definition loop_outcome (self : AIContentGenerator) (task_id : pyval) (left : nat)
    (w : World R) (s : poller_state) : outcome (option string) * World R :=
  let req := status_request self task_id in
  match s with
  | Finished k image_url grid =>
      bind (bind (if grid then upscale_best self task_id image_url else ret image_url)
              (download_final self))
        (λ path, ret (Some path))
        (exec (http req) (after_polls k req w))
  | Failed k reason => (Raise reason, exec (http req) (after_polls k req w))
  | Exhausted | Waiting _ => (Ok None, after_polls left req w)
  end.

End Outcome.

(** ** Lemmas: the machine *)

Section StepFacts.

Lemma poller_step_deterministic s d s1 s2 :
  poller_step s d s1 → poller_step s d s2 → s1 = s2.
Proof. destruct 1; inversion 1; subst; first [done | lia]. Qed.

Lemma poller_step_from_waiting s d s' : poller_step s d s' → is_terminal s = false.
Proof. by destruct 1. Qed.

Lemma poller_step_polls s d s' :
  poller_step s d s' → polls_made s' = S (polls_made s) ∧ (polls_made s' ≤ max_polls)%nat.
Proof. destruct 1; simpl; lia. Qed.

Lemma later_later n m s : later n (later m s) = later (n + m) s.
Proof. destruct s; simpl; f_equal; lia. Qed.

Lemma later_0 s : later 0 s = s.
Proof. by destruct s. Qed.

Lemma is_terminal_later n s : is_terminal (later n s) = is_terminal s.
Proof. by destruct s. Qed.

End StepFacts.

Section RunFacts.
Context {R : Type} `{Remote R} `{PyRepr}.
Implicit Types r : R.

Lemma poller_exec_terminal left req r : is_terminal (poller_exec left req r) = true.
Proof.
  revert r. induction left as [|left IH]; intros r; [done|]. simpl.
  destruct (serve req r) as [reply r'].
  destruct (poll_decide reply); [|done..]. by rewrite is_terminal_later.
Qed.

(** From [Waiting n], with as many polls left as the bound allows, the
    machine runs to the state that [poller_exec] computes. *)

Lemma poller_exec_run left req n r :
  (0 < left)%nat → (n + left)%nat = max_polls →
  poller_run req (Waiting n) r (later n (poller_exec left req r)).
Proof.
  revert n r. induction left as [|left IH]; intros n r Hpos Hsum; [lia|].
  simpl. destruct (serve req r) as [reply r'] eqn:E.
  destruct (poll_decide reply) as [|url grid|e] eqn:D.
  - rewrite later_later. destruct left as [|left].
    + eapply run_step; [done| |apply run_here]. rewrite D. apply step_exhaust. lia.
    + eapply run_step; [done| |].
      * rewrite D. apply step_wait. lia.
      * replace (n + 1)%nat with (S n) by lia. apply IH; lia.
  - eapply run_step; [done| |apply run_here]. rewrite D. simpl.
    rewrite Nat.add_0_r. apply step_finish. lia.
  - eapply run_step; [done| |apply run_here]. rewrite D. simpl.
    rewrite Nat.add_0_r. apply step_fail. lia.
Qed.

(** Runs are deterministic: a state has at most one terminal state that it
    runs to. *)

Lemma poller_run_deterministic req s r t1 t2 :
  poller_run req s r t1 → is_terminal t1 = true →
  poller_run req s r t2 → is_terminal t2 = true → t1 = t2.
Proof.
  intros Hrun1. revert t2.
  induction Hrun1 as [s r|s r reply r' s' s'' E Hstep Hrun IH]; intros t2 Ht1 Hrun2 Ht2.
  - destruct Hrun2 as [|s r reply r' s' s'' E Hstep _]; [done|].
    apply poller_step_from_waiting in Hstep. congruence.
  - destruct Hrun2 as [|s r reply2 r2 s2 s2'' E2 Hstep2 Hrun2].
    + apply poller_step_from_waiting in Hstep. congruence.
    + rewrite E in E2. injection E2 as <- <-.
      rewrite (poller_step_deterministic _ _ _ _ Hstep2 Hstep) in Hrun2. by apply IH.
Qed.

(** The attempts are bounded along every run. *)

Lemma poller_run_polls req s r s' :
  poller_run req s r s' → (polls_made s ≤ max_polls)%nat →
  (polls_made s ≤ polls_made s' ≤ max_polls)%nat.
Proof.
  induction 1 as [s r|s r reply r' s' s'' E Hstep Hrun IH]; intros Hs; [lia|].
  destruct (poller_step_polls _ _ _ Hstep). lia.
Qed.

End RunFacts.

(** ** Lemmas: the loop against the machine *)

Section LoopFacts.
Context {R : Type} `{Remote R} `{Vision} `{ImageCodec} `{PyRepr}.
Implicit Types w : World R.

(** One poll that waits shifts the outcome by one poll. *)

Lemma loop_outcome_later self task_id left w reply r' s :
  serve (status_request self task_id) (remote w) = (reply, r') →
  is_terminal s = true →
  loop_outcome self task_id (S left) w (later 1 s)
  = loop_outcome self task_id left
      (after_sleep poll_interval (after_request (status_request self task_id) reply r' w))
      s.
Proof.
  intros E Hs. destruct s as [n|k url grid|k e|]; [done|..]; simpl;
    by rewrite E.
Qed.

Lemma poll_loop_refines self task_id left i w :
  for_range_from i left (λ _, poll_once self task_id) w
  = loop_outcome self task_id left w
      (poller_exec left (status_request self task_id) (remote w)).
Proof.
  revert i w. induction left as [|left IH]; intros i w; [done|].
  rewrite for_range_from_S. unfold bind at 1.
  destruct (serve (status_request self task_id) (remote w)) as [reply r'] eqn:E.
  rewrite (poll_once_run _ _ _ _ _ E). cbv zeta. cbn [poller_exec]. rewrite E.
  destruct (poll_decide reply) as [|url grid|e].
  - rewrite (loop_outcome_later _ _ _ _ _ _ _ E) by apply poller_exec_terminal.
    by rewrite IH.
  - unfold loop_outcome. cbn [after_polls]. rewrite (http_exec _ _ _ _ E).
    unfold bind, ret.
    by destruct (if grid then _ else _) as [[u|e] w1];
      [destruct (download_final self u w1) as [[p|e] w2]|].
  - unfold loop_outcome. cbn [after_polls]. by rewrite (http_exec _ _ _ _ E).
Qed.

End LoopFacts.

(** ** Theorem *)

Section PollerTheorems.
Context {R : Type} `{Remote R} `{Vision} `{ImageCodec} `{PyRepr}.
Implicit Types w : World R.

(** C40: [generate_image] refines the state machine of the task poller.
    Once the submission is accepted, the machine has exactly one run from
    [Waiting 0] to a terminal state against the remote, after at most thirty
    polls, and what [generate_image] does is decided by that state: the
    time-out failure when the attempts are exhausted, the reason of a task
    that failed, and for a task that completed after [k] polls that waited
    the grid branch and the final download, in the world after those polls. *)
Theorem generate_image_try_refines_poller self prompt w reply r1 task_id :
  serve (submit_request self prompt) (remote w) = (reply, r1) →
  submitted reply = Ok task_id →
  let req := status_request self task_id in
  let w1 := after_request (submit_request self prompt) reply r1 w in
  let s := poll_until_terminal req r1 in
  poller_run req (Waiting 0) r1 s ∧ is_terminal s = true ∧
  (∀ t, poller_run req (Waiting 0) r1 t → is_terminal t = true → t = s) ∧
  (polls_made s ≤ max_polls)%nat ∧
  generate_image_try self prompt w
  = match s with
    | Finished k image_url grid =>
        bind (if grid then upscale_best self task_id image_url else ret image_url)
          (download_final self) (exec (http req) (after_polls k req w1))
    | Failed k reason => (Raise reason, exec (http req) (after_polls k req w1))
    | Exhausted | Waiting _ =>
        (Raise "Timed out waiting for Midjourney task to complete",
         after_polls max_polls req w1)
    end.
Proof.
  intros E Hs req w1 s.
  assert (Hrun : poller_run req (Waiting 0) r1 s).
  { rewrite <- (later_0 s). apply poller_exec_run; unfold max_polls; lia. }
  assert (Ht : is_terminal s = true) by apply poller_exec_terminal.
  split; [done|]. split; [done|]. split.
  { intros t Hrun' Ht'. by apply (poller_run_deterministic req (Waiting 0) r1). }
  split; [apply (poller_run_polls _ _ _ _ Hrun); simpl; lia|].
  rewrite (generate_image_try_started _ _ _ _ _ _ E Hs). unfold for_range.
  rewrite poll_loop_refines. fold req w1. change (remote w1) with r1.
  fold (poll_until_terminal req r1). fold s. unfold loop_outcome. fold req.
  destruct s as [n|k url grid|k e|]; [done| |done..].
  unfold bind, ret.
  by destruct (if grid then _ else _) as [[u|e] w2];
    [destruct (download_final self u w2) as [[p|e] w3]|].
Qed.

End PollerTheorems.

(** ** The theorem at a concrete input

    A task that completes with a single image on the thirtieth poll: the
    machine ends in [Finished 29], and the run is the download of the image
    after twenty-nine polls that waited. *)

Lemma generate_image_try_refines_poller_witness :
  let w := start_world script_single in
  let req := status_request demo_generator demo_task in
  let w1 := after_request (submit_request demo_generator "a castle")
              (accepted_reply "task-1") (drop 1 script_single) w in
  serve (submit_request demo_generator "a castle") (remote w)
  = (accepted_reply "task-1", drop 1 script_single) ∧
  submitted (accepted_reply "task-1") = Ok demo_task ∧
  poll_until_terminal req (drop 1 script_single)
  = Finished 29 (PyStr "https://cdn/final.jpg") false ∧
  generate_image_try demo_generator "a castle" w
  = download_final demo_generator (PyStr "https://cdn/final.jpg")
      (exec (http req) (after_polls 29 req w1)).
Proof.
  intros w req w1.
  assert (Hs : poll_until_terminal req (drop 1 script_single)
               = Finished 29 (PyStr "https://cdn/final.jpg") false)
    by (vm_compute; reflexivity).
  do 2 (split; [reflexivity|]). split; [exact Hs|].
  destruct (generate_image_try_refines_poller demo_generator "a castle" w
              (accepted_reply "task-1") (drop 1 script_single) demo_task
              eq_refl eq_refl) as (_ & _ & _ & _ & Hgen).
  rewrite Hgen. fold req. rewrite Hs. unfold bind, ret. cbv beta iota. reflexivity.
Defined.

(** The machine on the other scripts: a task that stays in progress, and a
    task that fails on the third poll. *)

Example poll_until_terminal_demo :
  poll_until_terminal (status_request demo_generator demo_task) (drop 1 script_timeout)
  = Exhausted ∧
  poll_until_terminal (status_request demo_generator demo_task) (drop 1 script_failed)
  = Failed 2 "Midjourney task failed: banned prompt".
Proof. by_computation. Qed.
