(* ===== verification/Bounds.v ===== *)
(** * What a run of [generate_image] may cost

    The budget ([Budget]) of [generate_image], for every remote and every
    world: the number of requests of each kind, the seconds of sleep and the
    number of files written are bounded, block by block, and the bound of
    the whole method is attained. *)

From stdpp Require Import base option list strings pretty gmap.
From Stdlib Require Import QArith Qminmax Qround Lqa.
From S2P Require Import Prelude Python World Budget Image Doubles ImageAnalyzer.
From S2P Require Import Service Upscale Generator.

Open Scope string_scope.
Open Scope list_scope.

(** One poll that waits: the status request and the sleep. *)

Definition poll_budget : Budget :=
  {| gets := 1; posts := 0; sleeps := 10; writes := 0 |}.

(** A download that is stored. *)

Definition download_budget : Budget :=
  {| gets := 1; posts := 0; sleeps := 0; writes := 1 |}.

(** The grid branch: the download of the grid, the upscale request and its
    thirty polls. *)

Definition upscale_budget : Budget :=
  {| gets := 31; posts := 1; sleeps := 300; writes := 1 |}.

(** The poll that finds the task completed: the status request, the grid
    branch and the final download. *)

Definition completed_budget : Budget :=
  {| gets := 33; posts := 1; sleeps := 300; writes := 2 |}.

(** [generate_image]: the submission, twenty-nine polls that wait and the
    poll that finds the task completed. *)

Definition generate_image_budget : Budget :=
  {| gets := 62; posts := 2; sleeps := 590; writes := 2 |}.

(** A remote that makes [generate_image] spend all of its budget: the task
    completes with a grid on the thirtieth poll and the upscale is still in
    progress after thirty polls. *)

Definition script_longest : list Reply :=
  accepted_reply "task-1" :: replicate 29 processing_reply
  ++ [grid_reply; body_reply 200 demo_grid_file; accepted_reply "task-2"]
  ++ replicate 30 processing_reply ++ [body_reply 200 "GRID"].

(** The events of the longest run: the submission, twenty-nine polls that
    wait, the poll that finds the grid, the download and the file of the
    grid, the upscale request and its thirty polls, the final download and
    its file. *)

Definition longest_run_events `{PyRepr} (self : AIContentGenerator) (prompt : string)
    (task_id url : pyval) (best : nat) (upscale_task_id : pyval)
    (grid_file final_file : string) : list Event :=
  [EvRequest (submit_request self prompt)]
  ++ polling_events 29 (status_request self task_id)
  ++ [EvRequest (status_request self task_id); EvRequest (fetch_request url);
      EvWrite grid_file; EvRequest (upscale_request self task_id best)]
  ++ polling_events 30 (status_request self upscale_task_id)
  ++ [EvRequest (fetch_request url); EvWrite final_file].

(** ** Lemmas: the budget of each block *)

Section Blocks.
Context {R : Type} `{Remote R} `{Vision} `{ImageCodec} `{PyRepr}.
Implicit Types w : World R.

Lemma spends_poll_sleep :
  spends (time_sleep poll_interval : M (World R) unit) (sleep_for 10).
Proof. apply spends_time_sleep. by compute. Qed.

Lemma spends_submit_imagine self prompt : spends (submit_imagine self prompt) one_post.
Proof. unfold submit_imagine. spend_within. Qed.

Lemma spends_download_final self url : spends (download_final self url) download_budget.
Proof. unfold download_final. spend_within. Qed.

Lemma spends_upscale_poll_once self upscale_task_id :
  spends (upscale_poll_once self upscale_task_id) poll_budget.
Proof. unfold upscale_poll_once. pose proof spends_poll_sleep. spend_within. Qed.

Lemma spends_request_upscale self task_id url best :
  spends (request_upscale self task_id url best)
    {| gets := 30; posts := 1; sleeps := 300; writes := 0 |}.
Proof.
  unfold request_upscale. pose proof spends_upscale_poll_once. spend_within.
Qed.

Lemma spends_upscale_best self task_id url :
  spends (upscale_best self task_id url) upscale_budget.
Proof. unfold upscale_best. pose proof spends_request_upscale. spend_within. Qed.

(** A program that ends in [return path] never answers [None]. *)

Lemma bind_some_run {A} (m : M (World R) A) w :
  run (bind m (λ a, ret (Some a))) w ≠ Ok None.
Proof. unfold run, bind, ret. by destruct (m w) as [[a|e] w']. Qed.

(** One iteration of the polling loop: it goes on with one request and one
    sleep, or ends the loop within the budget of a completed task. *)

Lemma spends_split_poll_once self task_id :
  spends_split (poll_once self task_id) poll_budget completed_budget.
Proof.
  intros w.
  destruct (serve (status_request self task_id) (remote w)) as [reply r'] eqn:E.
  pose proof (extends_by_request (status_request self task_id) reply r' w) as Hreq.
  unfold run, exec. rewrite (poll_once_run _ _ _ _ _ E). cbv zeta.
  destruct (poll_decide reply) as [|url grid|e]; cbn [fst snd].
  - apply (extends_by_weaken (one_get ⊕ sleep_for 10)); [budget_le|].
    eapply extends_by_trans; [exact Hreq|]. apply extends_by_sleep. by compute.
  - match goal with |- context [bind ?m ?f ?w1] =>
      pose proof (bind_some_run m w1) as Hsome;
      assert (spends (bind m f) (upscale_budget ⊕ download_budget)) as Hm
    end.
    { pose proof spends_upscale_best. pose proof spends_download_final.
      spend_within. }
    specialize (Hm (after_request (status_request self task_id) reply r' w)).
    unfold run, exec in Hsome, Hm.
    destruct (bind _ _ _) as [[[path|]|e] w2]; [|done|];
      (apply (extends_by_weaken (one_get ⊕ (upscale_budget ⊕ download_budget)));
       [budget_le | by eapply extends_by_trans]).
  - by apply (extends_by_weaken one_get); [budget_le|].
Qed.

Lemma spends_generate_image_try self prompt :
  spends (generate_image_try self prompt) generate_image_budget.
Proof.
  unfold generate_image_try, mbind, M_bind. eapply spends_weaken.
  - eapply spends_bind; [apply spends_submit_imagine|]. intros task_id.
    eapply spends_bind; [|intros r; spend].
    unfold for_range. change max_polls with (S 29).
    apply spends_for_range_split. intros i. apply spends_split_poll_once.
  - budget_le.
Qed.

Lemma spends_generate_image self prompt :
  spends (generate_image self prompt) generate_image_budget.
Proof.
  unfold generate_image. pose proof spends_generate_image_try. spend_within.
Qed.

End Blocks.

(** ** Theorems *)

Section BoundTheorems.
Context {R : Type} `{Remote R} `{Vision} `{ImageCodec} `{PyRepr}.
Implicit Types w : World R.

(** C27: whatever the remote answers, one call of [generate_image] only
    adds to the trace, and what it adds is within [generate_image_budget]:
    at most 62 GET requests and 2 POST requests, at most 590 seconds of
    sleep and at most 2 files written; in particular the call terminates. *)
Theorem generate_image_within_budget self prompt w :
  ∃ t, trace (exec (generate_image self prompt) w) = trace w ++ t ∧
       (count_requests GET t ≤ gets generate_image_budget)%nat ∧
       (count_requests POST t ≤ posts generate_image_budget)%nat ∧
       (total_sleep t <= inject_Z (Z.of_nat (sleeps generate_image_budget)))%Q ∧
       (length (writes_of t) ≤ writes generate_image_budget)%nat.
Proof. exact (spends_generate_image self prompt w). Qed.

End BoundTheorems.

(** ** The longest run *)

Section Longest.
Context {R : Type} `{Remote R} `{Vision} `{ImageCodec} `{PyRepr}.
Implicit Types w : World R.

Lemma longest_run_events_counts self prompt task_id url best upscale_task_id
    grid_file final_file :
  let t := longest_run_events self prompt task_id url best upscale_task_id
             grid_file final_file in
  count_requests GET t = 62%nat ∧ count_requests POST t = 2%nat ∧
  (total_sleep t == 590)%Q ∧ writes_of t = [grid_file; final_file].
Proof.
  intros t. subst t. unfold longest_run_events.
  destruct (polling_events_requests 29 (status_request self task_id) eq_refl)
    as [Hg1 Hp1].
  destruct (polling_events_requests 30 (status_request self upscale_task_id) eq_refl)
    as [Hg2 Hp2].
  rewrite !count_requests_app, !total_sleep_app, !writes_of_app.
  rewrite Hg1, Hp1, Hg2, Hp2, !polling_events_sleep, !polling_events_writes.
  by_computation.
Qed.

(** The run on a task that completes with a grid on the thirtieth poll and
    whose upscale is still in progress after thirty polls. *)

Lemma generate_image_longest_run self prompt w reply r1 task_id reply' r2 url
    reply_g r3 response grid_image reply_u r4 upscale_task_id reply_f r5 final :
  serve (submit_request self prompt) (remote w) = (reply, r1) →
  submitted reply = Ok task_id →
  retries 29 (status_request self task_id) r1 = true →
  serve (status_request self task_id) (served 29 (status_request self task_id) r1)
  = (reply', r2) →
  poll_decide reply' = Completed url true →
  serve (fetch_request url) r2 = (reply_g, r3) →
  reply_result reply_g = Ok response → status_code response = 200%Z →
  image_open (content response) = Ok grid_image →
  serve (upscale_request self task_id
           (analyze_grid_image (image_analyzer self) grid_image)) r3
  = (reply_u, r4) →
  upscale_submitted reply_u = Ok (Some upscale_task_id) →
  upscale_waits max_polls (status_request self upscale_task_id) r4 = true →
  serve (fetch_request url) (served max_polls (status_request self upscale_task_id) r4)
  = (reply_f, r5) →
  reply_result reply_f = Ok final → status_code final = 200%Z →
  ∃ path grid_file final_file,
    run (generate_image self prompt) w = Ok path ∧
    trace (exec (generate_image self prompt) w)
    = trace w ++ longest_run_events self prompt task_id url
                   (analyze_grid_image (image_analyzer self) grid_image)
                   upscale_task_id grid_file final_file.
Proof.
  intros E Hs Hr E' D Eg Hres Hcode Hopen Eu Hsub Hw Ef Hfin Hfcode.
  assert (Hk : (29 < max_polls)%nat) by (unfold max_polls; lia).
  pose proof (generate_image_try_grid _ _ _ _ _ _ _ _ _ _ E Hs Hk Hr E' D) as Hgen.
  unfold bind in Hgen.
  erewrite upscale_best_exhausted in Hgen; [|exact Eg|done..].
  erewrite download_final_run in Hgen; [|by rewrite after_polls_remote].
  unfold after_download in Hgen. rewrite Hfin, Hfcode in Hgen.
  change (200 =? 200)%Z with true in Hgen. cbv beta iota zeta in Hgen. cbn [negb] in Hgen.
  eexists _, _, _. unfold run, exec.
  rewrite (generate_image_wrap_ok _ _ _ _ _ Hgen). split; [done|].
  unfold after_grid, longest_run_events. world_simpl. reflexivity.
Qed.

End Longest.

Section AttainedTheorems.
Context {R : Type} `{Remote R} `{Vision} `{ImageCodec} `{PyRepr}.
Implicit Types w : World R.

(** C29: the budget of [generate_image] is attained, for every generator,
    prompt and world: when the task completes with a grid on the thirtieth
    poll, the grid is downloaded and opens, the upscale is accepted and still
    in progress after thirty polls, and the final download answers 200, the
    call succeeds after exactly 62 GET requests, 2 POST requests, 590 seconds
    of sleep and 2 writes. *)
Theorem generate_image_budget_attained self prompt w reply r1 task_id reply' r2 url
    reply_g r3 response grid_image reply_u r4 upscale_task_id reply_f r5 final :
  serve (submit_request self prompt) (remote w) = (reply, r1) →
  submitted reply = Ok task_id →
  retries 29 (status_request self task_id) r1 = true →
  serve (status_request self task_id) (served 29 (status_request self task_id) r1)
  = (reply', r2) →
  poll_decide reply' = Completed url true →
  serve (fetch_request url) r2 = (reply_g, r3) →
  reply_result reply_g = Ok response → status_code response = 200%Z →
  image_open (content response) = Ok grid_image →
  serve (upscale_request self task_id
           (analyze_grid_image (image_analyzer self) grid_image)) r3
  = (reply_u, r4) →
  upscale_submitted reply_u = Ok (Some upscale_task_id) →
  upscale_waits max_polls (status_request self upscale_task_id) r4 = true →
  serve (fetch_request url) (served max_polls (status_request self upscale_task_id) r4)
  = (reply_f, r5) →
  reply_result reply_f = Ok final → status_code final = 200%Z →
  is_ok (run (generate_image self prompt) w) = true ∧
  ∃ t, trace (exec (generate_image self prompt) w) = trace w ++ t ∧
       count_requests GET t = gets generate_image_budget ∧
       count_requests POST t = posts generate_image_budget ∧
       (total_sleep t == inject_Z (Z.of_nat (sleeps generate_image_budget)))%Q ∧
       length (writes_of t) = writes generate_image_budget.
Proof.
  intros E Hs Hr E' D Eg Hres Hcode Hopen Eu Hsub Hw Ef Hfin Hfcode.
  destruct (generate_image_longest_run _ _ _ _ _ _ _ _ _ _ _ _ _ _ _ _ _ _ _
              E Hs Hr E' D Eg Hres Hcode Hopen Eu Hsub Hw Ef Hfin Hfcode)
    as (path & grid_file & final_file & Hrun & Ht).
  rewrite Hrun. split; [done|]. eexists. split; [exact Ht|].
  destruct (longest_run_events_counts self prompt task_id url
              (analyze_grid_image (image_analyzer self) grid_image)
              upscale_task_id grid_file final_file) as (-> & -> & -> & ->).
  by_computation.
Qed.

End AttainedTheorems.

(** ** The theorems at concrete inputs *)

Lemma generate_image_budget_attained_witness :
  let w' := exec (generate_image demo_generator "a castle") (start_world script_longest) in
  is_ok (run (generate_image demo_generator "a castle") (start_world script_longest))
  = true ∧
  count_requests GET (trace w') = 62%nat ∧
  count_requests POST (trace w') = 2%nat ∧
  (total_sleep (trace w') == 590)%Q ∧
  length (writes_of (trace w')) = 2%nat.
Proof.
  intros w'.
  destruct (generate_image_budget_attained demo_generator "a castle"
              (start_world script_longest)
              (accepted_reply "task-1") (drop 1 script_longest) demo_task
              grid_reply (drop 31 script_longest) demo_grid_url
              (body_reply 200 demo_grid_file) (drop 32 script_longest)
              demo_grid_response demo_grid_image
              (accepted_reply "task-2") (drop 33 script_longest) demo_upscale_task
              (body_reply 200 "GRID") []
              {| status_code := 200; text := "GRID"; content := "GRID";
                 resp_json := Raise "Expecting value: line 1 column 1 (char 0)" |})
    as (Hok & t & Ht & Hg & Hp & Hs & Hw); [by_computation..|].
  subst w'. rewrite Ht. change (trace (start_world script_longest)) with (@nil Event).
  rewrite app_nil_l, Hg, Hp, Hs, Hw. by_computation.
Defined.
