(* ===== verification/Batch.v ===== *)
(** * Construction, content packages and batches

    The remaining methods of [AIContentGenerator]: [__init__] with the probe
    of the API keys ([_test_api_keys]), [generate_historical_content] and
    [generate_batch_content].  The theorems show what the constructor builds
    and that it raises when the operating system refuses one of its
    directories, which flags the probe sets on which replies, that a content
    package is a record and never an exception, that the repository as it
    stands (without the methods [generate_image_prompt] and
    [generate_caption]) only produces failure records, and that a batch
    holds one record for each item with a random pause between two items. *)

From stdpp Require Import base option list strings pretty gmap.
From Stdlib Require Import QArith Qminmax Qround Lqa.
From S2P Require Import Prelude Python World Budget Image Doubles ImageAnalyzer Service Generator.

Open Scope string_scope.
Open Scope list_scope.

(** ** Values built by the probe of the OpenAI key *)

Definition openai_headers (self : AIContentGenerator) : pyval :=
  PyDict [("Content-Type", PyStr "application/json");
          ("Authorization",
           PyStr ("Bearer " +:+ default "None" (openai_api_key self)))].

Definition openai_test_data : pyval :=
  PyDict [("model", PyStr "gpt-3.5-turbo");
          ("messages", PyList [PyDict [("role", PyStr "user");
                                       ("content", PyStr "test")]]);
          ("max_tokens", PyInt 5)].

Section Content.
Context {R : Type} `{Remote R} `{Vision} `{ImageCodec} `{PyRepr}.

(** ** [_test_api_keys] *)

Definition test_openai_key (self : AIContentGenerator) : M (World R) AIContentGenerator :=
  if key_present (openai_api_key self) then
    try_catch
      (response ← requests_post (PyStr "https://api.openai.com/v1/chat/completions")
                     (openai_headers self) openai_test_data 10;
       if (status_code response =? 200)%Z
       then mret (set_openai_available true self)
       else mret (set_openai_available false self))
      (λ e, mret (set_openai_available false self))
  else mret self.

Definition test_midjourney_key (self : AIContentGenerator) : M (World R) AIContentGenerator :=
  if key_present (midjourney_api_key self) then
    try_catch
      (response ← requests_post (PyStr (task_url self)) (midjourney_headers self)
                     (imagine_payload "test" true) 10;
       if (status_code response =? 200)%Z then
         result ← lift_outcome (resp_json response);
         task_id ← lift_outcome (get_in result ["data"] "task_id" PyNone);
         if truthy task_id
         then mret (set_midjourney_available true self)
         else mret (set_midjourney_available false self)
       else mret (set_midjourney_available false self))
      (λ e, mret (set_midjourney_available false self))
  else mret self.

Definition _test_api_keys (self : AIContentGenerator)
  : M (World R) (AIContentGenerator * bool) :=
  self ← test_openai_key self;
  self ← test_midjourney_key self;
  mret (self, openai_available self || midjourney_available self).

(** ** [__init__]

    [package_dir] is [os.path.dirname(os.path.dirname(os.path.abspath(__file__)))].
    The object is a record, which has its nine fields from the start: the
    three directories and the analyzer, which the source assigns after the
    probe, are in it before, where [_test_api_keys] reads none of them.  The
    handler of the constructor logs the exception and raises it again. *)

Definition AIContentGenerator_init (package_dir : string)
  : M (World R) AIContentGenerator :=
  try_catch
    (openai_api_key ← os_getenv "OPENAI_API_KEY";
     midjourney_api_key ← os_getenv "MIDJOURNEY_API_KEY";
     midjourney_api_url ← os_getenv_default "MIDJOURNEY_API_URL" "https://api.goapi.ai";
     let static_dir := path_join (path_join package_dir "web_interface") "static" in
     let self :=
       {| openai_api_key := openai_api_key;
          midjourney_api_key := midjourney_api_key;
          midjourney_api_url := midjourney_api_url;
          openai_available := key_present openai_api_key;
          midjourney_available := false;
          static_dir := static_dir;
          generated_images_dir := path_join static_dir "generated_images";
          fallback_images_dir := path_join static_dir "fallback_images";
          image_analyzer := ImageAnalyzer_init |} in
     '(self, _) ← _test_api_keys self;
     os_makedirs (generated_images_dir self);;
     os_makedirs (fallback_images_dir self);;
     mret self)
    (λ e, mthrow e).

(** ** [generate_historical_content] and [generate_batch_content]

    The class calls [self.generate_image_prompt] and [self.generate_caption],
    which it does not define: they are an interface here, and
    [missing_methods] is the class as it stands in the repository. *)

Class ContentMethods := {
  generate_image_prompt : AIContentGenerator → option string → M (World R) string;
  generate_caption : AIContentGenerator → string → option string → M (World R) string
}.

Definition missing_methods : ContentMethods := {|
  generate_image_prompt := λ self theme,
    mthrow "'AIContentGenerator' object has no attribute 'generate_image_prompt'";
  generate_caption := λ self image_prompt theme,
    mthrow "'AIContentGenerator' object has no attribute 'generate_caption'"
|}.

Definition failure_record (error : string) : pyval :=
  PyDict [("success", PyBool false); ("error", PyStr error)].

Definition theme_or_historical (theme : option string) : string :=
  if key_present theme then default "Historical" theme else "Historical".

Definition success_record (theme : option string) (image_prompt image_path caption : string)
  : pyval :=
  PyDict [("success", PyBool true);
          ("theme", PyStr (theme_or_historical theme));
          ("image_prompt", PyStr image_prompt);
          ("image_path", PyStr image_path);
          ("caption", PyStr caption)].

Definition generate_historical_content {methods : ContentMethods}
    (self : AIContentGenerator) (theme : option string) : M (World R) pyval :=
  try_catch
    (image_prompt ← generate_image_prompt self theme;
     image ← try_catch
       (image_path ← generate_image self image_prompt;
        if negb (truthy (PyStr image_path)) then mthrow "Failed to generate image"
        else mret (inr image_path))
       (λ e, mret (inl (failure_record ("Failed to generate image: " +:+ e))));
     match image with
     | inl failure => mret failure
     | inr image_path =>
         caption ← generate_caption self image_prompt theme;
         mret (success_record theme image_prompt image_path caption)
     end)
    (λ e, mret (failure_record e)).

Definition generate_batch_item {methods : ContentMethods} `{Random}
    (self : AIContentGenerator) (count : Z) (theme : option string) (i : nat)
  : M (World R) pyval :=
  content ← generate_historical_content self theme;
  (if (Z.of_nat i <? count - 1)%Z then
     delay ← random_uniform 5 15;
     time_sleep delay
   else mret tt);;
  mret content.

Definition generate_batch_content {methods : ContentMethods} `{Random}
    (self : AIContentGenerator) (count : Z) (theme : option string)
  : M (World R) (list pyval) :=
  for_each (seq 0 (Z.to_nat count)) (generate_batch_item self count theme).

End Content.

(** ** What the probes read in a reply *)

Definition openai_test_request (self : AIContentGenerator) : Request :=
  {| req_method := POST; req_url := PyStr "https://api.openai.com/v1/chat/completions";
     req_headers := openai_headers self; req_json := openai_test_data;
     req_timeout := 10 |}.

Definition midjourney_test_request (self : AIContentGenerator) : Request :=
  {| req_method := POST; req_url := PyStr (task_url self);
     req_headers := midjourney_headers self;
     req_json := imagine_payload "test" true; req_timeout := 10 |}.

Definition openai_probe (reply : Reply) : bool :=
  match reply_result reply with
  | Ok response => (status_code response =? 200)%Z
  | Raise _ => false
  end.

Definition midjourney_probe (reply : Reply) : bool :=
  match reply_result reply with
  | Ok response =>
      (status_code response =? 200)%Z
      && match resp_json response with
         | Ok result =>
             match get_in result ["data"] "task_id" PyNone with
             | Ok task_id => truthy task_id
             | Raise _ => false
             end
         | Raise _ => false
         end
  | Raise _ => false
  end.

(** The object that the constructor hands to [_test_api_keys], by the
    environment, and the first refusal of the two [os.makedirs]. *)

Definition initial_generator (package_dir : string) (env : gmap string string)
  : AIContentGenerator :=
  let static_dir := path_join (path_join package_dir "web_interface") "static" in
  {| openai_api_key := env !! "OPENAI_API_KEY";
     midjourney_api_key := env !! "MIDJOURNEY_API_KEY";
     midjourney_api_url := default "https://api.goapi.ai" (env !! "MIDJOURNEY_API_URL");
     openai_available := key_present (env !! "OPENAI_API_KEY");
     midjourney_available := false;
     static_dir := static_dir;
     generated_images_dir := path_join static_dir "generated_images";
     fallback_images_dir := path_join static_dir "fallback_images";
     image_analyzer := ImageAnalyzer_init |}.

Definition directories_error {R : Type} (w : World R) (self : AIContentGenerator)
  : option string :=
  match makedirs_error w (generated_images_dir self) with
  | Some e => Some e
  | None => makedirs_error w (fallback_images_dir self)
  end.

(** The message of the [AttributeError] that the first missing method
    raises. *)

Definition no_prompt_method : string :=
  "'AIContentGenerator' object has no attribute 'generate_image_prompt'".

(** A pause of the batch is between 5 and 15 seconds. *)

Definition is_pause (e : Event) : Prop :=
  match e with
  | EvSleep d => (5 <= d <= 15)%Q
  | _ => False
  end.

(** The number of pauses after the item [i] of a batch of [count] items,
    [n] items being left. *)

Definition pauses_left (count : Z) (i n : nat) : nat :=
  n `min` Z.to_nat (count - 1 - Z.of_nat i).

(** ** Concrete inputs for the examples *)

(** Methods that answer a fixed prompt and a fixed caption. *)

Definition demo_methods {R : Type} : ContentMethods (R:=R) := {|
  generate_image_prompt := λ self theme, mret "a castle";
  generate_caption := λ self image_prompt theme, mret "A castle at dawn."
|}.

Definition demo_keyless : AIContentGenerator :=
  {| openai_api_key := None;
     midjourney_api_key := None;
     midjourney_api_url := "https://api.goapi.ai";
     openai_available := false;
     midjourney_available := false;
     static_dir := "/app/src/web_interface/static";
     generated_images_dir := "/app/src/web_interface/static/generated_images";
     fallback_images_dir := "/app/src/web_interface/static/fallback_images";
     image_analyzer := ImageAnalyzer_init |}.

Definition script_probes : list Reply :=
  [body_reply 401 "invalid key"; accepted_reply "probe-1"].

(** A process with both keys in its environment, on a volume without
    files; and the same with a regular file in the place of the directory of
    the generated images. *)

Definition demo_init_world : World (list Reply) :=
  {| remote := script_probes; clock := 1700000000; seed := 0;
     environ := {["OPENAI_API_KEY" := "sk-demo"; "MIDJOURNEY_API_KEY" := "mj-demo"]};
     files := ∅; dirs := ∅; refused := ∅; trace := [] |}.

Definition demo_obstructed_world : World (list Reply) :=
  {| remote := script_probes; clock := 1700000000; seed := 0;
     environ := {["OPENAI_API_KEY" := "sk-demo"; "MIDJOURNEY_API_KEY" := "mj-demo"]};
     files := {["/app/src/web_interface/static/generated_images" := "x"]};
     dirs := ∅; refused := ∅; trace := [] |}.

(** ** Lemmas: the probes *)

Section ProbeFacts.
Context {R : Type} `{Remote R} `{Vision} `{ImageCodec} `{PyRepr}.
Implicit Types w : World R.

Lemma test_openai_key_absent self w :
  key_present (openai_api_key self) = false → test_openai_key self w = (Ok self, w).
Proof. intros Hk. unfold test_openai_key. by rewrite Hk. Qed.

Lemma test_openai_key_run self w reply r' :
  key_present (openai_api_key self) = true →
  serve (openai_test_request self) (remote w) = (reply, r') →
  test_openai_key self w
  = (Ok (set_openai_available (openai_probe reply) self),
     after_request (openai_test_request self) reply r' w).
Proof.
  intros Hk E. unfold test_openai_key, openai_probe. rewrite Hk. munfold.
  rewrite (requests_post_serve _ _ _ _ _ _ _ E). fold (openai_test_request self).
  destruct (reply_result reply) as [resp|e]; [simpl|done].
  by destruct (status_code resp =? 200)%Z.
Qed.

Lemma test_midjourney_key_absent self w :
  key_present (midjourney_api_key self) = false →
  test_midjourney_key self w = (Ok self, w).
Proof. intros Hk. unfold test_midjourney_key. by rewrite Hk. Qed.

Lemma test_midjourney_key_run self w reply r' :
  key_present (midjourney_api_key self) = true →
  serve (midjourney_test_request self) (remote w) = (reply, r') →
  test_midjourney_key self w
  = (Ok (set_midjourney_available (midjourney_probe reply) self),
     after_request (midjourney_test_request self) reply r' w).
Proof.
  intros Hk E. unfold test_midjourney_key, midjourney_probe. rewrite Hk. munfold.
  rewrite (requests_post_serve _ _ _ _ _ _ _ E).
  fold (midjourney_test_request self).
  destruct (reply_result reply) as [resp|e]; [simpl|done].
  destruct (status_code resp =? 200)%Z; [simpl|done].
  destruct (resp_json resp) as [j|e]; [simpl|done].
  destruct (get_in j ["data"] "task_id" PyNone) as [t|e]; [simpl|done].
  by destruct (truthy t).
Qed.

(** Each probe answers an object, whatever the remote does. *)

Lemma test_openai_key_flags self w :
  ∃ b w', test_openai_key self w = (Ok (set_openai_available b self), w') ∧
          files w' = files w ∧ dirs w' = dirs w ∧ refused w' = refused w.
Proof.
  destruct (key_present (openai_api_key self)) eqn:Hk.
  - destruct (serve (openai_test_request self) (remote w)) as [reply r'] eqn:E.
    exists (openai_probe reply), (after_request (openai_test_request self) reply r' w).
    by rewrite (test_openai_key_run _ _ _ _ Hk E).
  - exists (openai_available self), w.
    rewrite (test_openai_key_absent _ _ Hk). by destruct self.
Qed.

Lemma test_midjourney_key_flags self w :
  ∃ b w', test_midjourney_key self w = (Ok (set_midjourney_available b self), w') ∧
          files w' = files w ∧ dirs w' = dirs w ∧ refused w' = refused w.
Proof.
  destruct (key_present (midjourney_api_key self)) eqn:Hk.
  - destruct (serve (midjourney_test_request self) (remote w)) as [reply r'] eqn:E.
    exists (midjourney_probe reply),
      (after_request (midjourney_test_request self) reply r' w).
    by rewrite (test_midjourney_key_run _ _ _ _ Hk E).
  - exists (midjourney_available self), w.
    rewrite (test_midjourney_key_absent _ _ Hk). by destruct self.
Qed.

Lemma spends_test_api_keys self :
  spends (_test_api_keys self) {| gets := 0; posts := 2; sleeps := 0; writes := 0 |}.
Proof. unfold _test_api_keys, test_openai_key, test_midjourney_key. spend_within. Qed.

(** The probes only change the two flags, and only requests change the
    world. *)

Lemma _test_api_keys_flags self w :
  ∃ bo bm w',
    _test_api_keys self w
    = (Ok (set_midjourney_available bm (set_openai_available bo self), bo || bm), w') ∧
    files w' = files w ∧ dirs w' = dirs w ∧ refused w' = refused w.
Proof.
  unfold _test_api_keys. munfold.
  destruct (test_openai_key_flags self w) as (bo & w1 & -> & Hf1 & Hd1 & Hr1).
  destruct (test_midjourney_key_flags (set_openai_available bo self) w1)
    as (bm & w2 & -> & Hf2 & Hd2 & Hr2).
  exists bo, bm, w2. by rewrite Hf2, Hd2, Hr2.
Qed.

(** The probes change nothing of what [os.makedirs] depends on. *)

Lemma _test_api_keys_makedirs_error self w path :
  makedirs_error (exec (_test_api_keys self) w) path = makedirs_error w path.
Proof.
  destruct (_test_api_keys_flags self w) as (bo & bm & w' & E & Hf & _ & Hr).
  unfold exec, makedirs_error. rewrite E. cbn [snd]. by rewrite Hf, Hr.
Qed.

Lemma _test_api_keys_total self w : is_ok (run (_test_api_keys self) w) = true.
Proof.
  destruct (_test_api_keys_flags self w) as (bo & bm & w' & E & _).
  unfold run. by rewrite E.
Qed.

(** The constructor, by what the two [os.makedirs] meet after the probe. *)

Lemma AIContentGenerator_init_run package_dir w self b w1 :
  _test_api_keys (initial_generator package_dir (environ w)) w = (Ok (self, b), w1) →
  AIContentGenerator_init package_dir w
  = match makedirs_error w1 (generated_images_dir self) with
    | Some e => (Raise e, w1)
    | None =>
        let w2 := after_makedirs (generated_images_dir self) w1 in
        match makedirs_error w1 (fallback_images_dir self) with
        | Some e => (Raise e, w2)
        | None => (Ok self, after_makedirs (fallback_images_dir self) w2)
        end
    end.
Proof.
  intros E. unfold AIContentGenerator_init, os_getenv, os_getenv_default, os_makedirs.
  munfold. fold (initial_generator package_dir (environ w)). rewrite E. simpl.
  destruct (makedirs_error w1 (generated_images_dir self)); [done|].
  change (makedirs_error (after_makedirs _ w1) ?p) with (makedirs_error w1 p).
  by destruct (makedirs_error w1 (fallback_images_dir self)).
Qed.

End ProbeFacts.

(** ** Lemmas: one content package, by the way it ends *)

Section PackageFacts.
Context {R : Type} `{Remote R} `{Vision} `{ImageCodec} `{PyRepr}.
Context {methods : ContentMethods (R:=R)}.
Implicit Types w : World R.

Lemma generate_historical_content_no_prompt self theme w e w1 :
  generate_image_prompt self theme w = (Raise e, w1) →
  generate_historical_content self theme w = (Ok (failure_record e), w1).
Proof. intros Hp. unfold generate_historical_content. munfold. by rewrite Hp. Qed.

Lemma generate_historical_content_no_image self theme w image_prompt w1 e w2 :
  generate_image_prompt self theme w = (Ok image_prompt, w1) →
  generate_image self image_prompt w1 = (Raise e, w2) →
  generate_historical_content self theme w
  = (Ok (failure_record ("Failed to generate image: " +:+ e)), w2).
Proof.
  intros Hp Hi. unfold generate_historical_content. munfold. by rewrite Hp, Hi.
Qed.

Lemma generate_historical_content_captioned self theme w image_prompt w1
    image_path w2 :
  generate_image_prompt self theme w = (Ok image_prompt, w1) →
  generate_image self image_prompt w1 = (Ok image_path, w2) →
  image_path ≠ EmptyString →
  generate_historical_content self theme w
  = match generate_caption self image_prompt theme w2 with
    | (Ok caption, w3) =>
        (Ok (success_record theme image_prompt image_path caption), w3)
    | (Raise e, w3) => (Ok (failure_record e), w3)
    end.
Proof.
  intros Hp Hi Hne. apply truthy_str in Hne.
  unfold generate_historical_content. munfold. rewrite Hp, Hi, Hne. simpl.
  by destruct (generate_caption self image_prompt theme w2) as [[c|e] w3].
Qed.

Lemma generate_historical_content_empty_path self theme w image_prompt w1 w2 :
  generate_image_prompt self theme w = (Ok image_prompt, w1) →
  generate_image self image_prompt w1 = (Ok EmptyString, w2) →
  generate_historical_content self theme w
  = (Ok (failure_record ("Failed to generate image: " +:+ "Failed to generate image")),
     w2).
Proof.
  intros Hp Hi. unfold generate_historical_content. munfold. by rewrite Hp, Hi.
Qed.

(** The theme of a package: the theme that is passed, unless it is [None]
    or empty. *)

Lemma theme_or_historical_cases theme :
  theme_or_historical theme
  = match theme with Some (String c s) => String c s | _ => "Historical" end.
Proof. by destruct theme as [[|c s]|]. Qed.

(** A content package is always a record. *)

Lemma generate_historical_content_total self theme w :
  ∃ record w', generate_historical_content self theme w = (Ok record, w').
Proof.
  unfold generate_historical_content. munfold.
  destruct (generate_image_prompt self theme w) as [[p|e] w1];
    [|by eexists _, _].
  destruct (generate_image self p w1) as [[path|e] w2]; simpl;
    [|by eexists _, _].
  destruct (String.eqb path EmptyString); simpl; [by eexists _, _|].
  destruct (generate_caption self p theme w2) as [[c|e] w3]; by eexists _, _.
Qed.

Lemma generate_batch_item_total `{Random} self count theme i w :
  is_ok (run (generate_batch_item self count theme i) w) = true.
Proof.
  unfold generate_batch_item. munfold.
  destruct (generate_historical_content_total self theme w) as (record & w' & ->).
  by destruct (Z.of_nat i <? count - 1)%Z.
Qed.

End PackageFacts.

(** ** Lemmas: the class as it stands, without its two methods *)

Section MissingFacts.
Context {R : Type} `{Remote R} `{Vision} `{ImageCodec} `{PyRepr} `{Random}.
Implicit Types w : World R.

Lemma generate_historical_content_missing self theme w :
  generate_historical_content (methods:=missing_methods) self theme w
  = (Ok (failure_record no_prompt_method), w).
Proof. done. Qed.

Lemma generate_batch_item_missing self count theme i w :
  generate_batch_item (methods:=missing_methods) self count theme i w
  = (Ok (failure_record no_prompt_method),
     if (Z.of_nat i <? count - 1)%Z
     then after_sleep (uniform 5 15 (seed w)) (next_seed w)
     else w).
Proof.
  unfold generate_batch_item. munfold. rewrite generate_historical_content_missing.
  by destruct (Z.of_nat i <? count - 1)%Z.
Qed.

Lemma is_pause_uniform s : is_pause (EvSleep (uniform 5 15 s)).
Proof. by apply uniform_range. Qed.

(** The items from [i] on: one failure record each, and a pause after each
    but the last of the batch. *)

Lemma generate_batch_missing_from self count theme n i w :
  ∃ pauses w',
    for_each (seq i n) (generate_batch_item (methods:=missing_methods) self count theme) w
    = (Ok (replicate n (failure_record no_prompt_method)), w') ∧
    trace w' = trace w ++ pauses ∧
    length pauses = pauses_left count i n ∧
    Forall is_pause pauses.
Proof.
  revert i w. induction n as [|n IH]; intros i w.
  { exists [], w. by rewrite app_nil_r. }
  cbn [seq]. rewrite for_each_cons. unfold bind at 1.
  rewrite generate_batch_item_missing. unfold bind, ret.
  destruct (Z.ltb_spec (Z.of_nat i) (count - 1)) as [Hi|Hi].
  - destruct (IH (S i) (after_sleep (uniform 5 15 (seed w)) (next_seed w)))
      as (pauses & w' & -> & Ht & Hl & Hp).
    exists (EvSleep (uniform 5 15 (seed w)) :: pauses), w'.
    split; [done|]. split; [rewrite Ht; simpl; by rewrite <- app_assoc|].
    split; [|by constructor; [apply is_pause_uniform|]].
    simpl. rewrite Hl. unfold pauses_left. lia.
  - destruct (IH (S i) w) as (pauses & w' & -> & Ht & Hl & Hp).
    exists pauses, w'. repeat split; try done.
    rewrite Hl. unfold pauses_left. lia.
Qed.

End MissingFacts.

(** ** Theorems *)

Section PackageTheorems.
Context {R : Type} `{Remote R} `{Vision} `{ImageCodec} `{PyRepr} `{Random}.
Context {methods : ContentMethods (R:=R)}.
Implicit Types w : World R.

(** C30: [generate_historical_content] never raises: whatever the methods
    and the remote do, it answers a record. *)
Theorem generate_historical_content_never_raises self theme w :
  is_ok (run (generate_historical_content self theme) w) = true.
Proof.
  destruct (generate_historical_content_total self theme w) as (record & w' & E).
  unfold run. by rewrite E.
Qed.

(** C31: when the prompt is generated, [generate_image] returns a path that
    is not empty and the caption is generated, the package is the success
    record with the theme ("Historical" when the theme is [None] or the
    empty string), the prompt, the path and the caption. *)
Theorem generate_historical_content_success self theme w image_prompt w1
    image_path w2 caption w3 :
  generate_image_prompt self theme w = (Ok image_prompt, w1) →
  generate_image self image_prompt w1 = (Ok image_path, w2) →
  image_path ≠ EmptyString →
  generate_caption self image_prompt theme w2 = (Ok caption, w3) →
  generate_historical_content self theme w
  = (Ok (PyDict [("success", PyBool true);
                 ("theme", PyStr match theme with
                                 | Some (String c s) => String c s
                                 | _ => "Historical"
                                 end);
                 ("image_prompt", PyStr image_prompt);
                 ("image_path", PyStr image_path);
                 ("caption", PyStr caption)]), w3).
Proof.
  intros Hp Hi Hne Hc.
  rewrite (generate_historical_content_captioned _ _ _ _ _ _ _ Hp Hi Hne).
  rewrite Hc. unfold success_record. by rewrite theme_or_historical_cases.
Qed.

(** C32: when [generate_image] raises [e], the package is the failure
    record with the error "Failed to generate image: e", and no caption is
    requested: the world is the one that [generate_image] left. *)
Theorem generate_historical_content_image_failure self theme w image_prompt w1 e w2 :
  generate_image_prompt self theme w = (Ok image_prompt, w1) →
  generate_image self image_prompt w1 = (Raise e, w2) →
  generate_historical_content self theme w
  = (Ok (PyDict [("success", PyBool false);
                 ("error", PyStr ("Failed to generate image: " +:+ e))]), w2).
Proof. apply generate_historical_content_no_image. Qed.

(** C33: a batch holds exactly one record for each of its items, whatever
    happens to the items: a failure of one does not end the batch. *)
Theorem generate_batch_content_one_record_per_item self count theme w :
  ∃ results,
    run (generate_batch_content self count theme) w = Ok results ∧
    length results = Z.to_nat count.
Proof.
  unfold generate_batch_content.
  destruct (for_each_total (seq 0 (Z.to_nat count))
              (generate_batch_item self count theme) w) as (results & Hr & Hl).
  { intros i w'. apply generate_batch_item_total. }
  exists results. by rewrite Hl, length_seq in *.
Qed.

End PackageTheorems.

Section MissingTheorems.
Context {R : Type} `{Remote R} `{Vision} `{ImageCodec} `{PyRepr} `{Random}.
Implicit Types w : World R.

(** C34: in the repository as it stands the class defines neither
    [generate_image_prompt] nor [generate_caption]: every content package is
    the failure record of the [AttributeError], and nothing is requested
    from the remote. *)
Theorem generate_historical_content_missing_methods self theme w :
  generate_historical_content (methods:=missing_methods) self theme w
  = (Ok (PyDict [("success", PyBool false);
                 ("error", PyStr "'AIContentGenerator' object has no attribute 'generate_image_prompt'")]),
     w).
Proof. apply generate_historical_content_missing. Qed.

(** C35: a batch of the class as it stands answers [count] failure records,
    and what it adds to the trace are [count - 1] pauses, each between 5 and
    15 seconds, one after each item but the last. *)
Theorem generate_batch_content_pauses self count theme w :
  ∃ pauses,
    run (generate_batch_content (methods:=missing_methods) self count theme) w
    = Ok (replicate (Z.to_nat count) (failure_record no_prompt_method)) ∧
    trace (exec (generate_batch_content (methods:=missing_methods) self count theme) w)
    = trace w ++ pauses ∧
    length pauses = (Z.to_nat count - 1)%nat ∧
    Forall is_pause pauses.
Proof.
  destruct (generate_batch_missing_from self count theme (Z.to_nat count) 0 w)
    as (pauses & w' & E & Ht & Hl & Hp).
  exists pauses. unfold run, exec, generate_batch_content. rewrite E.
  repeat split; try done. rewrite Hl. unfold pauses_left. lia.
Qed.

End MissingTheorems.

Section ProbeTheorems.
Context {R : Type} `{Remote R} `{Vision} `{ImageCodec} `{PyRepr}.
Implicit Types w : World R.

(** C36: with both keys present, [_test_api_keys] posts one chat completion
    and then one imagine task with the prompt "test"; OpenAI counts as
    available when the first is answered 200, Midjourney when the second is
    answered 200 with a task identifier; an exception of either request only
    clears its flag.  The method answers whether one of the two is
    available. *)
Theorem _test_api_keys_probes self w reply_o r1 reply_m r2 :
  key_present (openai_api_key self) = true →
  key_present (midjourney_api_key self) = true →
  serve (openai_test_request self) (remote w) = (reply_o, r1) →
  serve (midjourney_test_request self) r1 = (reply_m, r2) →
  run (_test_api_keys self) w
  = Ok (set_midjourney_available (midjourney_probe reply_m)
          (set_openai_available (openai_probe reply_o) self),
        openai_probe reply_o || midjourney_probe reply_m) ∧
  trace (exec (_test_api_keys self) w)
  = trace w ++ [EvRequest (openai_test_request self);
                EvRequest (midjourney_test_request self)].
Proof.
  intros Ho Hm Eo Em. unfold run, exec, _test_api_keys. munfold.
  rewrite (test_openai_key_run _ _ _ _ Ho Eo).
  erewrite test_midjourney_key_run; [|exact Hm|exact Em].
  by world_simpl.
Qed.

(** C37: [_test_api_keys] never raises, whatever the remote does, and sends
    at most two POST requests and nothing else; it changes neither the
    files nor the directories. *)
Theorem _test_api_keys_never_raises self w :
  let w' := exec (_test_api_keys self) w in
  is_ok (run (_test_api_keys self) w) = true ∧
  (count_requests POST (trace w') ≤ count_requests POST (trace w) + 2)%nat ∧
  (count_requests GET (trace w') ≤ count_requests GET (trace w))%nat ∧
  files w' = files w ∧ dirs w' = dirs w.
Proof.
  intros w'. subst w'. split; [apply _test_api_keys_total|].
  destruct (spends_counts _ _ w (spends_test_api_keys self)) as (Hg & Hp & _).
  destruct (_test_api_keys_flags self w) as (bo & bm & w' & E & Hf & Hd & _).
  unfold exec in *. rewrite E in *. simpl in *. repeat split; [lia|lia|done..].
Qed.

(** C38: when the operating system refuses neither of the two image
    directories, the constructor answers the object that the probe of the
    keys left: it reads the keys and the URL of the service from the
    environment (the URL defaults to https://api.goapi.ai), places the two
    image directories under [web_interface/static] of the package, creates
    both after the probe, and writes no file. *)
Theorem AIContentGenerator_init_directories package_dir w :
  directories_error w (initial_generator package_dir (environ w)) = None →
  ∃ self w',
    AIContentGenerator_init package_dir w = (Ok self, w') ∧
    openai_api_key self = environ w !! "OPENAI_API_KEY" ∧
    midjourney_api_key self = environ w !! "MIDJOURNEY_API_KEY" ∧
    midjourney_api_url self
    = default "https://api.goapi.ai" (environ w !! "MIDJOURNEY_API_URL") ∧
    static_dir self = path_join (path_join package_dir "web_interface") "static" ∧
    generated_images_dir self = path_join (static_dir self) "generated_images" ∧
    fallback_images_dir self = path_join (static_dir self) "fallback_images" ∧
    dirs w' = {[fallback_images_dir self]} ∪ ({[generated_images_dir self]} ∪ dirs w) ∧
    files w' = files w ∧
    run (_test_api_keys (initial_generator package_dir (environ w))) w
    = Ok (self, openai_available self || midjourney_available self) ∧
    trace w'
    = trace (exec (_test_api_keys (initial_generator package_dir (environ w))) w)
      ++ [EvMakedirs (generated_images_dir self); EvMakedirs (fallback_images_dir self)].
Proof.
  intros Hd. unfold directories_error in Hd.
  destruct (_test_api_keys_flags (initial_generator package_dir (environ w)) w)
    as (bo & bm & w1 & E & Hf & Hdirs & Hr).
  pose proof (_test_api_keys_makedirs_error
                (initial_generator package_dir (environ w)) w) as Hm.
  unfold run, exec in *. rewrite E in *. cbn [fst snd] in Hm.
  eexists _, _. split.
  { rewrite (AIContentGenerator_init_run _ _ _ _ _ E), !Hm. cbn. cbn in Hd.
    destruct (makedirs_error w _); [done|]. by rewrite Hd. }
  cbn. rewrite Hf, Hdirs, <- app_assoc. by repeat split.
Qed.

(** C39: when the operating system refuses one of the two image directories
    (a regular file is in its place, or any other [OSError]), the constructor
    raises that error and no object is built; the probe of the keys has been
    sent before, and no file is written. *)
Theorem AIContentGenerator_init_raises package_dir w e :
  directories_error w (initial_generator package_dir (environ w)) = Some e →
  let w' := exec (AIContentGenerator_init package_dir) w in
  run (AIContentGenerator_init package_dir) w = Raise e ∧
  requests_of (trace w')
  = requests_of
      (trace (exec (_test_api_keys (initial_generator package_dir (environ w))) w)) ∧
  files w' = files w.
Proof.
  intros Hd w'. subst w'. unfold directories_error in Hd.
  destruct (_test_api_keys_flags (initial_generator package_dir (environ w)) w)
    as (bo & bm & w1 & E & Hf & Hdirs & Hr).
  pose proof (_test_api_keys_makedirs_error
                (initial_generator package_dir (environ w)) w) as Hm.
  unfold run, exec in *. rewrite E in *. cbn [fst snd] in Hm.
  rewrite (AIContentGenerator_init_run _ _ _ _ _ E), !Hm. cbn. cbn in Hd.
  destruct (makedirs_error w _); [by injection Hd as -> |].
  rewrite Hd. cbn. rewrite requests_of_app. cbn. by rewrite app_nil_r.
Qed.

End ProbeTheorems.

(** ** The theorems at concrete inputs *)

Lemma generate_historical_content_success_witness :
  let w := start_world script_single in
  let w2 := exec (generate_image demo_generator "a castle") w in
  let image_path := "/static/generated_images/midjourney_1700000290.jpg" in
  let theme := Some "Ancient Rome" in
  generate_image_prompt (ContentMethods:=demo_methods) demo_generator theme w
  = (Ok "a castle", w) ∧
  generate_image demo_generator "a castle" w = (Ok image_path, w2) ∧
  image_path ≠ EmptyString ∧
  generate_caption (ContentMethods:=demo_methods) demo_generator "a castle" theme w2
  = (Ok "A castle at dawn.", w2) ∧
  generate_historical_content (methods:=demo_methods) demo_generator theme w
  = (Ok (PyDict [("success", PyBool true);
                 ("theme", PyStr "Ancient Rome");
                 ("image_prompt", PyStr "a castle");
                 ("image_path", PyStr image_path);
                 ("caption", PyStr "A castle at dawn.")]), w2).
Proof.
  intros w w2 image_path theme. split; [reflexivity|]. split; [by_computation|].
  split; [discriminate|]. split; [reflexivity|].
  apply (generate_historical_content_success (methods:=demo_methods)
           demo_generator theme w "a castle" w image_path w2 "A castle at dawn." w2);
    first [by_computation | discriminate].
Defined.

Lemma generate_historical_content_image_failure_witness :
  let w := start_world script_failed in
  let w2 := exec (generate_image demo_generator "a castle") w in
  let e := "Failed to generate image with Midjourney: Midjourney task failed: banned prompt" in
  generate_image_prompt (ContentMethods:=demo_methods) demo_generator None w
  = (Ok "a castle", w) ∧
  generate_image demo_generator "a castle" w = (Raise e, w2) ∧
  generate_historical_content (methods:=demo_methods) demo_generator None w
  = (Ok (PyDict [("success", PyBool false);
                 ("error", PyStr ("Failed to generate image: " +:+ e))]), w2).
Proof.
  intros w w2 e. split; [reflexivity|]. split; [by_computation|].
  apply (generate_historical_content_image_failure (methods:=demo_methods)
           demo_generator None w "a castle" w e w2);
    by_computation.
Defined.

Lemma _test_api_keys_probes_witness :
  let w := start_world script_probes in
  key_present (openai_api_key demo_generator) = true ∧
  key_present (midjourney_api_key demo_generator) = true ∧
  serve (openai_test_request demo_generator) (remote w)
  = (body_reply 401 "invalid key", [accepted_reply "probe-1"]) ∧
  serve (midjourney_test_request demo_generator) [accepted_reply "probe-1"]
  = (accepted_reply "probe-1", []) ∧
  run (_test_api_keys demo_generator) w
  = Ok (set_midjourney_available (midjourney_probe (accepted_reply "probe-1"))
          (set_openai_available (openai_probe (body_reply 401 "invalid key"))
             demo_generator),
        openai_probe (body_reply 401 "invalid key")
        || midjourney_probe (accepted_reply "probe-1")) ∧
  trace (exec (_test_api_keys demo_generator) w)
  = trace w ++ [EvRequest (openai_test_request demo_generator);
                EvRequest (midjourney_test_request demo_generator)].
Proof.
  intros w. do 4 (split; [reflexivity|]).
  apply (_test_api_keys_probes demo_generator w (body_reply 401 "invalid key")
           [accepted_reply "probe-1"] (accepted_reply "probe-1") []);
    reflexivity.
Defined.

Lemma AIContentGenerator_init_directories_witness :
  directories_error demo_init_world
    (initial_generator "/app/src" (environ demo_init_world)) = None ∧
  is_ok (run (AIContentGenerator_init "/app/src") demo_init_world) = true.
Proof.
  assert (Hd : directories_error demo_init_world
                 (initial_generator "/app/src" (environ demo_init_world)) = None)
    by (vm_compute; reflexivity).
  split; [exact Hd|].
  destruct (AIContentGenerator_init_directories "/app/src" demo_init_world Hd)
    as (self & w' & E & _).
  unfold run. by rewrite E.
Defined.

(** The constructor on a service that refuses the OpenAI key and accepts
    the Midjourney key: the flags, the directories and the two probes. *)

Example AIContentGenerator_init_demo :
  let r := AIContentGenerator_init "/app/src" demo_init_world in
  option_map openai_available (outcome_value r.1) = Some false ∧
  option_map midjourney_available (outcome_value r.1) = Some true ∧
  elements (dirs r.2) = ["/app/src/web_interface/static/generated_images";
                         "/app/src/web_interface/static/fallback_images"] ∧
  length (requests_of (trace r.2)) = 2%nat.
Proof. by_computation. Qed.

Lemma AIContentGenerator_init_raises_witness :
  directories_error demo_obstructed_world
    (initial_generator "/app/src" (environ demo_obstructed_world))
  = Some "[Errno 17] File exists: '/app/src/web_interface/static/generated_images'" ∧
  run (AIContentGenerator_init "/app/src") demo_obstructed_world
  = Raise "[Errno 17] File exists: '/app/src/web_interface/static/generated_images'" ∧
  length (requests_of (trace (exec (AIContentGenerator_init "/app/src")
                                 demo_obstructed_world))) = 2%nat.
Proof.
  assert (Hd : directories_error demo_obstructed_world
                 (initial_generator "/app/src" (environ demo_obstructed_world))
               = Some "[Errno 17] File exists: '/app/src/web_interface/static/generated_images'")
    by (vm_compute; reflexivity).
  split; [exact Hd|].
  destruct (AIContentGenerator_init_raises "/app/src" demo_obstructed_world _ Hd)
    as (Hrun & Hreq & _).
  split; [exact Hrun|]. rewrite Hreq. by_computation.
Defined.

(** The probe on a service that refuses the OpenAI key and accepts the
    Midjourney key; a generator without keys sends nothing. *)

Example _test_api_keys_demo :
  openai_probe (body_reply 401 "invalid key") = false ∧
  midjourney_probe (accepted_reply "probe-1") = true ∧
  _test_api_keys demo_keyless (start_world script_probes)
  = (Ok (demo_keyless, false), start_world script_probes).
Proof. by_computation. Qed.

(** A batch of three items of the class as it stands: three failure records
    and two pauses. *)

Example generate_batch_content_demo :
  let w := start_world ([] : list Reply) in
  run (generate_batch_content (methods:=missing_methods) demo_generator 3 None) w
  = Ok (replicate 3 (failure_record no_prompt_method)) ∧
  trace (exec (generate_batch_content (methods:=missing_methods) demo_generator 3 None) w)
  = [EvSleep 5; EvSleep 15].
Proof. by_computation. Qed.
